(** * smart-router: the complexity classifier, the tier mapper and the
      routing part of the proxy, embedded from the JavaScript sources

    Sources embedded here:
    - [src/classifier.js]        heuristic scorer, tier mapper, [classify];
    - [src/ollama-classifier.js] external scorer, its tier mapper, [classify],
                                 the availability probe;
    - the proxy ([extractPrompt], the [/v1/messages] handler up to the
      call of [axios], the pass-through request and the statistics);
    - [test/test.js]             the test script.

    Modelling choices.
    - A JavaScript string is the list of its UTF-16 code units ([N]).
    - A JavaScript number is [NaN] or an exact rational: rounding, the
      infinities and the sign of zero of binary64 are not modelled.  The
      scorer adds and subtracts a dozen two-digit decimals to 0.5, so the
      score it computes in binary64 is within 1e-14 of the exact one; a text
      whose exact score is a threshold can fall on either side of it there.
    - The regular expressions of the sources use a small fragment (literal
      characters, [.], [\d], [\s], [[\s\S]], the quantifiers [?], [*], [+],
      [*?] on one character, a leading [^], the flags [i], [m], [g]); the
      backtracking matcher below implements that fragment with the priority
      order of ECMAScript.
    - A thrown exception is an explicit [Throw] result; [try]/[catch] is
      [try_catch]; [await] of a rejected promise is a [Throw].
    - The outside world is a parameter: what the model server answers to a
      request ([axios_post]), whether it was found at startup
      ([ollamaAvailable]), and the built-in [Number.prototype.toString].
      The classifier takes [JSON.stringify] as a parameter; module [JSON] is
      that built-in.  Of the log line only the way the call ends is
      modelled, not the text written. *)

From Stdlib Require Import String Ascii List Bool NArith ZArith QArith Qminmax.
From Stdlib Require Import DecimalString.
From Stdlib Require Import Lia Lqa.
Import ListNotations.

Set Warnings "-register-all".
Open Scope nat_scope.

(* ================================================================== *)
(** * Strings *)

Module JsString.

(** A string value: its sequence of UTF-16 code units. *)
Definition t := list N.

(** An ASCII literal of the sources. *)
Definition lit (s : string) : t := map N_of_ascii (list_ascii_of_string s).

Definition eqb (a b : t) : bool :=
  if list_eq_dec N.eq_dec a b then true else false.

(** [WhiteSpace] and [LineTerminator] code points: what [\s] and
    [String.prototype.trim] recognise. *)
Definition isWhiteSpace (c : N) : bool :=
  ((9 <=? c) && (c <=? 13) || (c =? 32) || (c =? 160) || (c =? 5760)
   || (8192 <=? c) && (c <=? 8202) || (c =? 8232) || (c =? 8233)
   || (c =? 8239) || (c =? 8287) || (c =? 12288) || (c =? 65279))%N.

(** [LineTerminator]: LF, CR, LS, PS. *)
Definition isLineTerminator (c : N) : bool :=
  ((c =? 10) || (c =? 13) || (c =? 8232) || (c =? 8233))%N.

Definition isDigit (c : N) : bool := ((48 <=? c) && (c <=? 57))%N.

(** [s.substring(0, n)] *)
Definition substring0 (n : nat) (s : t) : t := firstn n s.

(** [s.includes(needle)] *)
Fixpoint startsWith (needle s : t) : bool :=
  match needle, s with
  | [], _ => true
  | _ :: _, [] => false
  | a :: needle', b :: s' => (a =? b)%N && startsWith needle' s'
  end.

Fixpoint includes (s needle : t) : bool :=
  startsWith needle s ||
  match s with
  | [] => false
  | _ :: s' => includes s' needle
  end.

(** [s.split(sep)] for a separator of one code unit. *)
Fixpoint split1 (sep : N) (cur : t) (s : t) : list t :=
  match s with
  | [] => [cur]
  | c :: s' => if (c =? sep)%N then cur :: split1 sep [] s'
               else split1 sep (cur ++ [c]) s'
  end.

Definition split (s : t) (sep : N) : list t := split1 sep [] s.

(** [s.trim()] *)
Fixpoint trimStart (s : t) : t :=
  match s with
  | [] => []
  | c :: s' => if isWhiteSpace c then trimStart s' else s
  end.

Fixpoint trimEnd (s : t) : t :=
  match s with
  | [] => []
  | c :: s' =>
      match trimEnd s' with
      | [] => if isWhiteSpace c then [] else [c]
      | r => c :: r
      end
  end.

Definition trim (s : t) : t := trimEnd (trimStart s).

(** [parts.join(sep)] on strings. *)
Fixpoint join (sep : t) (parts : list t) : t :=
  match parts with
  | [] => []
  | [p] => p
  | p :: rest => p ++ sep ++ join sep rest
  end.

End JsString.

Abbreviation jsstring := JsString.t.
Abbreviation js := JsString.lit.

(* ================================================================== *)
(** * Regular expressions *)

Module RegExp.

Inductive CharSet : Type :=
| Chr (c : N)      (* a pattern character *)
| Dot              (* [.]      any code unit but a line terminator *)
| Digit            (* [\d] *)
| Space            (* [\s] *)
| Any.             (* [[\s\S]] *)

Inductive Quant : Type :=
| Once
| Opt              (* [?]  *)
| Star             (* [*]  *)
| Plus             (* [+]  *)
| LazyStar.        (* [*?] *)

Inductive Term : Type := T (a : CharSet) (q : Quant).

Record t : Type := mk {
  anchored : bool;         (* the pattern starts with [^] *)
  source : list Term;
  ignoreCase : bool;       (* flag [i] *)
  multiline : bool;        (* flag [m] *)
  global : bool            (* flag [g] *)
}.

(** [Canonicalize] without the [u] flag.  The pattern characters of the
    sources are ASCII; a code unit above 127 is never folded onto an ASCII
    one, so folding the 26 ASCII letters is exact for these patterns. *)
Definition canonicalize (c : N) : N :=
  if ((97 <=? c) && (c <=? 122))%N then (c - 32)%N else c.

Definition accepts (ic : bool) (a : CharSet) (c : N) : bool :=
  match a with
  | Chr p => if ic then (canonicalize p =? canonicalize c)%N else (p =? c)%N
  | Dot => negb (JsString.isLineTerminator c)
  | Digit => JsString.isDigit c
  | Space => JsString.isWhiteSpace c
  | Any => true
  end.

(** The backtracking matcher: [matchTerms ic ts s] is the number of code
    units of [s] the first successful alternative consumes from its start. *)
Fixpoint matchTerms (ic : bool) (ts : list Term) : jsstring -> option nat :=
  match ts with
  | [] => fun _ => Some 0
  | T a q :: ts' =>
      let k := matchTerms ic ts' in
      let one (f : jsstring -> option nat) (s : jsstring) :=
        match s with
        | c :: s' => if accepts ic a c then option_map S (f s') else None
        | [] => None
        end in
      let star :=
        fix star (s : jsstring) : option nat :=
          match s with
          | c :: s' =>
              if accepts ic a c then
                match star s' with
                | Some n => Some (S n)
                | None => k s
                end
              else k s
          | [] => k s
          end in
      let lazy :=
        fix lazy (s : jsstring) : option nat :=
          match k s with
          | Some n => Some n
          | None =>
              match s with
              | c :: s' => if accepts ic a c then option_map S (lazy s') else None
              | [] => None
              end
          end in
      match q with
      | Once => one k
      | Opt => fun s => match one k s with Some n => Some n | None => k s end
      | Star => star
      | Plus => one star
      | LazyStar => lazy
      end
  end.

(** A match attempt at one position; [prev] is the code unit before it. *)
Definition atLineStart (re : t) (prev : option N) : bool :=
  match prev with
  | None => true
  | Some p => multiline re && JsString.isLineTerminator p
  end.

Definition matchAt (re : t) (prev : option N) (s : jsstring) : option nat :=
  if anchored re && negb (atLineStart re prev) then None
  else matchTerms (ignoreCase re) (source re) s.

(** [RegExpBuiltinExec] from position 0: index and length of the leftmost
    match. *)
Fixpoint execFrom (re : t) (prev : option N) (s : jsstring) : option (nat * nat) :=
  match matchAt re prev s with
  | Some n => Some (0, n)
  | None =>
      match s with
      | [] => None
      | c :: s' =>
          match execFrom re (Some c) s' with
          | Some (i, n) => Some (S i, n)
          | None => None
          end
      end
  end.

Definition exec (re : t) (s : jsstring) : option (nat * nat) := execFrom re None s.

(** [re.test(s)] for a regular expression without the [g] flag. *)
Definition test (re : t) (s : jsstring) : bool :=
  match exec re s with Some _ => true | None => false end.

(** All matches of a [g] regular expression, left to right: after a match
    the search resumes at its end ([skip] counts the code units of the
    current match still to step over); an empty match advances by one. *)
Fixpoint matchAllFrom (re : t) (skip : nat) (prev : option N) (s : jsstring)
  : list jsstring :=
  match skip with
  | S skip' =>
      match s with
      | [] => []
      | c :: s' => matchAllFrom re skip' (Some c) s'
      end
  | O =>
      match matchAt re prev s with
      | Some n =>
          firstn n s ::
          match s with
          | [] => []
          | c :: s' => matchAllFrom re (Nat.pred n) (Some c) s'
          end
      | None =>
          match s with
          | [] => []
          | c :: s' => matchAllFrom re 0 (Some c) s'
          end
      end
  end.

(** [s.match(re)]: [null] when nothing matches; with [g] the array of all
    matches, without it the array whose element 0 is the first match. *)
Definition String_match (s : jsstring) (re : t) : option (list jsstring) :=
  if global re then
    match matchAllFrom re 0 None s with
    | [] => None
    | ms => Some ms
    end
  else
    match exec re s with
    | Some (i, n) => Some [firstn n (skipn i s)]
    | None => None
    end.

(** [s.split(re)]: the pieces between the matches of [re]. *)
Fixpoint splitFrom (re : t) (skip : nat) (prev : option N) (cur : jsstring)
         (s : jsstring) : list jsstring :=
  match s with
  | [] => [cur]
  | c :: s' =>
      match skip with
      | S skip' => splitFrom re skip' (Some c) cur s'
      | O =>
          match matchAt re prev s with
          | Some (S n) => cur :: splitFrom re n (Some c) [] s'
          | Some O =>
              match cur with
              | [] => splitFrom re 0 (Some c) [c] s'
              | _ => cur :: splitFrom re 0 (Some c) [c] s'
              end
          | None => splitFrom re 0 (Some c) (cur ++ [c]) s'
          end
      end
  end.

Definition String_split (s : jsstring) (re : t) : list jsstring :=
  match s with
  | [] => match matchAt re None [] with Some _ => [] | None => [[]] end
  | _ => splitFrom re 0 None [] s
  end.

(** ** Writing the patterns of the sources *)

Definition str (s : string) : list Term :=
  map (fun c => T (Chr c) Once) (JsString.lit s).

Definition dotStar : list Term := [T Dot Star].   (* [.*] *)
Definition dotOpt : list Term := [T Dot Opt].     (* [.?] *)

(** [/p/i] and [/^p/i] *)
Definition i (p : list (list Term)) : t := mk false (concat p) true false false.
Definition i_bol (p : list (list Term)) : t := mk true (concat p) true false false.

End RegExp.

(* ================================================================== *)
(** * Numbers *)

Module Number.

(** A number value: [NaN] or an exact rational. *)
Inductive t : Type :=
| NaN
| Num (q : Q).

Definition ofNat (n : nat) : t := Num (inject_Z (Z.of_nat n)).

Definition add (a b : t) : t :=
  match a, b with Num x, Num y => Num (x + y) | _, _ => NaN end.

Definition sub (a b : t) : t :=
  match a, b with Num x, Num y => Num (x - y) | _, _ => NaN end.

Definition mul (a b : t) : t :=
  match a, b with Num x, Num y => Num (x * y) | _, _ => NaN end.

(** [a / b]; a zero divisor (an infinity or [NaN] in JavaScript) is not
    modelled and yields [NaN]; the sources divide by the literal 10 only. *)
Definition div (a b : t) : t :=
  match a, b with
  | Num x, Num y => if Qeq_bool y 0 then NaN else Num (x / y)
  | _, _ => NaN
  end.

(** [a < b]: false when an operand is [NaN]. *)
Definition ltb (a b : t) : bool :=
  match a, b with Num x, Num y => negb (Qle_bool y x) | _, _ => false end.

(** The order on numbers, as propositions: [NaN] is not comparable. *)
Definition lt (a b : t) : Prop :=
  match a, b with Num x, Num y => (x < y)%Q | _, _ => False end.

Definition le (a b : t) : Prop :=
  match a, b with Num x, Num y => (x <= y)%Q | _, _ => False end.

(** [ToBoolean]: 0 and [NaN] are falsy. *)
Definition truthy (a : t) : bool :=
  match a with NaN => false | Num x => negb (Qeq_bool x 0) end.

(** [Math.max(a, b)] and [Math.min(a, b)]: [NaN] when an argument is. *)
Definition Math_max (a b : t) : t :=
  match a, b with Num x, Num y => Num (Qmax x y) | _, _ => NaN end.

Definition Math_min (a b : t) : t :=
  match a, b with Num x, Num y => Num (Qmin x y) | _, _ => NaN end.

(** [x || d] for a property [x] that may be absent ([undefined]). *)
Definition orDefault (x : option t) (d : t) : t :=
  match x with
  | Some v => if truthy v then v else d
  | None => d
  end.

End Number.

Declare Scope num_scope.
Delimit Scope num_scope with num.
Bind Scope num_scope with Number.t.
Notation "a + b" := (Number.add a b) : num_scope.
Notation "a - b" := (Number.sub a b) : num_scope.
Notation "a * b" := (Number.mul a b) : num_scope.
Notation "a / b" := (Number.div a b) : num_scope.
Notation "# q" := (Number.Num q%Q) (at level 5, q at level 1, format "# q").

(* ================================================================== *)
(** * Values, exceptions *)

Inductive Error : Type :=
| TypeError          (* a property read on [null]/[undefined], a call of a non-function *)
| RequestFailed.     (* a rejected HTTP request: timeout, transport error, error status *)

Inductive Completion (A : Type) : Type :=
| Normal (a : A)
| Throw (e : Error).

Arguments Normal {A} a.
Arguments Throw {A} e.

Definition bind {A B} (c : Completion A) (k : A -> Completion B) : Completion B :=
  match c with
  | Normal a => k a
  | Throw e => Throw e
  end.

(** [try { body } catch (error) { handler }] *)
Definition try_catch {A} (body : Completion A) (handler : Error -> Completion A)
  : Completion A :=
  match body with
  | Normal a => Normal a
  | Throw e => handler e
  end.

Notation "x <- c ;; k" := (bind c (fun x => k))
  (at level 61, c at next level, right associativity).

(** The values a parsed JSON document (and a property read on it) can be. *)
Inductive jsval : Type :=
| VUndefined
| VNull
| VBool (b : bool)
| VNumber (n : Number.t)
| VString (s : jsstring)
| VArray (elems : list jsval)
| VObject (fields : list (jsstring * jsval)).

Module Value.

Fixpoint lookup (name : jsstring) (fields : list (jsstring * jsval)) : jsval :=
  match fields with
  | [] => VUndefined
  | (k, v) :: rest => if JsString.eqb k name then v else lookup name rest
  end.

(** Whether an object has an own property of that name. *)
Definition hasOwn (name : jsstring) (fields : list (jsstring * jsval)) : bool :=
  existsb (fun kv => JsString.eqb (fst kv) name) fields.

(** [v.name] for the property names the sources read ([messages], [role],
    [content], [type], [text], [model], [response]); none of them is a
    built-in property of a string, an array, a number or a boolean. *)
Definition get (v : jsval) (name : jsstring) : Completion jsval :=
  match v with
  | VUndefined | VNull => Throw TypeError
  | VObject fields => Normal (lookup name fields)
  | _ => Normal VUndefined
  end.

(** [ToBoolean] *)
Definition truthy (v : jsval) : bool :=
  match v with
  | VUndefined | VNull => false
  | VBool b => b
  | VNumber n => Number.truthy n
  | VString s => match s with [] => false | _ => true end
  | VArray _ | VObject _ => true
  end.

(** [v === 'literal'] *)
Definition strictEqString (v : jsval) (s : jsstring) : bool :=
  match v with
  | VString x => JsString.eqb x s
  | _ => false
  end.

End Value.

(* ================================================================== *)
(** * JSON.stringify *)

(** [JSON.stringify(value)] without replacer and indentation, on the
    values above.  An object lists its own properties in the order
    [JSON.stringify] visits them; none of these values has a callable
    [toJSON]. *)
Module JSON.

(** A hexadecimal digit, in lower case. *)
Definition hexDigit (d : N) : N :=
  if (d <? 10)%N then (48 + d)%N else (87 + d)%N.

(** [UnicodeEscape]: a backslash, [u] and four hexadecimal digits. *)
Definition UnicodeEscape (c : N) : jsstring :=
  [92; 117; hexDigit ((c / 4096) mod 16); hexDigit ((c / 256) mod 16);
   hexDigit ((c / 16) mod 16); hexDigit (c mod 16)]%N.

Definition isLeadingSurrogate (c : N) : bool := ((55296 <=? c) && (c <=? 56319))%N.

Definition isTrailingSurrogate (c : N) : bool := ((56320 <=? c) && (c <=? 57343))%N.

(** The text of one code unit that is not part of a surrogate pair: the
    two-character escapes of backspace, tab, line feed, form feed, carriage
    return, the double quote and the backslash; a [UnicodeEscape] for the
    other control characters and for a lone surrogate. *)
Definition quoteUnit (c : N) : jsstring :=
  if (c =? 8)%N then [92; 98]%N
  else if (c =? 9)%N then [92; 116]%N
  else if (c =? 10)%N then [92; 110]%N
  else if (c =? 12)%N then [92; 102]%N
  else if (c =? 13)%N then [92; 114]%N
  else if (c =? 34)%N then [92; 34]%N
  else if (c =? 92)%N then [92; 92]%N
  else if (c <? 32)%N || isLeadingSurrogate c || isTrailingSurrogate c
       then UnicodeEscape c
  else [c].

Fixpoint quoteUnits (s : jsstring) : jsstring :=
  match s with
  | [] => []
  | c :: rest =>
      match rest with
      | d :: rest' =>
          if isLeadingSurrogate c && isTrailingSurrogate d
          then c :: d :: quoteUnits rest'
          else quoteUnit c ++ quoteUnits rest
      | [] => quoteUnit c
      end
  end.

(** [QuoteJSONString] *)
Definition QuoteJSONString (s : jsstring) : jsstring :=
  [34%N] ++ quoteUnits s ++ [34%N].

Section WithNumbers.

(** [Number.prototype.toString] on a finite number. *)
Variable Number_toString : Number.t -> jsstring.

(** [SerializeJSONProperty] on a value that is not [undefined]; an
    [undefined] element of an array is serialized as [null], a property
    whose value is [undefined] is left out. *)
Fixpoint SerializeJSONProperty (v : jsval) : jsstring :=
  match v with
  | VUndefined | VNull => js "null"
  | VBool true => js "true"
  | VBool false => js "false"
  | VNumber Number.NaN => js "null"
  | VNumber n => Number_toString n
  | VString s => QuoteJSONString s
  | VArray elems =>
      js "[" ++
      JsString.join (js ",")
        ((fix each (l : list jsval) : list jsstring :=
            match l with
            | [] => []
            | x :: l' => SerializeJSONProperty x :: each l'
            end) elems) ++
      js "]"
  | VObject fields =>
      js "{" ++
      JsString.join (js ",")
        ((fix members (l : list (jsstring * jsval)) : list jsstring :=
            match l with
            | [] => []
            | (_, VUndefined) :: l' => members l'
            | (k, x) :: l' =>
                (QuoteJSONString k ++ js ":" ++ SerializeJSONProperty x) :: members l'
            end) fields) ++
      js "}"
  end.

(** [JSON.stringify(v)]: [undefined] ([None]) for [undefined]. *)
Definition stringify (v : jsval) : option jsstring :=
  match v with
  | VUndefined => None
  | _ => Some (SerializeJSONProperty v)
  end.

End WithNumbers.

End JSON.

(** [s || d] on a string property that may be absent. *)
Definition orString (x : option jsstring) (d : jsstring) : jsstring :=
  match x with
  | Some [] | None => d
  | Some s => s
  end.

(* ================================================================== *)
(** * Shapes shared by the two classifiers and the proxy *)

Inductive Tier : Type := simple | medium | complex | passthrough | forced.

Inductive Source : Type := heuristics | ollama | none | src_forced.

(** The [config] argument of the classifiers: every property may be absent. *)
Record Config : Type := mkConfig {
  simpleThreshold : option Number.t;
  complexThreshold : option Number.t;
  simpleModel : option jsstring;
  mediumModel : option jsstring;
  complexModel : option jsstring
}.

(** [config = {}] *)
Definition emptyConfig : Config := mkConfig None None None None None.

(** [{ model, tier, score }] *)
Record Recommendation : Type := mkRecommendation {
  rec_model : jsstring;
  rec_tier : Tier;
  rec_score : Number.t
}.

(** The classification object: [{ model, tier, score, source, prompt }];
    [model], [source] and [prompt] are absent on some of the objects the
    sources build. *)
Record Classification : Type := mkClassification {
  cls_model : option jsstring;
  cls_tier : Tier;
  cls_score : Number.t;
  cls_source : option Source;
  cls_prompt : option jsstring
}.

(** What a prompt can be: a string, or another value that [JSON.stringify]
    serializes. *)
Inductive Prompt : Type :=
| PString (s : jsstring)
| PObject (v : jsval).

(* ================================================================== *)
(** * src/classifier.js *)

Module Classifier.

Import RegExp.

(** Complexity indicators (high complexity) *)
Definition COMPLEX_PATTERNS : list RegExp.t := [
  i [str "architect"];
  i [str "design"; dotStar; str "system"];
  i [str "implement"; dotStar; str "from scratch"];
  i [str "debug"; dotStar; str "complex"];
  i [str "debug"; dotStar; str "race"; dotOpt; str "condition"];
  i [str "race"; dotOpt; str "condition"];
  i [str "payment"; dotStar; str "processing"];
  i [str "only"; dotStar; str "happens"];
  i [str "optimize"; dotStar; str "performance"];
  i [str "refactor"; dotStar; str "entire"];
  i [str "security"; dotStar; str "audit"];
  i [str "audit"];
  i [str "multi"; dotOpt; str "step"];
  i [str "step"; dotOpt; str "by"; dotOpt; str "step"; dotStar; str "plan"];
  i [str "comprehensive"];
  i [str "in"; dotOpt; str "depth"; dotStar; str "analysis"];
  i [str "compare"; dotStar; str "contrast"; dotStar; str "multiple"];
  i [str "trade"; dotOpt; str "offs"];
  i [str "edge"; dotOpt; str "cases"];
  i [str "error"; dotOpt; str "handling"];
  i [str "scalab"];
  i [str "distributed"];
  i [str "concurren"];
  i [str "async"; dotStar; str "complex"];
  i [str "state"; dotOpt; str "machine"];
  i [str "algorithm"];
  i [str "data"; dotOpt; str "structure"];
  i [str "migration"; dotStar; str "strategy"];
  i [str "breaking"; dotStar; str "change"];
  i [str "backward"; dotStar; str "compat"];
  i [str "vulnerabilit"];
  i [str "rollback"];
  i [str "high"; dotOpt; str "load"];
  i [str "circuit"; dotOpt; str "breaker"];
  i [str "microservice"]
].

(** Simple task indicators (low complexity) *)
Definition SIMPLE_PATTERNS : list RegExp.t := [
  i_bol [str "what is"];
  i_bol [str "what's"];
  i_bol [str "how do i"];
  i_bol [str "explain"; dotStar; str "briefly"];
  i_bol [str "define"];
  i_bol [str "list"];
  i_bol [str "summarize"];
  i_bol [str "translate"];
  i [str "fix"; dotStar; str "typo"];
  i [str "simple"; dotStar; str "question"];
  i [str "quick"; dotStar; str "question"];
  i_bol [str "yes or no"];
  i_bol [str "true or false"];
  i [str "format"; dotStar; str "this"];
  i [str "convert"; dotStar; str "to"];
  i_bol [str "rename"];
  i [str "add"; dotStar; str "comment"];
  i [str "remove"; dotStar; str "unused"];
  i_bol [str "what does"; dotStar; str "mean"];
  i_bol [str "can you"; dotStar; str "explain"]
].

(** Medium complexity patterns *)
Definition MEDIUM_PATTERNS : list RegExp.t := [
  i [str "write"; dotStar; str "function"];
  i [str "create"; dotStar; str "component"];
  i [str "implement"; dotStar; str "feature"];
  i [str "add"; dotStar; str "endpoint"];
  i [str "fix"; dotStar; str "bug"];
  i [str "update"; dotStar; str "to"];
  i [str "modify"];
  i [str "change"; dotStar; str "behavior"];
  i [str "test"; dotStar; str "for"];
  i [str "write"; dotStar; str "test"]
].

(** [/```[\s\S]*?```/g] *)
Definition re_codeBlock : RegExp.t :=
  mk false (str "```" ++ [T Any LazyStar] ++ str "```") false false true.

(** [/\s+/] *)
Definition re_spaces : RegExp.t := mk false [T Space Plus] false false false.

(** [/\?/g] *)
Definition re_questionMark : RegExp.t := mk false (str "?") false false true.

(** [/^\d+\./gm] *)
Definition re_numberedItem : RegExp.t :=
  mk true ([T Digit Plus] ++ str ".") false true true.

(** [x || []] on the result of [String.prototype.match] *)
Definition orEmpty (x : option (list jsstring)) : list jsstring :=
  match x with Some l => l | None => [] end.

(** Count code blocks and their size *)
Definition analyzeCodeContent (text : jsstring) : nat * nat :=
  let codeBlocks := orEmpty (String_match text re_codeBlock) in
  let totalCodeLines :=
    fold_left (fun acc block => (acc + length (JsString.split block 10))%nat)
              codeBlocks 0%nat in
  (length codeBlocks, totalCodeLines).

(** [for (const pattern of patterns) { if (pattern.test(text)) matches++; }] *)
Definition countMatches (patterns : list RegExp.t) (text : jsstring) : nat :=
  fold_left (fun matches pattern =>
               if test pattern text then S matches else matches)
            patterns 0%nat.

(** Get model recommendation based on complexity *)
Definition getModelForComplexity (score : Number.t) (config : Config)
  : Recommendation :=
  let thresholds_simple := Number.orDefault (simpleThreshold config) #0.35 in
  let thresholds_complex := Number.orDefault (complexThreshold config) #0.65 in
  let models_simple := orString (simpleModel config) (js "claude-3-5-haiku-20241022") in
  let models_medium := orString (mediumModel config) (js "claude-sonnet-4-20250514") in
  let models_complex := orString (complexModel config) (js "claude-opus-4-20250514") in
  if Number.ltb score thresholds_simple then
    mkRecommendation models_simple simple score
  else if Number.ltb score thresholds_complex then
    mkRecommendation models_medium medium score
  else
    mkRecommendation models_complex complex score.

Section WithBuiltins.

(** [JSON.stringify]: the text of a value, or [undefined] ([None]) for a
    value it does not serialize. *)
Variable JSON_stringify : jsval -> option jsstring.

Local Open Scope num_scope.

(** [typeof prompt === 'string' ? prompt : JSON.stringify(prompt)] *)
Definition textOf (prompt : Prompt) : option jsstring :=
  match prompt with
  | PString s => Some s
  | PObject v => JSON_stringify v
  end.

(** Calculate complexity score (0-1).  [text.split] on an [undefined]
    text throws. *)
Definition calculateComplexity (prompt : Prompt) : Completion Number.t :=
  let score := #0.5 in (* Start neutral *)
  text <- match textOf prompt with
          | Some text => Normal text
          | None => Throw TypeError
          end ;;
  let wordCount := length (String_split text re_spaces) in
  let '(codeBlocks, codeLines) := analyzeCodeContent text in
  (* Length-based scoring *)
  let score :=
    if (wordCount <? 20)%nat then score - #0.15
    else if (wordCount <? 50)%nat then score - #0.05
    else if (200 <? wordCount)%nat then score + #0.1
    else if (500 <? wordCount)%nat then score + #0.2
    else score in
  (* Code content scoring *)
  let score :=
    if (100 <? codeLines)%nat then score + #0.15
    else if (50 <? codeLines)%nat then score + #0.1
    else if (0 <? codeBlocks)%nat && (codeLines <? 20)%nat then score - #0.05
    else score in
  (* Pattern matching *)
  let complexMatches := countMatches COMPLEX_PATTERNS text in
  let simpleMatches := countMatches SIMPLE_PATTERNS text in
  let mediumMatches := countMatches MEDIUM_PATTERNS text in
  (* Apply pattern scores *)
  let score := score + Number.ofNat complexMatches * #0.08 in
  let score := score - Number.ofNat simpleMatches * #0.1 in
  let score := score + Number.ofNat mediumMatches * #0.03 in
  (* Question marks suggest simpler queries *)
  let questionMarks := length (orEmpty (String_match text re_questionMark)) in
  let score :=
    if (0 <? questionMarks)%nat && (wordCount <? 30)%nat then score - #0.1
    else score in
  (* Multiple questions or requirements suggest complexity *)
  let score := if (3 <? questionMarks)%nat then score + #0.1 else score in
  (* Numbered lists suggest multi-step tasks *)
  let numberedItems := length (orEmpty (String_match text re_numberedItem)) in
  let score := if (3 <? numberedItems)%nat then score + #0.15 else score in
  (* Clamp to 0-1 *)
  Normal (Number.Math_max #0 (Number.Math_min #1 score)).

(** Main classifier function *)
Definition classify (prompt : Prompt) (config : Config)
  : Completion Classification :=
  score <- calculateComplexity prompt ;;
  let recommendation := getModelForComplexity score config in
  Normal {| cls_model := Some (rec_model recommendation);
            cls_tier := rec_tier recommendation;
            cls_score := rec_score recommendation;
            cls_source := None;
            cls_prompt := Some match prompt with
                               | PString s => JsString.substring0 100 s ++ js "..."
                               | PObject _ => js "[object]"
                               end |}.

End WithBuiltins.

End Classifier.

(* ================================================================== *)
(** * src/ollama-classifier.js *)

Module OllamaClassifier.

Import RegExp.

(** [/\d+/] *)
Definition re_digits : RegExp.t := mk false [T Digit Plus] false false false.

Fixpoint digitsPrefix (s : jsstring) : list N :=
  match s with
  | c :: s' => if JsString.isDigit c then c :: digitsPrefix s' else []
  | [] => []
  end.

Definition decimalValue (ds : list N) : Z :=
  fold_left (fun acc d => (10 * acc + Z.of_N (d - 48))%Z) ds 0%Z.

(** [parseInt(s, 10)]: leading white space, an optional sign, the longest
    prefix of decimal digits; [NaN] when there is no digit. *)
Definition parseInt10 (s : jsstring) : Number.t :=
  let s := JsString.trimStart s in
  let '(sign, s) :=
    match s with
    | c :: s' => if (c =? 45)%N then ((-1)%Z, s')
                 else if (c =? 43)%N then (1%Z, s')
                 else (1%Z, s)
    | [] => (1%Z, [])
    end in
  match digitsPrefix s with
  | [] => Number.NaN
  | ds => Number.Num (inject_Z (sign * decimalValue ds))
  end.

(** [v.trim()] *)
Definition call_trim (v : jsval) : Completion jsstring :=
  match v with
  | VString s => Normal (JsString.trim s)
  | _ => Throw TypeError
  end.

(** Get model recommendation based on Ollama score *)
Definition getModelForScore (score : Number.t) (config : Config)
  : Recommendation :=
  let thresholds_simple := Number.orDefault (simpleThreshold config) #0.35 in
  let thresholds_complex := Number.orDefault (complexThreshold config) #0.65 in
  let models_simple := orString (simpleModel config) (js "claude-3-5-haiku-20241022") in
  let models_medium := orString (mediumModel config) (js "claude-sonnet-4-20250514") in
  let models_complex := orString (complexModel config) (js "claude-opus-4-20250514") in
  if Number.ltb score thresholds_simple then
    mkRecommendation models_simple simple score
  else if Number.ltb score thresholds_complex then
    mkRecommendation models_medium medium score
  else
    mkRecommendation models_complex complex score.

Section WithOllama.

(** The model server: what [await axios.post(...)] gives for a request
    that embeds the given excerpt of the prompt; the response object, or
    a rejection (timeout, transport error, error status). *)
Variable axios_post : jsstring -> Completion jsval.

Local Open Scope num_scope.

(** Call Ollama for classification.  [prompt.substring] is read before
    the [try]: a prompt that is not a string throws. *)
Definition classifyWithOllama (prompt : Prompt) : Completion (option Number.t) :=
  match prompt with
  | PObject _ => Throw TypeError
  | PString prompt =>
      let excerpt := JsString.substring0 1000 prompt in
      try_catch
        (response <- axios_post excerpt ;;
         data <- Value.get response (js "data") ;;
         answer <- Value.get data (js "response") ;;
         text <- call_trim answer ;;
         let first := match String_match text re_digits with
                      | Some (m :: _) => Some m
                      | _ => None
                      end in
         let score := parseInt10 (orString first (js "5")) in
         (* Normalize to 0-1 *)
         Normal (Some (Number.Math_max #0 (Number.Math_min #1 (score / #10)))))
        (fun error => Normal None) (* Fallback to heuristics *)
  end.

(** Main classifier with Ollama *)
Definition classify (prompt : Prompt) (config : Config)
  : Completion (option Classification) :=
  score <- classifyWithOllama prompt ;;
  match score with
  | None => Normal None
  | Some score =>
      let recommendation := getModelForScore score config in
      Normal (Some {| cls_model := Some (rec_model recommendation);
                      cls_tier := rec_tier recommendation;
                      cls_score := rec_score recommendation;
                      cls_source := Some ollama;
                      cls_prompt := Some match prompt with
                                         | PString s => JsString.substring0 100 s ++ js "..."
                                         | PObject _ => js "[object]"
                                         end |})
  end.

End WithOllama.

End OllamaClassifier.

(* ================================================================== *)
(** * The proxy: [extractPrompt] and the [/v1/messages] handler *)

Module Proxy.

(** The [CONFIG] object (the properties the routing reads). *)
Module CONFIG.
Record t : Type := mk {
  simpleModel : jsstring;
  mediumModel : jsstring;
  complexModel : jsstring;
  simpleThreshold : Number.t;
  complexThreshold : Number.t;
  verbose : bool;
  forceModel : option jsstring;    (* [null] or a string *)
  disabled : bool
}.
End CONFIG.

(** The [stats] object. *)
Module Stats.
Record t : Type := mk {
  total : nat;
  routed_simple : nat;
  routed_medium : nat;
  routed_complex : nat;
  saved : nat
}.

(** [stats.total++] *)
Definition incrTotal (s : t) : t :=
  mk (S (total s)) (routed_simple s) (routed_medium s) (routed_complex s) (saved s).

(** [stats.routed[tier]++]; the tiers read here are [simple], [medium]
    and [complex] (on another key JavaScript would add a [NaN]
    property to [routed], which is not modelled). *)
Definition incrRouted (tier : Tier) (s : t) : t :=
  match tier with
  | simple => mk (total s) (S (routed_simple s)) (routed_medium s) (routed_complex s) (saved s)
  | medium => mk (total s) (routed_simple s) (S (routed_medium s)) (routed_complex s) (saved s)
  | complex => mk (total s) (routed_simple s) (routed_medium s) (S (routed_complex s)) (saved s)
  | _ => s
  end.

(** [stats.saved++] *)
Definition incrSaved (s : t) : t :=
  mk (total s) (routed_simple s) (routed_medium s) (routed_complex s) (S (saved s)).
End Stats.

(** The handler mutates [stats] and may throw: a state and exception
    monad; the state reached when an exception is thrown is kept. *)
Definition Handler (A : Type) : Type := Stats.t -> Stats.t * Completion A.

Definition ret {A} (a : A) : Handler A := fun s => (s, Normal a).

Definition lift {A} (c : Completion A) : Handler A := fun s => (s, c).

Definition modify (f : Stats.t -> Stats.t) : Handler unit :=
  fun s => (f s, Normal tt).

Definition bindH {A B} (c : Handler A) (k : A -> Handler B) : Handler B :=
  fun s =>
    match c s with
    | (s', Normal a) => k a s'
    | (s', Throw e) => (s', Throw e)
    end.

Notation "x <~ c ;; k" := (bindH c (fun x => k))
  (at level 61, c at next level, right associativity).

(** [array.filter(callback)]: the callback runs on the elements in order
    and the first exception it throws ends the call. *)
Fixpoint Array_filter (callback : jsval -> Completion bool) (elems : list jsval)
  : Completion (list jsval) :=
  match elems with
  | [] => Normal []
  | x :: rest =>
      keep <- callback x ;;
      rest' <- Array_filter callback rest ;;
      Normal (if keep then x :: rest' else rest')
  end.

(** [array.map(callback)] *)
Fixpoint Array_map (callback : jsval -> Completion jsval) (elems : list jsval)
  : Completion (list jsval) :=
  match elems with
  | [] => Normal []
  | x :: rest =>
      y <- callback x ;;
      rest' <- Array_map callback rest ;;
      Normal (y :: rest')
  end.

(** [Array.isArray(v)] *)
Definition isArray (v : jsval) : bool :=
  match v with VArray _ => true | _ => false end.

(** [array[array.length - 1]] on a non-empty array. *)
Fixpoint lastElement (elems : list jsval) : option jsval :=
  match elems with
  | [] => None
  | [x] => Some x
  | _ :: rest => lastElement rest
  end.

(** [s.includes('opus')] *)
Definition includesOpus (s : jsstring) : bool := JsString.includes s (js "opus").

Section WithEnvironment.

(** [Number.prototype.toString] and [JSON.stringify]. *)
Variable Number_toString : Number.t -> jsstring.
Variable JSON_stringify : jsval -> option jsstring.

(** The model server behind [classifyOllama] and the startup probe
    [ollamaAvailable = await isOllamaAvailable()]. *)
Variable axios_post : jsstring -> Completion jsval.
Variable ollamaAvailable : bool.

Variable CONFIG : CONFIG.t.

(** [ToString(v)].  An array is the [join(',')] of its elements, where an
    [undefined] or [null] element gives the empty string.  An object of a
    parsed document is converted by [Object.prototype.toString], unless it
    has an own property [toString]: that property is not callable, and
    [valueOf] gives no primitive either, so the conversion throws a
    TypeError. *)
Fixpoint ToString (v : jsval) : Completion jsstring :=
  match v with
  | VUndefined => Normal (js "undefined")
  | VNull => Normal (js "null")
  | VBool true => Normal (js "true")
  | VBool false => Normal (js "false")
  | VNumber n => Normal (Number_toString n)
  | VString s => Normal s
  | VArray elems =>
      parts <-
        (fix each (l : list jsval) : Completion (list jsstring) :=
           match l with
           | [] => Normal []
           | x :: l' =>
               s <- match x with
                    | VUndefined | VNull => Normal []
                    | _ => ToString x
                    end ;;
               rest <- each l' ;;
               Normal (s :: rest)
           end) elems ;;
      Normal (JsString.join (js ",") parts)
  | VObject fields =>
      if Value.hasOwn (js "toString") fields then Throw TypeError
      else Normal (js "[object Object]")
  end.

(** The texts [join] puts together: the elements are converted in order,
    and the first conversion that throws ends the call. *)
Fixpoint Array_texts (elems : list jsval) : Completion (list jsstring) :=
  match elems with
  | [] => Normal []
  | x :: rest =>
      s <- match x with
           | VUndefined | VNull => Normal []
           | _ => ToString x
           end ;;
      rest' <- Array_texts rest ;;
      Normal (s :: rest')
  end.

(** [array.join(sep)] *)
Definition Array_join (elems : list jsval) (sep : jsstring) : Completion jsstring :=
  parts <- Array_texts elems ;;
  Normal (JsString.join sep parts).

(** Extract user message from request body *)
Definition extractPrompt (body : jsval) : Completion jsstring :=
  messages <- Value.get body (js "messages") ;;
  if negb (Value.truthy messages) || negb (isArray messages) then Normal []
  else
  match messages with
  | VArray messages =>
      (* Get the last user message *)
      userMessages <-
        Array_filter (fun m => role <- Value.get m (js "role") ;;
                               Normal (Value.strictEqString role (js "user")))
                     messages ;;
      match lastElement userMessages with
      | None => Normal []          (* userMessages.length === 0 *)
      | Some lastMessage =>
          content <- Value.get lastMessage (js "content") ;;
          (* Handle string or content array *)
          match content with
          | VString s => Normal s
          | VArray parts =>
              texts <-
                Array_filter (fun c => type <- Value.get c (js "type") ;;
                                       Normal (Value.strictEqString type (js "text")))
                             parts ;;
              mapped <- Array_map (fun c => Value.get c (js "text")) texts ;;
              Array_join mapped [10%N]
          | _ => Normal []
          end
      end
  | _ => Normal []
  end.

(** [{ tier: 'passthrough', score: 0, source: 'none' }] *)
Definition passthroughClassification : Classification :=
  mkClassification None passthrough #0 (Some none) None.

(** [{ tier: 'forced', score: 0, source: 'forced' }] *)
Definition forcedClassification : Classification :=
  mkClassification None forced #0 (Some src_forced) None.

(** [classifyConfig]: the five routing properties of [CONFIG]. *)
Definition classifyConfig : Config :=
  mkConfig (Some (CONFIG.simpleThreshold CONFIG))
           (Some (CONFIG.complexThreshold CONFIG))
           (Some (CONFIG.simpleModel CONFIG))
           (Some (CONFIG.mediumModel CONFIG))
           (Some (CONFIG.complexModel CONFIG)).

(** [!CONFIG.disabled && !CONFIG.forceModel] *)
Definition routingEnabled : bool :=
  negb (CONFIG.disabled CONFIG) &&
  negb (match CONFIG.forceModel CONFIG with
        | Some (_ :: _) => true
        | _ => false
        end).

(** The classification steps of the handler when routing is enabled:
    try Ollama first, fall back to heuristics. *)
Definition route (prompt : jsstring) : Completion Classification :=
  classification <-
    (if ollamaAvailable then
       OllamaClassifier.classify axios_post (PString prompt) classifyConfig
     else Normal (Some passthroughClassification)) ;;
  (* Fallback to heuristics if Ollama failed or unavailable *)
  match classification with
  | Some (mkClassification _ _ _ (Some ollama) _ as c) => Normal c
  | _ =>
      c <- Classifier.classify JSON_stringify (PString prompt) classifyConfig ;;
      (* classification.source = 'heuristics' *)
      Normal (mkClassification (cls_model c) (cls_tier c) (cls_score c)
                               (Some heuristics) (cls_prompt c))
  end.

(** [originalModel?.includes('opus')] on the [model] of the body: absent
    or [null] gives [undefined]; a string is searched; an array is
    searched for the element ['opus']; any other value has no [includes]
    method. *)
Definition originalIncludesOpus (originalModel : jsval) : Completion bool :=
  match originalModel with
  | VUndefined | VNull => Normal false
  | VString s => Normal (includesOpus s)
  | VArray elems =>
      Normal (existsb (fun x => Value.strictEqString x (js "opus")) elems)
  | _ => Throw TypeError
  end.

(** [targetModel.includes('opus')] *)
Definition targetIncludesOpus (targetModel : option jsstring) : Completion bool :=
  match targetModel with
  | Some s => Normal (includesOpus s)
  | None => Throw TypeError
  end.

(** Main proxy handler for /v1/messages, up to the routing decision:
    the resulting target model and classification. *)
Definition handler (body : jsval) : Handler (jsval * Classification) :=
  _ <~ modify Stats.incrTotal ;;
  originalModel <~ lift (Value.get body (js "model")) ;;
  prompt <~ lift (extractPrompt body) ;;
  if routingEnabled then
    classification <~ lift (route prompt) ;;
    let targetModel := cls_model classification in
    _ <~ modify (Stats.incrRouted (cls_tier classification)) ;;
    (* Track "savings" when downgrading from opus *)
    downgraded <~ lift (a <- originalIncludesOpus originalModel ;;
                        if a then b <- targetIncludesOpus targetModel ;;
                                  Normal (negb b)
                        else Normal false) ;;
    _ <~ (if downgraded then modify Stats.incrSaved else ret tt) ;;
    ret (match targetModel with Some m => VString m | None => VUndefined end,
         classification)
  else
    match CONFIG.forceModel CONFIG with
    | Some ((_ :: _) as m) => ret (VString m, forcedClassification)
    | _ => ret (originalModel, passthroughClassification)
    end.

(** Log routing decision.  The lines written to the console are not
    modelled, only how the call ends: of the values the template literal
    interpolates, [classification.tier], [classification.score] and [prompt]
    are a string, a number and a string on every path of the handler, and
    [${originalModel}] and [${newModel}] are converted with [ToString]. *)
Definition logDecision (originalModel newModel : jsval)
           (classification : Classification) (prompt : jsstring) : Completion unit :=
  _ <- ToString originalModel ;;
  _ <- ToString newModel ;;
  Normal tt.

End WithEnvironment.

End Proxy.

(* ================================================================== *)
(** * Reference definitions, written from the specification's words *)

Module Spec.

(** The decimal digits a text starts with. *)
Fixpoint leadingDigits (text : jsstring) : list N :=
  match text with
  | [] => []
  | c :: rest => if JsString.isDigit c then c :: leadingDigits rest else []
  end.

(** The first run of decimal digits appearing in a text. *)
Fixpoint firstDigitRun (text : jsstring) : option (list N) :=
  match text with
  | [] => None
  | c :: rest =>
      if JsString.isDigit c then Some (c :: leadingDigits rest)
      else firstDigitRun rest
  end.

(** The integer a run of decimal digits denotes. *)
Fixpoint decimal (digits : list N) : Z :=
  match digits with
  | [] => 0
  | d :: rest => Z.of_N (d - 48) * 10 ^ Z.of_nat (length rest) + decimal rest
  end.

(** The first integer appearing in a text. *)
Definition firstInteger (text : jsstring) : option Z :=
  option_map decimal (firstDigitRun text).

(** Clamping to [0,1]. *)
Definition clamp01 (q : Q) : Q := Qmax 0 (Qmin 1 q).

(** The text of a well-formed upstream answer: the request succeeded and
    the [response] property of its [data] is a string. *)
Definition responseText (outcome : Completion jsval) : option jsstring :=
  match outcome with
  | Normal (VObject fields) =>
      match Value.lookup (js "data") fields with
      | VObject data =>
          match Value.lookup (js "response") data with
          | VString text => Some text
          | _ => None
          end
      | _ => None
      end
  | _ => None
  end.

(** The score of the external scorer: the first integer of the answer
    (5 when there is none) divided by 10 and clamped; [None] is [null]. *)
Definition externalScore (outcome : Completion jsval) : option Number.t :=
  match responseText outcome with
  | Some text =>
      let rating := match firstInteger text with Some n => n | None => 5%Z end in
      Some (Number.Num (clamp01 (inject_Z rating / 10)))
  | None => None
  end.

(** A computation that ends with the score [q]. *)
Definition hasScore (c : Completion Number.t) (q : Q) : Prop :=
  match c with
  | Normal (Number.Num x) => (x == q)%Q
  | _ => False
  end.

(** The classification the router is to produce: the external score when
    there is one, with source [ollama]; otherwise the heuristic score with
    source [heuristics]; the tier and the model from the tier mapper. *)
Definition routed (config : Config) (prompt : jsstring)
           (external : option Number.t) (heuristic : Number.t) : Classification :=
  let preview := Some (JsString.substring0 100 prompt ++ js "...") in
  match external with
  | Some score =>
      let r := Classifier.getModelForComplexity score config in
      mkClassification (Some (rec_model r)) (rec_tier r) score (Some ollama) preview
  | None =>
      let r := Classifier.getModelForComplexity heuristic config in
      mkClassification (Some (rec_model r)) (rec_tier r) heuristic
                       (Some heuristics) preview
  end.

(** A populated classification: a model, a tier among the three routing
    tiers, and a scorer as its source. *)
Definition populated (c : Classification) : Prop :=
  (exists m, cls_model c = Some m) /\
  (cls_tier c = simple \/ cls_tier c = medium \/ cls_tier c = complex) /\
  (cls_source c = Some ollama \/ cls_source c = Some heuristics).

(** [v.name] on a value that is not [null] or [undefined]. *)
Definition prop (v : jsval) (name : jsstring) : jsval :=
  match v with
  | VObject fields => Value.lookup name fields
  | _ => VUndefined
  end.

Definition nullish (v : jsval) : bool :=
  match v with VUndefined | VNull => true | _ => false end.

Definition isUserMessage (m : jsval) : bool :=
  Value.strictEqString (prop m (js "role")) (js "user").

Definition isTextPart (c : jsval) : bool :=
  Value.strictEqString (prop c (js "type")) (js "text").

(** The last user-role message of a conversation. *)
Definition lastUserMessage (messages : list jsval) : option jsval :=
  match rev (filter isUserMessage messages) with
  | [] => None
  | m :: _ => Some m
  end.

(** Texts joined with newlines: every text after the first follows a
    line feed. *)
Definition lines (texts : list jsstring) : jsstring :=
  match texts with
  | [] => []
  | first :: others => first ++ flat_map (fun text => 10%N :: text) others
  end.

(** A text, or none: a string, [null] or [undefined]. *)
Definition isText (v : jsval) : bool :=
  match v with
  | VString _ | VUndefined | VNull => true
  | _ => false
  end.

(** The text of a content part: its [text] field, empty when there is
    none. *)
Definition partText (c : jsval) : jsstring :=
  match prop c (js "text") with
  | VString s => s
  | _ => []
  end.

(** The prompt of a request body: the content of the last user message
    when it is a string; the newline-join of the [text] fields of its
    text-typed parts when it is an array; the empty string otherwise, and
    when [messages] is missing, not an array, or has no user message. *)
Definition promptOf (body : jsval) : jsstring :=
  match prop body (js "messages") with
  | VArray messages =>
      match lastUserMessage messages with
      | Some m =>
          match prop m (js "content") with
          | VString s => s
          | VArray parts => lines (map partText (filter isTextPart parts))
          | _ => []
          end
      | None => []
      end
  | _ => []
  end.

(** A request body the extractor does not fail on: the body is an object
    (or any value but [null]/[undefined]), no message is [null], and no
    part of the content array of the last user message is [null]. *)
Definition wellFormedBody (body : jsval) : Prop :=
  nullish body = false /\
  forall messages, prop body (js "messages") = VArray messages ->
    Forall (fun m => nullish m = false) messages /\
    forall m parts, lastUserMessage messages = Some m ->
      prop m (js "content") = VArray parts ->
      Forall (fun c => nullish c = false) parts.

(** The text parts of the last user message are plain: the [text] of each
    text-typed part of its content array is a string (or [null] or absent). *)
Definition plainTextParts (body : jsval) : Prop :=
  forall messages m parts,
    prop body (js "messages") = VArray messages ->
    lastUserMessage messages = Some m ->
    prop m (js "content") = VArray parts ->
    Forall (fun c => isTextPart c = true -> isText (prop c (js "text")) = true) parts.

(** A [model] property in which the handler can look for [opus]: a string
    or an array, or none ([null] or absent). *)
Definition searchableModel (v : jsval) : bool :=
  match v with
  | VString _ | VArray _ | VUndefined | VNull => true
  | _ => false
  end.

(** A value as the argument of the scorer: a string as it is, another
    value to be serialized. *)
Definition asPrompt (v : jsval) : Prompt :=
  match v with
  | VString s => PString s
  | _ => PObject v
  end.

(** The threshold in effect: the configured one when it is present and
    not zero, the default otherwise. *)
Definition effectiveThreshold (configured : option Number.t) (default : Q) : Q :=
  match configured with
  | Some (Number.Num q) => if Qeq_bool q 0 then default else q
  | _ => default
  end.

(** The tier of a score under thresholds [st] and [ct]: the partition
    into [[0, st)], [[st, ct)], [[ct, 1]]. *)
Definition tierOf (st ct s : Q) : Tier :=
  if Qlt_le_dec s st then simple
  else if Qlt_le_dec s ct then medium
  else complex.

End Spec.

(* ================================================================== *)
(** * Concrete inputs *)

Module Examples.

(** A value [JSON.stringify] is not consulted on. *)
Definition stringify_none : jsval -> option jsstring := fun _ => None.

Definition toString_none : Number.t -> jsstring := fun _ => [].

(** A model server that cannot be reached. *)
Definition unreachable : jsstring -> Completion jsval := fun _ => Throw RequestFailed.

(** [{ simpleThreshold: 0.35, complexThreshold: 0.65 }] *)
Definition config_defaults : Config :=
  mkConfig (Some #0.35) (Some #0.65) None None None.

(** [{ simpleThreshold: 0, complexThreshold: 0.65 }] *)
Definition config_zero_simple : Config :=
  mkConfig (Some #0) (Some #0.65) None None None.

Definition prompt_simple : jsstring := js "What is TypeScript?".
Definition prompt_medium : jsstring :=
  js "Write a function to reverse a string in JavaScript".
Definition prompt_complex : jsstring :=
  js "Architect a distributed system for handling 1M requests per second with proper caching, load balancing, and database sharding. Consider edge cases and error handling.".

(** A text of [n + 1] one-letter words separated by single spaces. *)
Fixpoint words (n : nat) : jsstring :=
  match n with
  | O => js "a"
  | S n' => js "a " ++ words n'
  end.

(** The proxy's [CONFIG] with no environment variable set. *)
Definition CONFIG_default : Proxy.CONFIG.t :=
  Proxy.CONFIG.mk (js "claude-3-5-haiku-20241022") (js "claude-sonnet-4-20250514")
                  (js "claude-opus-4-20250514") #0.35 #0.65 false None false.

(** The same with [COMPLEX_MODEL=big-model]. *)
Definition CONFIG_big : Proxy.CONFIG.t :=
  Proxy.CONFIG.mk (js "claude-3-5-haiku-20241022") (js "claude-sonnet-4-20250514")
                  (js "big-model") #0.35 #0.65 false None false.

Definition stats0 : Proxy.Stats.t := Proxy.Stats.mk 0 0 0 0 0.

(** [{ model, messages: [{ role: 'user', content }] }] *)
Definition request (model content : jsstring) : jsval :=
  VObject [(js "model", VString model);
           (js "messages",
            VArray [VObject [(js "role", VString (js "user"));
                             (js "content", VString content)]])].

(** The handler on a fresh [stats], without a reachable model server. *)
Definition run (CONFIG : Proxy.CONFIG.t) (body : jsval)
  : Proxy.Stats.t * Completion (jsval * Classification) :=
  Proxy.handler toString_none stringify_none unreachable false CONFIG body stats0.

(** The target model of a handled request. *)
Definition targetModel (r : Proxy.Stats.t * Completion (jsval * Classification))
  : option jsval :=
  match snd r with
  | Normal (target, _) => Some target
  | Throw _ => None
  end.

(** A user message whose content is an array of a text part, an image part
    and a second text part. *)
Definition request_parts : jsval :=
  VObject [(js "model", VString (js "claude-opus-4-20250514"));
           (js "messages",
            VArray [VObject [(js "role", VString (js "assistant"));
                             (js "content", VString (js "earlier"))];
                    VObject [(js "role", VString (js "user"));
                             (js "content",
                              VArray [VObject [(js "type", VString (js "text"));
                                               (js "text", VString (js "first"))];
                                      VObject [(js "type", VString (js "image"))];
                                      VObject [(js "type", VString (js "text"));
                                               (js "text", VString (js "second"))]])]])].

(** [{ model: 'claude-opus-4-20250514', messages: [null] }] *)
Definition request_null_message : jsval :=
  VObject [(js "model", VString (js "claude-opus-4-20250514"));
           (js "messages", VArray [VNull])].

End Examples.

(* ================================================================== *)
(** * src/ollama-classifier.js: the availability probe *)

Module OllamaProbe.

(** [m.name.includes(base)]: a string is searched for [base], an array for
    an element equal to it; any other [name] has no [includes] method. *)
Definition nameIncludes (base : jsstring) (m : jsval) : Completion bool :=
  name <- Value.get m (js "name") ;;
  match name with
  | VString s => Normal (JsString.includes s base)
  | VArray elems => Normal (existsb (fun x => Value.strictEqString x base) elems)
  | _ => Throw TypeError
  end.

(** [array.some(callback)]: the callback runs on the elements in order until
    it returns true; an exception it throws ends the call. *)
Fixpoint Array_some (callback : jsval -> Completion bool) (elems : list jsval)
  : Completion bool :=
  match elems with
  | [] => Normal false
  | x :: rest =>
      found <- callback x ;;
      if found then Normal true else Array_some callback rest
  end.

(** [OLLAMA_MODEL.split(':')[0]] *)
Definition baseName (OLLAMA_MODEL : jsstring) : jsstring :=
  hd [] (JsString.split OLLAMA_MODEL 58).

(** Check if Ollama is available.  [axios_get] is what
    [await axios.get(`${OLLAMA_URL}/api/tags`, ...)] gives: the response
    object, or a rejection. *)
Definition isOllamaAvailable (axios_get : Completion jsval) (OLLAMA_MODEL : jsstring)
  : Completion bool :=
  try_catch
    (response <- axios_get ;;
     data <- Value.get response (js "data") ;;
     listed <- Value.get data (js "models") ;;
     let models := if Value.truthy listed then listed else VArray [] in
     match models with
     | VArray elems => Array_some (nameIncludes (baseName OLLAMA_MODEL)) elems
     | _ => Throw TypeError            (* models.some is not a function *)
     end)
    (fun _ => Normal false).

End OllamaProbe.

(* ================================================================== *)
(** * The proxy: the requests sent upstream *)

Module Forwarding.

(** The request object: what the two route handlers read of it. *)
Record Request : Type := mkRequest {
  req_method : jsstring;
  req_path : jsstring;
  req_headers : list (jsstring * jsval);   (* an object: header name, value *)
  req_body : jsval
}.

(** The argument of [axios({ ... })]. *)
Record AxiosConfig : Type := mkAxiosConfig {
  method : jsstring;
  url : jsstring;
  headers : list (jsstring * jsval);
  data : jsval;
  responseType : option jsstring
}.

(** [CONFIG.anthropicUrl] *)
Definition anthropicUrl : jsstring := js "https://api.anthropic.com".

(** The key of an array index: its decimal digits. *)
Definition indexKey (i : nat) : jsstring :=
  js (NilEmpty.string_of_uint (Nat.to_uint i)).

Fixpoint indexedFrom {A} (i : nat) (f : A -> jsval) (l : list A)
  : list (jsstring * jsval) :=
  match l with
  | [] => []
  | x :: rest => (indexKey i, f x) :: indexedFrom (S i) f rest
  end.

(** The own enumerable properties [{ ...v }] copies: the properties of an
    object, the indexed elements of an array, the indexed code units of a
    string, nothing for another value. *)
Definition spread (v : jsval) : list (jsstring * jsval) :=
  match v with
  | VObject fields => fields
  | VArray elems => indexedFrom 0 (fun x => x) elems
  | VString s => indexedFrom 0 (fun c => VString [c]) s
  | _ => []
  end.

(** [{ ...fields, name: value }]: the property keeps its place when it is
    there already and is added last otherwise. *)
Fixpoint setField (name : jsstring) (value : jsval) (fields : list (jsstring * jsval))
  : list (jsstring * jsval) :=
  match fields with
  | [] => [(name, value)]
  | (k, v) :: rest =>
      if JsString.eqb k name then (k, value) :: rest
      else (k, v) :: setField name value rest
  end.

(** [{ ...req.body, model: targetModel }] *)
Definition modifiedBody (body : jsval) (targetModel : jsval) : jsval :=
  VObject (setField (js "model") targetModel (spread body)).

(** [x || '2023-06-01'] on a header value *)
Definition orVersion (x : jsval) : jsval :=
  if Value.truthy x then x else VString (js "2023-06-01").

(** The request the [/v1/messages] handler forwards to Anthropic. *)
Definition messagesRequest (req : Request) (targetModel : jsval)
  : Completion AxiosConfig :=
  let modified := modifiedBody (req_body req) targetModel in
  stream <- Value.get (req_body req) (js "stream") ;;
  Normal {| method := js "POST";
            url := anthropicUrl ++ js "/v1/messages";
            headers :=
              [(js "Content-Type", VString (js "application/json"));
               (js "x-api-key", Value.lookup (js "x-api-key") (req_headers req));
               (js "anthropic-version",
                orVersion (Value.lookup (js "anthropic-version") (req_headers req)));
               (js "anthropic-beta",
                Value.lookup (js "anthropic-beta") (req_headers req))];
            data := modified;
            responseType :=
              Some (if Value.truthy stream then js "stream" else js "json") |}.

(** Pass through other endpoints: the request [app.all] forwards. *)
Definition passthroughRequest (req : Request) : AxiosConfig :=
  {| method := req_method req;
     url := anthropicUrl ++ req_path req;
     headers := setField (js "host") (VString (js "api.anthropic.com"))
                         (req_headers req);
     data := req_body req;
     responseType := None |}.

(** The [/v1/messages] handler from the request to the call of [axios]:
    the routing decision, the log line, then the forwarded request.
    [originalModel] and [prompt] are the handler's locals: reading them
    again changes nothing and gives the same values. *)
Definition forward
           (Number_toString : Number.t -> jsstring)
           (JSON_stringify : jsval -> option jsstring)
           (axios_post : jsstring -> Completion jsval) (ollamaAvailable : bool)
           (CONFIG : Proxy.CONFIG.t) (req : Request)
  : Proxy.Handler AxiosConfig :=
  Proxy.bindH
    (Proxy.handler Number_toString JSON_stringify axios_post ollamaAvailable CONFIG
                   (req_body req))
    (fun decision =>
       Proxy.lift
         (originalModel <- Value.get (req_body req) (js "model") ;;
          prompt <- Proxy.extractPrompt Number_toString (req_body req) ;;
          _ <- Proxy.logDecision Number_toString originalModel (fst decision)
                                 (snd decision) prompt ;;
          messagesRequest req (fst decision))).

End Forwarding.

(* ================================================================== *)
(** * test/test.js *)

Module TestScript.

Definition testCases : list (string * Tier) := [
  (* Simple prompts (should score < 0.35) *)
  ("What is TypeScript?", simple);
  ("what's 2+2", simple);
  ("Explain briefly what React does", simple);
  ("Fix typo in this word: helo", simple);
  ("List 5 programming languages", simple);
  ("yes or no: is JavaScript typed?", simple);
  (* Medium prompts (should score 0.35-0.65) *)
  ("Write a function to reverse a string in JavaScript", medium);
  ("Create a React component for a login form", medium);
  ("Fix the bug in this code where users can't log in", medium);
  ("Add an endpoint to get user profile data", medium);
  ("Write unit tests for the payment service", medium);
  (* Complex prompts (should score >= 0.65) *)
  ("Architect a distributed system for handling 1M requests per second with proper caching, load balancing, and database sharding. Consider edge cases and error handling.", complex);
  ("Debug this complex async race condition in our payment processing system that only happens under high load", complex);
  ("Design a scalable microservices architecture with proper error handling, circuit breakers, and backward compatibility for our e-commerce platform", complex);
  ("Implement a custom state machine for our order processing workflow with all edge cases, rollback mechanisms, and audit logging", complex);
  ("Perform a comprehensive security audit of our authentication system and identify all potential vulnerabilities with trade-offs for each fix", complex)
]%string.

(** [result.tier === expected] *)
Definition sameTier (a b : Tier) : bool :=
  match a, b with
  | simple, simple | medium, medium | complex, complex
  | passthrough, passthrough | forced, forced => true
  | _, _ => false
  end.

(** The loop of the script: the counters [passed] and [failed] after the
    given cases. *)
Fixpoint runCases (JSON_stringify : jsval -> option jsstring)
         (cases : list (string * Tier)) (passed failed : nat)
  : Completion (nat * nat) :=
  match cases with
  | [] => Normal (passed, failed)
  | (prompt, expected) :: rest =>
      result <- Classifier.classify JSON_stringify (PString (js prompt)) emptyConfig ;;
      if sameTier (cls_tier result) expected
      then runCases JSON_stringify rest (S passed) failed
      else runCases JSON_stringify rest passed (S failed)
  end.

Definition run (JSON_stringify : jsval -> option jsstring) : Completion (nat * nat) :=
  runCases JSON_stringify testCases 0 0.

End TestScript.

(* ================================================================== *)
(** * Further reference definitions and inputs *)

Module Extra.

(** The order of the routing tiers, cheapest first. *)
Definition tierRank (t : Tier) : nat :=
  match t with
  | simple => 0
  | medium => 1
  | complex => 2
  | passthrough => 3
  | forced => 4
  end.

(** The model a config names for a tier, or the built-in name when the
    config has none (absent or empty). *)
Definition modelOfTier (config : Config) (t : Tier) : jsstring :=
  match t with
  | simple => orString (simpleModel config) (js "claude-3-5-haiku-20241022")
  | medium => orString (mediumModel config) (js "claude-sonnet-4-20250514")
  | _ => orString (complexModel config) (js "claude-opus-4-20250514")
  end.

(** A property that is absent or falsy. *)
Definition unsetNumber (x : option Number.t) : bool :=
  match x with
  | None => true
  | Some n => negb (Number.truthy n)
  end.

Definition unsetString (x : option jsstring) : bool :=
  match x with
  | None | Some [] => true
  | Some (_ :: _) => false
  end.

Definition unsetConfig (config : Config) : bool :=
  unsetNumber (simpleThreshold config) && unsetNumber (complexThreshold config) &&
  unsetString (simpleModel config) && unsetString (mediumModel config) &&
  unsetString (complexModel config).

(** The defaults written out. *)
Definition DEFAULTS : Config :=
  mkConfig (Some #0.35) (Some #0.65)
           (Some (js "claude-3-5-haiku-20241022"))
           (Some (js "claude-sonnet-4-20250514"))
           (Some (js "claude-opus-4-20250514")).

(** [{ simpleThreshold: 0, complexThreshold: NaN, simpleModel: '' }] *)
Definition config_falsy : Config :=
  mkConfig (Some #0) (Some Number.NaN) (Some []) None None.

(** Inverted thresholds: [{ simpleThreshold: 0.8, complexThreshold: 0.5 }] *)
Definition config_inverted : Config :=
  mkConfig (Some #0.8) (Some #0.5) None None None.

(** Two texts that differ in the case of ASCII letters only. *)
Definition sameLetters (a b : jsstring) : Prop :=
  map RegExp.canonicalize a = map RegExp.canonicalize b.

Definition isAsciiLetter (c : N) : bool :=
  ((65 <=? c) && (c <=? 90) || (97 <=? c) && (c <=? 122))%N.

(** A regular expression that cannot tell the case of a letter: it has the
    [i] flag, or no letter among its pattern characters. *)
Definition caseBlindTerm (ic : bool) (t : RegExp.Term) : bool :=
  match t with
  | RegExp.T (RegExp.Chr p) _ => ic || negb (isAsciiLetter p)
  | _ => true
  end.

Definition caseBlind (re : RegExp.t) : bool :=
  forallb (caseBlindTerm (RegExp.ignoreCase re)) (RegExp.source re).

(** The tier the classification prompt announces for a rating: 1-3 simple,
    4-6 medium, 7-10 complex. *)
Definition ratingTier (n : Z) : Tier :=
  if (n <=? 3)%Z then simple else if (n <=? 6)%Z then medium else complex.

(** A model server that answers every request with the given text. *)
Definition answering (text : jsstring) : jsstring -> Completion jsval :=
  fun _ => Normal (VObject [(js "data", VObject [(js "response", VString text)])]).

(** The answer of [/api/tags] that lists models of the given names. *)
Definition listing (names : list jsstring) : jsval :=
  VObject [(js "data",
            VObject [(js "models",
                      VArray (map (fun n => VObject [(js "name", VString n)]) names))])].

(** The statistics after a series of requests handled one after another. *)
Fixpoint handleAll
         (Number_toString : Number.t -> jsstring)
         (JSON_stringify : jsval -> option jsstring)
         (axios_post : jsstring -> Completion jsval) (ollamaAvailable : bool)
         (CONFIG : Proxy.CONFIG.t) (bodies : list jsval) (stats : Proxy.Stats.t)
  : Proxy.Stats.t :=
  match bodies with
  | [] => stats
  | body :: rest =>
      handleAll Number_toString JSON_stringify axios_post ollamaAvailable CONFIG rest
        (fst (Proxy.handler Number_toString JSON_stringify axios_post ollamaAvailable
                            CONFIG body stats))
  end.

(** The requests counted in a tier bucket. *)
Definition routedTotal (s : Proxy.Stats.t) : nat :=
  Proxy.Stats.routed_simple s + Proxy.Stats.routed_medium s +
  Proxy.Stats.routed_complex s.

(** The counters are consistent: no more savings than routed requests, no
    more routed requests than requests. *)
Definition consistent (s : Proxy.Stats.t) : Prop :=
  Proxy.Stats.saved s <= routedTotal s /\ routedTotal s <= Proxy.Stats.total s.

(** The counter of a routing tier. *)
Definition routedOf (t : Tier) (s : Proxy.Stats.t) : nat :=
  match t with
  | simple => Proxy.Stats.routed_simple s
  | medium => Proxy.Stats.routed_medium s
  | complex => Proxy.Stats.routed_complex s
  | _ => 0
  end.

(** The model [CONFIG] names for a tier. *)
Definition configuredModel (CONFIG : Proxy.CONFIG.t) (t : Tier) : jsstring :=
  modelOfTier (Proxy.classifyConfig CONFIG) t.

(** [CONFIG] with [FORCE_MODEL=claude-3-5-haiku-20241022] and
    [DISABLED=true]. *)
Definition CONFIG_forced : Proxy.CONFIG.t :=
  Proxy.CONFIG.mk (js "claude-3-5-haiku-20241022") (js "claude-sonnet-4-20250514")
                  (js "claude-opus-4-20250514") #0.35 #0.65 false
                  (Some (js "claude-3-5-haiku-20241022")) true.

(** [CONFIG] with [DISABLED=true]. *)
Definition CONFIG_disabled : Proxy.CONFIG.t :=
  Proxy.CONFIG.mk (js "claude-3-5-haiku-20241022") (js "claude-sonnet-4-20250514")
                  (js "claude-opus-4-20250514") #0.35 #0.65 false None true.

(** [{ model: 'claude-opus-4-20250514' }]: a body without messages. *)
Definition request_no_messages : jsval :=
  VObject [(js "model", VString (js "claude-opus-4-20250514"))].

(** A conversation whose last user message is followed by an assistant
    message. *)
Definition request_with_history : jsval :=
  VObject [(js "model", VString (js "claude-opus-4-20250514"));
           (js "messages",
            VArray [VObject [(js "role", VString (js "user"));
                             (js "content", VString (js "Architect a system"))];
                    VObject [(js "role", VString (js "assistant"));
                             (js "content", VString (js "Sure."))];
                    VObject [(js "role", VString (js "user"));
                             (js "content", VString Examples.prompt_simple)];
                    VObject [(js "role", VString (js "assistant"));
                             (js "content", VString (js "TypeScript is"))]])].

(** An incoming [/v1/messages] request with an API key and a stream flag. *)
Definition incoming (body : jsval) : Forwarding.Request :=
  Forwarding.mkRequest (js "POST") (js "/v1/messages")
    [(js "host", VString (js "localhost:8080"));
     (js "x-api-key", VString (js "sk-test"))]
    body.

(** What the extractor does on a body without [null] elements: as
    [Spec.promptOf], with the conversions of [join]. *)
Definition promptOutcome (Number_toString : Number.t -> jsstring) (body : jsval)
  : Completion jsstring :=
  match Spec.prop body (js "messages") with
  | VArray messages =>
      match Spec.lastUserMessage messages with
      | Some m =>
          match Spec.prop m (js "content") with
          | VString s => Normal s
          | VArray parts =>
              Proxy.Array_join Number_toString
                (map (fun c => Spec.prop c (js "text"))
                     (filter Spec.isTextPart parts))
                [10%N]
          | _ => Normal []
          end
      | None => Normal []
      end
  | _ => Normal []
  end.

(** A user message with a text part whose [text] is the object
    [{ toString: 1 }]. *)
Definition request_toString_part : jsval :=
  VObject [(js "model", VString (js "claude-opus-4-20250514"));
           (js "messages",
            VArray [VObject [(js "role", VString (js "user"));
                             (js "content",
                              VArray [VObject [(js "type", VString (js "text"));
                                               (js "text",
                                                VObject [(js "toString",
                                                          VNumber #1)])]])]])].

(** A request whose [model] is the object [{ toString: 1 }]. *)
Definition request_toString_model : jsval :=
  VObject [(js "model", VObject [(js "toString", VNumber #1)]);
           (js "messages",
            VArray [VObject [(js "role", VString (js "user"));
                             (js "content", VString Examples.prompt_simple)]])].

(** A text without a backtick. *)
Definition noBacktick (text : jsstring) : bool :=
  forallb (fun c => negb (c =? 96)%N) text.

(** A score that is at least 0.01 away from both default thresholds. *)
Definition clearOfThresholds (q : Q) : bool :=
  Qle_bool q 0.34 || (Qle_bool 0.36 q && Qle_bool q 0.64) || Qle_bool 0.66 q.

(** Every case of the test script has such a score. *)
Definition testScoresClear (JSON_stringify : jsval -> option jsstring) : bool :=
  forallb (fun c : string * Tier =>
             match Classifier.calculateComplexity JSON_stringify
                     (PString (js (fst c))) with
             | Normal (Number.Num q) => clearOfThresholds q
             | _ => false
             end)
          TestScript.testCases.

End Extra.

(** A text with its ASCII letters in upper case, and the same on the code
    unit before a position. *)
Abbreviation up := (map RegExp.canonicalize).

Definition upPrev (prev : option N) : option N := option_map RegExp.canonicalize prev.

(** Case analysis on the comparisons of a character class. *)
Ltac case_tests :=
  repeat match goal with
         | |- context [(?a <=? ?b)%N] => destruct (N.leb_spec a b); try lia
         | |- context [(?a =? ?b)%N] => destruct (N.eqb_spec a b); try lia
         end;
  try reflexivity.

(* ================================================================== *)
(** * The string and regular-expression operations on examples *)

(** The three pattern tables have 35, 20 and 10 entries. *)
Example pattern_tables_sizes :
  length Classifier.COMPLEX_PATTERNS = 35 /\
  length Classifier.SIMPLE_PATTERNS = 20 /\
  length Classifier.MEDIUM_PATTERNS = 10.
Proof. repeat split; reflexivity. Qed.

(** [" a  b ".split(/\s+/)] is [["", "a", "b", ""]]; [''.split(/\s+/)] is [[""]]. *)
Example split_spaces :
  RegExp.String_split (js " a  b ") Classifier.re_spaces = [[]; js "a"; js "b"; []] /\
  RegExp.String_split [] Classifier.re_spaces = [[]].
Proof. split; reflexivity. Qed.

(** [/race.?condition/i] accepts at most one character between the words. *)
Example test_race_condition :
  RegExp.test (RegExp.i [RegExp.str "race"; RegExp.dotOpt; RegExp.str "condition"])
              (js "a RACE-Condition") = true /\
  RegExp.test (RegExp.i [RegExp.str "race"; RegExp.dotOpt; RegExp.str "condition"])
              (js "a race -- condition") = false.
Proof. split; reflexivity. Qed.

(** [/^what is/i] matches at the start of the text only, and [.] does not
    cross a line break. *)
Example test_anchor_and_dot :
  RegExp.test (RegExp.i_bol [RegExp.str "what is"]) (js "What is it") = true /\
  RegExp.test (RegExp.i_bol [RegExp.str "what is"]) (js "so what is it") = false /\
  RegExp.test (RegExp.i [RegExp.str "fix"; RegExp.dotStar; RegExp.str "bug"])
              (js "fix" ++ [10%N] ++ js "bug") = false.
Proof. repeat split; reflexivity. Qed.

(** Two fenced blocks, of two lines and of one line; a third fence is left
    open. *)
Example analyzeCodeContent_blocks :
  Classifier.analyzeCodeContent
    (js "x ```a" ++ [10%N] ++ js "b``` y ```c``` and ```") = (2, 3).
Proof. reflexivity. Qed.

(** [/^\d+\./gm] counts the lines that start with a number and a dot. *)
Example match_numbered_items :
  RegExp.String_match
    (js "1. a" ++ [10%N] ++ js "22. b" ++ [10%N] ++ js "c 3. d" ++ [10%N] ++ js "4.")
    Classifier.re_numberedItem = Some [js "1."; js "22."; js "4."].
Proof. reflexivity. Qed.

(** [parseInt] reads a sign and the leading digits. *)
Example parseInt10_values :
  OllamaClassifier.parseInt10 (js "0123") = #123 /\
  OllamaClassifier.parseInt10 (js " -7 of 10") = Number.Num (inject_Z (-7)) /\
  OllamaClassifier.parseInt10 (js "seven") = Number.NaN.
Proof. repeat split; reflexivity. Qed.

(* ================================================================== *)
(** * Numbers: basic facts *)

Lemma Number_ltb_lt (x y : Q) :
  Number.ltb (Number.Num x) (Number.Num y) = true <-> (x < y)%Q.
Proof.
  unfold Number.ltb. rewrite negb_true_iff.
  split.
  - intros H. apply Qnot_le_lt. intros Hle.
    apply Qle_bool_iff in Hle. congruence.
  - intros H. destruct (Qle_bool y x) eqn:E; [|reflexivity].
    apply Qle_bool_iff in E. apply Qlt_not_le in H. contradiction.
Qed.

Lemma Number_ltb_ge (x y : Q) :
  Number.ltb (Number.Num x) (Number.Num y) = false <-> (y <= x)%Q.
Proof.
  unfold Number.ltb. rewrite negb_false_iff. apply Qle_bool_iff.
Qed.

Lemma clamp_is_number (q : Q) :
  Number.Math_max #0 (Number.Math_min #1 (Number.Num q)) = Number.Num (Spec.clamp01 q).
Proof. reflexivity. Qed.

Lemma clamp01_bounds (q : Q) : (0 <= Spec.clamp01 q <= 1)%Q.
Proof.
  unfold Spec.clamp01. split.
  - apply Q.le_max_l.
  - apply Q.max_lub; [lra | apply Q.le_min_l].
Qed.

(* ================================================================== *)
(** * The tier mapper *)

(** The thresholds the tier mapper compares with. *)
Lemma orDefault_effective (configured : option Number.t) (default : Q) :
  Number.orDefault configured (Number.Num default) =
  Number.Num (Spec.effectiveThreshold configured default).
Proof.
  unfold Number.orDefault, Spec.effectiveThreshold, Number.truthy.
  destruct configured as [[|q]|]; try reflexivity.
  destruct (Qeq_bool q 0); reflexivity.
Qed.

(** The tier mapper is the partition under the thresholds in effect. *)
Lemma getModelForComplexity_tier (s : Q) (cfg : Config) :
  rec_tier (Classifier.getModelForComplexity (Number.Num s) cfg) =
  Spec.tierOf (Spec.effectiveThreshold (simpleThreshold cfg) 0.35)
              (Spec.effectiveThreshold (complexThreshold cfg) 0.65) s.
Proof.
  unfold Classifier.getModelForComplexity, Spec.tierOf.
  rewrite !orDefault_effective.
  destruct (Qlt_le_dec s _) as [H1|H1].
  - apply Number_ltb_lt in H1. now rewrite H1.
  - apply Number_ltb_ge in H1. rewrite H1.
    destruct (Qlt_le_dec s _) as [H2|H2].
    + apply Number_ltb_lt in H2. now rewrite H2.
    + apply Number_ltb_ge in H2. now rewrite H2.
Qed.

Lemma tierOf_cases (st ct s : Q) :
  (st < ct)%Q ->
  (Spec.tierOf st ct s = simple <-> (s < st)%Q) /\
  (Spec.tierOf st ct s = medium <-> (st <= s)%Q /\ (s < ct)%Q) /\
  (Spec.tierOf st ct s = complex <-> (ct <= s)%Q).
Proof.
  intros Hlt. unfold Spec.tierOf.
  destruct (Qlt_le_dec s st) as [H1|H1]; [|destruct (Qlt_le_dec s ct) as [H2|H2]].
  - split; [tauto|]. split; split; try discriminate; intros; exfalso; lra.
  - split; [split; [discriminate | intros; exfalso; lra]|].
    split; [tauto|]. split; [discriminate | intros; exfalso; lra].
  - split; [split; [discriminate | intros; exfalso; lra]|].
    split; [split; [discriminate | intros; exfalso; lra] | tauto].
Qed.

Lemma tierOf_routing (st ct s : Q) :
  Spec.tierOf st ct s = simple \/ Spec.tierOf st ct s = medium \/
  Spec.tierOf st ct s = complex.
Proof.
  unfold Spec.tierOf.
  destruct (Qlt_le_dec s st); [|destruct (Qlt_le_dec s ct)]; auto.
Qed.

(** C1 (amended): for every score [s] and every config, let [st] and [ct]
    be the thresholds in effect (the configured threshold when it is present
    and not 0, else the default 0.35, respectively 0.65), with [st < ct].
    The tier is exactly one of simple, medium and complex, determined by the
    partition [s < st], [st <= s < ct], [ct <= s]; the score [st] yields
    medium and the score [ct] yields complex. *)
Theorem tier_partition_effective_thresholds (s : Q) (cfg : Config) :
  (Spec.effectiveThreshold (simpleThreshold cfg) 0.35 <
   Spec.effectiveThreshold (complexThreshold cfg) 0.65)%Q ->
  (rec_tier (Classifier.getModelForComplexity (Number.Num s) cfg) = simple \/
   rec_tier (Classifier.getModelForComplexity (Number.Num s) cfg) = medium \/
   rec_tier (Classifier.getModelForComplexity (Number.Num s) cfg) = complex) /\
  (rec_tier (Classifier.getModelForComplexity (Number.Num s) cfg) = simple
     <-> (s < Spec.effectiveThreshold (simpleThreshold cfg) 0.35)%Q) /\
  (rec_tier (Classifier.getModelForComplexity (Number.Num s) cfg) = medium
     <-> (Spec.effectiveThreshold (simpleThreshold cfg) 0.35 <= s)%Q /\
         (s < Spec.effectiveThreshold (complexThreshold cfg) 0.65)%Q) /\
  (rec_tier (Classifier.getModelForComplexity (Number.Num s) cfg) = complex
     <-> (Spec.effectiveThreshold (complexThreshold cfg) 0.65 <= s)%Q) /\
  rec_tier (Classifier.getModelForComplexity
              (Number.Num (Spec.effectiveThreshold (simpleThreshold cfg) 0.35)) cfg)
    = medium /\
  rec_tier (Classifier.getModelForComplexity
              (Number.Num (Spec.effectiveThreshold (complexThreshold cfg) 0.65)) cfg)
    = complex.
Proof.
  intros Hlt. rewrite !getModelForComplexity_tier.
  set (st := Spec.effectiveThreshold (simpleThreshold cfg) 0.35) in *.
  set (ct := Spec.effectiveThreshold (complexThreshold cfg) 0.65) in *.
  destruct (tierOf_cases st ct s Hlt) as (A & B & C).
  destruct (tierOf_cases st ct st Hlt) as (_ & Bs & _).
  destruct (tierOf_cases st ct ct Hlt) as (_ & _ & Cc).
  split; [apply tierOf_routing|].
  split; [exact A|]. split; [exact B|]. split; [exact C|].
  split.
  - apply Bs. split; [apply Qle_refl | assumption].
  - apply Cc. apply Qle_refl.
Qed.

Lemma tier_partition_effective_thresholds_witness :
  (Spec.effectiveThreshold (simpleThreshold Examples.config_defaults) 0.35 <
   Spec.effectiveThreshold (complexThreshold Examples.config_defaults) 0.65)%Q /\
  (rec_tier (Classifier.getModelForComplexity #0.5 Examples.config_defaults) = medium
   <-> (Spec.effectiveThreshold (simpleThreshold Examples.config_defaults) 0.35
          <= 0.5)%Q /\
       (0.5 < Spec.effectiveThreshold (complexThreshold Examples.config_defaults)
                0.65)%Q).
Proof.
  assert (H : (Spec.effectiveThreshold (simpleThreshold Examples.config_defaults) 0.35 <
               Spec.effectiveThreshold (complexThreshold Examples.config_defaults) 0.65)%Q)
    by reflexivity.
  split; [exact H|].
  exact (proj1 (proj2 (proj2
           (tier_partition_effective_thresholds 0.5 Examples.config_defaults H)))).
Defined.

(** C1 (as stated, refuted): with [simpleThreshold: 0] the code replaces
    the threshold by the default 0.35, so the score 0, which equals
    [simpleThreshold], and the score 0.2, which lies in
    [[simpleThreshold, complexThreshold)], are mapped to simple and not to
    medium. *)
Lemma tier_partition_zero_threshold_counterexample :
  simpleThreshold Examples.config_zero_simple = Some #0 /\
  complexThreshold Examples.config_zero_simple = Some #0.65 /\
  rec_tier (Classifier.getModelForComplexity #0 Examples.config_zero_simple) = simple /\
  rec_tier (Classifier.getModelForComplexity #0 Examples.config_zero_simple) <> medium /\
  rec_tier (Classifier.getModelForComplexity #0.2 Examples.config_zero_simple) = simple /\
  rec_tier (Classifier.getModelForComplexity #0.2 Examples.config_zero_simple) <> medium.
Proof.
  split; [reflexivity|]. split; [reflexivity|]. split; [reflexivity|].
  split; [discriminate|]. split; [reflexivity|]. discriminate.
Qed.

(** C5 (as stated, refuted): under the thresholds 0.35 and 0.65 the score
    0.35 is mapped to medium, not simple, and the score 0.65 to complex, not
    medium. *)
Lemma boundary_lower_tier_counterexample :
  rec_tier (Classifier.getModelForComplexity #0.35 Examples.config_defaults) = medium /\
  rec_tier (Classifier.getModelForComplexity #0.35 Examples.config_defaults) <> simple /\
  rec_tier (Classifier.getModelForComplexity #0.65 Examples.config_defaults) = complex /\
  rec_tier (Classifier.getModelForComplexity #0.65 Examples.config_defaults) <> medium.
Proof.
  split; [reflexivity|]. split; [discriminate|]. split; [reflexivity|]. discriminate.
Qed.

(** C5 (amended): a boundary score belongs to the upper tier.  For every
    config whose thresholds in effect satisfy [st < ct], the score [st] is
    given the medium tier and model, and the score [ct] the complex tier and
    model. *)
Theorem boundary_upper_tier (cfg : Config) :
  (Spec.effectiveThreshold (simpleThreshold cfg) 0.35 <
   Spec.effectiveThreshold (complexThreshold cfg) 0.65)%Q ->
  Classifier.getModelForComplexity
    (Number.Num (Spec.effectiveThreshold (simpleThreshold cfg) 0.35)) cfg =
    mkRecommendation (orString (mediumModel cfg) (js "claude-sonnet-4-20250514"))
                     medium
                     (Number.Num (Spec.effectiveThreshold (simpleThreshold cfg) 0.35)) /\
  Classifier.getModelForComplexity
    (Number.Num (Spec.effectiveThreshold (complexThreshold cfg) 0.65)) cfg =
    mkRecommendation (orString (complexModel cfg) (js "claude-opus-4-20250514"))
                     complex
                     (Number.Num (Spec.effectiveThreshold (complexThreshold cfg) 0.65)).
Proof.
  intros Hlt. unfold Classifier.getModelForComplexity.
  rewrite !orDefault_effective.
  set (st := Spec.effectiveThreshold (simpleThreshold cfg) 0.35) in *.
  set (ct := Spec.effectiveThreshold (complexThreshold cfg) 0.65) in *.
  assert (A : Number.ltb (Number.Num st) (Number.Num st) = false)
    by (apply Number_ltb_ge, Qle_refl).
  assert (B : Number.ltb (Number.Num st) (Number.Num ct) = true)
    by (apply Number_ltb_lt, Hlt).
  assert (C : Number.ltb (Number.Num ct) (Number.Num st) = false)
    by (apply Number_ltb_ge, Qlt_le_weak, Hlt).
  assert (D : Number.ltb (Number.Num ct) (Number.Num ct) = false)
    by (apply Number_ltb_ge, Qle_refl).
  rewrite A, B, C, D. split; reflexivity.
Qed.

Lemma boundary_upper_tier_witness :
  (Spec.effectiveThreshold (simpleThreshold Examples.config_defaults) 0.35 <
   Spec.effectiveThreshold (complexThreshold Examples.config_defaults) 0.65)%Q /\
  rec_tier (Classifier.getModelForComplexity #0.35 Examples.config_defaults) = medium /\
  rec_tier (Classifier.getModelForComplexity #0.65 Examples.config_defaults) = complex.
Proof.
  assert (H : (Spec.effectiveThreshold (simpleThreshold Examples.config_defaults) 0.35 <
               Spec.effectiveThreshold (complexThreshold Examples.config_defaults) 0.65)%Q)
    by reflexivity.
  split; [exact H|].
  destruct (boundary_upper_tier Examples.config_defaults H) as [A B].
  split.
  - exact (f_equal rec_tier A).
  - exact (f_equal rec_tier B).
Defined.

(** C10: the two tier mappers are the same function. *)
Theorem getModelForScore_eq_getModelForComplexity (score : Number.t) (config : Config) :
  OllamaClassifier.getModelForScore score config =
  Classifier.getModelForComplexity score config.
Proof.
  unfold OllamaClassifier.getModelForScore, Classifier.getModelForComplexity.
  destruct (Number.ltb score _); [reflexivity|].
  destruct (Number.ltb score _); reflexivity.
Qed.

(* ================================================================== *)
(** * The heuristic scorer *)

(** The heuristic score of a string is a number between 0 and 1. *)
Lemma calculateComplexity_string_bounds
  (JSON_stringify : jsval -> option jsstring) (prompt : jsstring) :
  exists q, Classifier.calculateComplexity JSON_stringify (PString prompt) =
            Normal (Number.Num q) /\ (0 <= q <= 1)%Q.
Proof.
  unfold Classifier.calculateComplexity. cbn [Classifier.textOf bind].
  destruct (Classifier.analyzeCodeContent prompt) as [codeBlocks codeLines].
  generalize (length (RegExp.String_split prompt Classifier.re_spaces)).
  generalize (Classifier.countMatches Classifier.COMPLEX_PATTERNS prompt).
  generalize (Classifier.countMatches Classifier.SIMPLE_PATTERNS prompt).
  generalize (Classifier.countMatches Classifier.MEDIUM_PATTERNS prompt).
  generalize (length (Classifier.orEmpty
                        (RegExp.String_match prompt Classifier.re_questionMark))).
  generalize (length (Classifier.orEmpty
                        (RegExp.String_match prompt Classifier.re_numberedItem))).
  intros numberedItems questionMarks mediumMatches simpleMatches complexMatches
         wordCount.
  repeat match goal with
         | |- context [if ?b then _ else _] => destruct b
         end;
    cbv [Number.add Number.sub Number.mul Number.ofNat Number.Math_max
         Number.Math_min];
    (eexists; split;
     [reflexivity | split; [apply Q.le_max_l | apply Q.max_lub; [lra | apply Q.le_min_l]]]).
Qed.

(** A non-string input is scored as its serialized text. *)
Lemma calculateComplexity_serialized
  (JSON_stringify : jsval -> option jsstring) (v : jsval) (text : jsstring) :
  JSON_stringify v = Some text ->
  Classifier.calculateComplexity JSON_stringify (PObject v) =
  Classifier.calculateComplexity JSON_stringify (PString text).
Proof.
  intros H. unfold Classifier.calculateComplexity.
  cbn [Classifier.textOf]. rewrite H. reflexivity.
Qed.

(** C9 (amended): the heuristic score of every string, the empty one
    included, is a number between 0 and 1; a non-string input that
    [JSON.stringify] serializes ([null], a boolean, a number, an array, an
    object) gets the score of its serialized text, between 0 and 1 as well;
    on [undefined], which [JSON.stringify] does not serialize, the scorer
    throws a TypeError. *)
Theorem calculateComplexity_clamped
  (Number_toString : Number.t -> jsstring) (input : jsval) :
  let calculateComplexity :=
    Classifier.calculateComplexity (JSON.stringify Number_toString) in
  let score := calculateComplexity (Spec.asPrompt input) in
  match input with
  | VString text =>
      exists q, score = Normal (Number.Num q) /\ (0 <= q <= 1)%Q
  | VUndefined => score = Throw TypeError
  | _ =>
      exists text q,
        JSON.stringify Number_toString input = Some text /\
        score = calculateComplexity (PString text) /\
        score = Normal (Number.Num q) /\ (0 <= q <= 1)%Q
  end.
Proof.
  intros calculateComplexity score.
  assert (S : forall text,
             Spec.asPrompt input = PObject input ->
             JSON.stringify Number_toString input = Some text ->
             exists text q,
               JSON.stringify Number_toString input = Some text /\
               score = calculateComplexity (PString text) /\
               score = Normal (Number.Num q) /\ (0 <= q <= 1)%Q).
  { intros text A H. subst score calculateComplexity. rewrite A.
    pose proof (calculateComplexity_serialized _ input text H) as E.
    destruct (calculateComplexity_string_bounds
                (JSON.stringify Number_toString) text) as (q & Eq & Hq).
    exists text, q. rewrite E. auto. }
  destruct input; try (eapply S; reflexivity).
  - reflexivity.
  - apply calculateComplexity_string_bounds.
Qed.

(** C9 (as stated, refuted): [undefined] is a non-string input that
    [JSON.stringify] does not turn into a text; [text.split] then fails, and
    the scorer throws instead of returning a score, and so does
    [classify]. *)
Lemma calculateComplexity_undefined_counterexample :
  JSON.stringify Examples.toString_none VUndefined = None /\
  Classifier.calculateComplexity (JSON.stringify Examples.toString_none)
                                 (Spec.asPrompt VUndefined) = Throw TypeError /\
  Classifier.classify (JSON.stringify Examples.toString_none)
                      (Spec.asPrompt VUndefined) emptyConfig = Throw TypeError.
Proof. repeat split. Qed.

(** [JSON.stringify] on values: the texts of [null], an array with a hole
    and an object with a quote in a string. *)
Example stringify_values :
  JSON.stringify Examples.toString_none VNull = Some (js "null") /\
  JSON.stringify Examples.toString_none (VArray [VBool true; VUndefined; VString (js "a")])
  = Some (js "[true,null," ++ [34; 97; 34; 93]%N) /\
  JSON.stringify Examples.toString_none
    (VObject [(js "k", VString [34; 10]%N); (js "u", VUndefined)])
  = Some ([123; 34; 107; 34; 58; 34; 92; 34; 92; 110; 34; 125]%N).
Proof. repeat split. Qed.

(** C6: under the default thresholds the heuristic classifier maps the
    three literal prompts to simple (score below 0.35), medium (score in
    [[0.35, 0.65)]) and complex (score at least 0.65). *)
Theorem classify_literal_prompts (JSON_stringify : jsval -> option jsstring) :
  (exists c,
      Classifier.classify JSON_stringify (PString Examples.prompt_simple) emptyConfig
        = Normal c /\
      cls_tier c = simple /\ Number.lt (cls_score c) #0.35) /\
  (exists c,
      Classifier.classify JSON_stringify (PString Examples.prompt_medium) emptyConfig
        = Normal c /\
      cls_tier c = medium /\
      Number.le #0.35 (cls_score c) /\ Number.lt (cls_score c) #0.65) /\
  (exists c,
      Classifier.classify JSON_stringify (PString Examples.prompt_complex) emptyConfig
        = Normal c /\
      cls_tier c = complex /\ Number.le #0.65 (cls_score c)).
Proof.
  split; [|split]; eexists; (split; [vm_compute; reflexivity|]); cbn [cls_tier cls_score].
  - split; [reflexivity | vm_compute; reflexivity].
  - split; [reflexivity | split; [intros H; discriminate H | vm_compute; reflexivity]].
  - split; [reflexivity | intros H; discriminate H].
Qed.

(** The scores of the three literal prompts: 0.15, 0.38 and 0.77; the same
    tiers result under the explicit thresholds 0.35 and 0.65. *)
Lemma classify_literal_prompts_scores (JSON_stringify : jsval -> option jsstring) :
  Spec.hasScore
    (Classifier.calculateComplexity JSON_stringify (PString Examples.prompt_simple))
    0.15 /\
  Spec.hasScore
    (Classifier.calculateComplexity JSON_stringify (PString Examples.prompt_medium))
    0.38 /\
  Spec.hasScore
    (Classifier.calculateComplexity JSON_stringify (PString Examples.prompt_complex))
    0.77 /\
  rec_tier (Classifier.getModelForComplexity #0.15 Examples.config_defaults) = simple /\
  rec_tier (Classifier.getModelForComplexity #0.38 Examples.config_defaults) = medium /\
  rec_tier (Classifier.getModelForComplexity #0.77 Examples.config_defaults) = complex.
Proof.
  do 5 (split; [vm_compute; reflexivity|]). vm_compute; reflexivity.
Qed.

(** The empty prompt is one short word: its score is 0.35. *)
Example calculateComplexity_empty (JSON_stringify : jsval -> option jsstring) :
  Spec.hasScore (Classifier.calculateComplexity JSON_stringify (PString [])) 0.35.
Proof. vm_compute; reflexivity. Qed.

(** Two texts of more than 200 words each that agree on every other signal
    (code blocks, pattern matches, question marks, numbered items) get the
    same score, however many words each has: no text is scored higher for
    having more than 500 words. *)
Lemma word_count_above_200_is_one_band
  (JSON_stringify : jsval -> option jsstring) (text1 text2 : jsstring) :
  200 < length (RegExp.String_split text1 Classifier.re_spaces) ->
  200 < length (RegExp.String_split text2 Classifier.re_spaces) ->
  Classifier.analyzeCodeContent text1 = Classifier.analyzeCodeContent text2 ->
  Classifier.countMatches Classifier.COMPLEX_PATTERNS text1 =
    Classifier.countMatches Classifier.COMPLEX_PATTERNS text2 ->
  Classifier.countMatches Classifier.SIMPLE_PATTERNS text1 =
    Classifier.countMatches Classifier.SIMPLE_PATTERNS text2 ->
  Classifier.countMatches Classifier.MEDIUM_PATTERNS text1 =
    Classifier.countMatches Classifier.MEDIUM_PATTERNS text2 ->
  length (Classifier.orEmpty (RegExp.String_match text1 Classifier.re_questionMark)) =
    length (Classifier.orEmpty (RegExp.String_match text2 Classifier.re_questionMark)) ->
  length (Classifier.orEmpty (RegExp.String_match text1 Classifier.re_numberedItem)) =
    length (Classifier.orEmpty (RegExp.String_match text2 Classifier.re_numberedItem)) ->
  Classifier.calculateComplexity JSON_stringify (PString text1) =
  Classifier.calculateComplexity JSON_stringify (PString text2).
Proof.
  intros W1 W2 Hcode Hc Hs Hm Hq Hn.
  unfold Classifier.calculateComplexity. cbn [Classifier.textOf bind].
  rewrite Hcode, Hc, Hs, Hm, Hq, Hn.
  destruct (Classifier.analyzeCodeContent text2) as [codeBlocks codeLines].
  generalize dependent (length (RegExp.String_split text1 Classifier.re_spaces)).
  generalize dependent (length (RegExp.String_split text2 Classifier.re_spaces)).
  intros w2 W2 w1 W1.
  assert (A1 : (w1 <? 20) = false) by (apply Nat.ltb_ge; lia).
  assert (B1 : (w1 <? 50) = false) by (apply Nat.ltb_ge; lia).
  assert (C1 : (200 <? w1) = true) by (apply Nat.ltb_lt; lia).
  assert (D1 : (w1 <? 30) = false) by (apply Nat.ltb_ge; lia).
  assert (A2 : (w2 <? 20) = false) by (apply Nat.ltb_ge; lia).
  assert (B2 : (w2 <? 50) = false) by (apply Nat.ltb_ge; lia).
  assert (C2 : (200 <? w2) = true) by (apply Nat.ltb_lt; lia).
  assert (D2 : (w2 <? 30) = false) by (apply Nat.ltb_ge; lia).
  rewrite A1, B1, C1, D1, A2, B2, C2, D2. reflexivity.
Qed.

(** C4 (the code at the failing input): a text of 501 words and a text of
    201 words that differ in nothing but their length get the same score
    0.6, that is the same adjustment +0.1: the branch [wordCount > 500]
    comes after [wordCount > 200] and is never taken. *)
Theorem very_long_text_scores_as_long_text (JSON_stringify : jsval -> option jsstring) :
  length (RegExp.String_split (Examples.words 500) Classifier.re_spaces) = 501 /\
  length (RegExp.String_split (Examples.words 200) Classifier.re_spaces) = 201 /\
  Spec.hasScore
    (Classifier.calculateComplexity JSON_stringify (PString (Examples.words 500)))
    0.6 /\
  Spec.hasScore
    (Classifier.calculateComplexity JSON_stringify (PString (Examples.words 200)))
    0.6 /\
  Classifier.calculateComplexity JSON_stringify (PString (Examples.words 500)) =
  Classifier.calculateComplexity JSON_stringify (PString (Examples.words 200)).
Proof.
  do 4 (split; [vm_compute; reflexivity|]). vm_compute; reflexivity.
Qed.

(* ================================================================== *)
(** * The external scorer *)

Lemma digit_not_space (c : N) :
  JsString.isDigit c = true -> JsString.isWhiteSpace c = false.
Proof.
  unfold JsString.isDigit, JsString.isWhiteSpace.
  rewrite andb_true_iff, !N.leb_le. intros [H1 H2].
  repeat match goal with
         | |- context [(?a <=? ?b)%N] => destruct (N.leb_spec a b); try lia
         | |- context [(?a =? ?b)%N] => destruct (N.eqb_spec a b); try lia
         end;
    try reflexivity.
Qed.

Lemma digit_not_sign (c : N) :
  JsString.isDigit c = true -> (c =? 45)%N = false /\ (c =? 43)%N = false.
Proof.
  unfold JsString.isDigit. rewrite andb_true_iff, !N.leb_le. intros [H1 H2].
  split; apply N.eqb_neq; lia.
Qed.

Lemma digitsPrefix_leadingDigits (s : jsstring) :
  OllamaClassifier.digitsPrefix s = Spec.leadingDigits s.
Proof. induction s as [|c s IH]; simpl; [|rewrite IH]; reflexivity. Qed.

Lemma leadingDigits_idempotent (s : jsstring) :
  Spec.leadingDigits (Spec.leadingDigits s) = Spec.leadingDigits s.
Proof.
  induction s as [|c s IH]; simpl; [reflexivity|].
  destruct (JsString.isDigit c) eqn:E; simpl; [|reflexivity].
  now rewrite E, IH.
Qed.

Lemma firstn_leadingDigits (s : jsstring) :
  firstn (length (Spec.leadingDigits s)) s = Spec.leadingDigits s.
Proof.
  induction s as [|c s IH]; simpl; [reflexivity|].
  destruct (JsString.isDigit c); simpl; [now rewrite IH | reflexivity].
Qed.

(** The greedy [\d+] followed by nothing consumes the leading digits. *)
Lemma matchTerms_digits (s : jsstring) :
  RegExp.matchTerms false [RegExp.T RegExp.Digit RegExp.Plus] s =
  match s with
  | c :: s' => if JsString.isDigit c
               then Some (S (length (Spec.leadingDigits s'))) else None
  | [] => None
  end.
Proof.
  destruct s as [|c s]; [reflexivity|].
  cbn [RegExp.matchTerms RegExp.accepts].
  destruct (JsString.isDigit c); [|reflexivity].
  match goal with
  | |- option_map S (?star s) = _ =>
      assert (H : forall x, star x = Some (length (Spec.leadingDigits x)))
  end.
  { induction x as [|d x IH]; [reflexivity|].
    cbn [Spec.leadingDigits]. rewrite IH.
    destruct (JsString.isDigit d); reflexivity. }
  now rewrite H.
Qed.

(** [exec] on [/\d+/] finds the first run of digits. *)
Lemma execFrom_digits (prev : option N) (s : jsstring) :
  match RegExp.execFrom OllamaClassifier.re_digits prev s with
  | Some (i, n) => Spec.firstDigitRun s = Some (firstn n (skipn i s))
  | None => Spec.firstDigitRun s = None
  end.
Proof.
  revert prev. induction s as [|c s IH]; intros prev; [reflexivity|].
  cbn [RegExp.execFrom]. unfold RegExp.matchAt.
  cbn [RegExp.anchored RegExp.source RegExp.ignoreCase OllamaClassifier.re_digits andb].
  rewrite matchTerms_digits. cbn [Spec.firstDigitRun].
  destruct (JsString.isDigit c).
  - cbn [skipn firstn]. now rewrite firstn_leadingDigits.
  - specialize (IH (Some c)).
    destruct (RegExp.execFrom OllamaClassifier.re_digits (Some c) s) as [[i n]|];
      exact IH.
Qed.

Lemma String_match_digits (s : jsstring) :
  RegExp.String_match s OllamaClassifier.re_digits =
  option_map (fun run => [run]) (Spec.firstDigitRun s).
Proof.
  unfold RegExp.String_match, RegExp.exec. cbn [RegExp.global OllamaClassifier.re_digits].
  pose proof (execFrom_digits None s) as H.
  destruct (RegExp.execFrom OllamaClassifier.re_digits None s) as [[i n]|];
    now rewrite H.
Qed.

Lemma firstDigitRun_shape (s : jsstring) (run : list N) :
  Spec.firstDigitRun s = Some run ->
  exists c rest, run = c :: rest /\ JsString.isDigit c = true /\
                 Spec.leadingDigits rest = rest.
Proof.
  induction s as [|c s IH]; [discriminate|]. cbn [Spec.firstDigitRun].
  destruct (JsString.isDigit c) eqn:E; [|exact IH].
  intros H. inversion H; subst. exists c, (Spec.leadingDigits s).
  now rewrite leadingDigits_idempotent.
Qed.

Lemma decimalValue_from (ds : list N) (acc : Z) :
  fold_left (fun acc d => (10 * acc + Z.of_N (d - 48))%Z) ds acc =
  (acc * 10 ^ Z.of_nat (length ds) + Spec.decimal ds)%Z.
Proof.
  revert acc. induction ds as [|d ds IH]; intros acc.
  - simpl. lia.
  - cbn [fold_left Spec.decimal length]. rewrite IH.
    rewrite Nat2Z.inj_succ, Z.pow_succ_r by lia. ring.
Qed.

Lemma decimalValue_decimal (ds : list N) :
  OllamaClassifier.decimalValue ds = Spec.decimal ds.
Proof. unfold OllamaClassifier.decimalValue. rewrite decimalValue_from. lia. Qed.

(** [parseInt] on a run of digits is the integer the run denotes. *)
Lemma parseInt10_digits (c : N) (rest : list N) :
  JsString.isDigit c = true -> Spec.leadingDigits rest = rest ->
  OllamaClassifier.parseInt10 (c :: rest) =
  Number.Num (inject_Z (Spec.decimal (c :: rest))).
Proof.
  intros Hc Hrest. unfold OllamaClassifier.parseInt10.
  cbn [JsString.trimStart]. rewrite (digit_not_space c Hc).
  destruct (digit_not_sign c Hc) as [H45 H43]. rewrite H45, H43.
  rewrite digitsPrefix_leadingDigits. cbn [Spec.leadingDigits].
  rewrite Hc, Hrest, decimalValue_decimal, Z.mul_1_l. reflexivity.
Qed.

Lemma leadingDigits_trimEnd (s : jsstring) :
  Spec.leadingDigits (JsString.trimEnd s) = Spec.leadingDigits s.
Proof.
  induction s as [|c s IH]; [reflexivity|].
  cbn [JsString.trimEnd Spec.leadingDigits].
  destruct (JsString.trimEnd s) as [|r rs] eqn:E.
  - destruct (JsString.isDigit c) eqn:D.
    + rewrite (digit_not_space c D). cbn [Spec.leadingDigits]. rewrite D.
      now rewrite <- IH.
    + destruct (JsString.isWhiteSpace c); cbn [Spec.leadingDigits];
        [|rewrite D]; reflexivity.
  - cbn [Spec.leadingDigits] in *. destruct (JsString.isDigit c); [|reflexivity].
    now rewrite IH.
Qed.

Lemma firstDigitRun_trimEnd (s : jsstring) :
  Spec.firstDigitRun (JsString.trimEnd s) = Spec.firstDigitRun s.
Proof.
  induction s as [|c s IH]; [reflexivity|].
  pose proof (leadingDigits_trimEnd s) as L.
  cbn [JsString.trimEnd Spec.firstDigitRun].
  destruct (JsString.trimEnd s) as [|r rs] eqn:E.
  - destruct (JsString.isDigit c) eqn:D.
    + rewrite (digit_not_space c D). cbn [Spec.firstDigitRun]. rewrite D.
      now rewrite <- L.
    + rewrite <- IH.
      destruct (JsString.isWhiteSpace c); cbn [Spec.firstDigitRun];
        [|rewrite D]; reflexivity.
  - cbn [Spec.firstDigitRun]. destruct (JsString.isDigit c).
    + now rewrite <- L.
    + exact IH.
Qed.

Lemma firstDigitRun_trimStart (s : jsstring) :
  Spec.firstDigitRun (JsString.trimStart s) = Spec.firstDigitRun s.
Proof.
  induction s as [|c s IH]; [reflexivity|].
  cbn [JsString.trimStart]. destruct (JsString.isWhiteSpace c) eqn:W; [|reflexivity].
  rewrite IH. cbn [Spec.firstDigitRun].
  destruct (JsString.isDigit c) eqn:D; [|reflexivity].
  rewrite (digit_not_space c D) in W. discriminate.
Qed.

(** Trimming a text does not change the first integer in it. *)
Lemma firstDigitRun_trim (s : jsstring) :
  Spec.firstDigitRun (JsString.trim s) = Spec.firstDigitRun s.
Proof.
  unfold JsString.trim. now rewrite firstDigitRun_trimEnd, firstDigitRun_trimStart.
Qed.

(** The steps of [classifyWithOllama] after a well-formed answer. *)
Lemma score_of_answer (text : jsstring) :
  (let first := match RegExp.String_match (JsString.trim text) OllamaClassifier.re_digits with
                | Some (m :: _) => Some m
                | _ => None
                end in
   let score := OllamaClassifier.parseInt10 (orString first (js "5")) in
   Number.Math_max #0 (Number.Math_min #1 (Number.div score #10))) =
  Number.Num (Spec.clamp01
                (inject_Z match Spec.firstInteger text with
                          | Some n => n
                          | None => 5%Z
                          end / 10)).
Proof.
  cbv zeta. rewrite String_match_digits, firstDigitRun_trim.
  unfold Spec.firstInteger.
  destruct (Spec.firstDigitRun text) as [run|] eqn:E; cbn [option_map].
  - destruct (firstDigitRun_shape text run E) as (c & rest & -> & Hc & Hrest).
    cbn [orString]. rewrite parseInt10_digits by assumption. reflexivity.
  - reflexivity.
Qed.

(** The external scorer computes [Spec.externalScore]. *)
Lemma classifyWithOllama_externalScore
  (axios_post : jsstring -> Completion jsval) (prompt : jsstring) :
  OllamaClassifier.classifyWithOllama axios_post (PString prompt) =
  Normal (Spec.externalScore (axios_post (JsString.substring0 1000 prompt))).
Proof.
  unfold OllamaClassifier.classifyWithOllama, Spec.externalScore, Spec.responseText.
  destruct (axios_post (JsString.substring0 1000 prompt)) as [response|e];
    [|reflexivity].
  destruct response as [| |b|n|s|elems|fields]; try reflexivity.
  cbn [bind Value.get].
  destruct (Value.lookup (js "data") fields) as [| |b|n|s|elems|data];
    try reflexivity.
  cbn [bind Value.get].
  destruct (Value.lookup (js "response") data) as [| |b|n|text|elems|o];
    try reflexivity.
  cbn [bind OllamaClassifier.call_trim try_catch].
  do 2 f_equal. apply score_of_answer.
Qed.

(** C8: for every string prompt the external scorer returns normally: the
    first integer of the upstream answer (5 when there is none) divided by
    10 and clamped to [[0, 1]] when the request succeeds with a textual
    answer, and [null] on a failed request or a malformed answer. *)
Theorem classifyWithOllama_total
  (axios_post : jsstring -> Completion jsval) (prompt : jsstring) :
  OllamaClassifier.classifyWithOllama axios_post (PString prompt) =
  Normal (Spec.externalScore (axios_post (JsString.substring0 1000 prompt))).
Proof. apply classifyWithOllama_externalScore. Qed.

(* ================================================================== *)
(** * The router *)

(** On a string the heuristic scorer returns normally. *)
Lemma calculateComplexity_string
  (JSON_stringify : jsval -> option jsstring) (prompt : jsstring) :
  exists score,
    Classifier.calculateComplexity JSON_stringify (PString prompt) = Normal score.
Proof.
  unfold Classifier.calculateComplexity. cbn [Classifier.textOf bind].
  destruct (Classifier.analyzeCodeContent prompt) as [codeBlocks codeLines].
  eexists. reflexivity.
Qed.

Lemma getModelForComplexity_tier_routing (score : Number.t) (config : Config) :
  rec_tier (Classifier.getModelForComplexity score config) = simple \/
  rec_tier (Classifier.getModelForComplexity score config) = medium \/
  rec_tier (Classifier.getModelForComplexity score config) = complex.
Proof.
  unfold Classifier.getModelForComplexity.
  destruct (Number.ltb score _); [now left|].
  destruct (Number.ltb score _); [right; now left | right; now right].
Qed.

Lemma getModelForComplexity_score (score : Number.t) (config : Config) :
  rec_score (Classifier.getModelForComplexity score config) = score.
Proof.
  unfold Classifier.getModelForComplexity.
  destruct (Number.ltb score _); [reflexivity|].
  destruct (Number.ltb score _); reflexivity.
Qed.

Lemma getModelForScore_same (score : Number.t) (config : Config) :
  OllamaClassifier.getModelForScore score config =
  Classifier.getModelForComplexity score config.
Proof. reflexivity. Qed.

Lemma routed_populated (config : Config) (prompt : jsstring)
      (external : option Number.t) (heuristic : Number.t) :
  Spec.populated (Spec.routed config prompt external heuristic).
Proof.
  unfold Spec.populated, Spec.routed.
  destruct external as [score|]; cbn [cls_model cls_tier cls_source];
    (split; [eexists; reflexivity|]);
    (split; [apply getModelForComplexity_tier_routing|]);
    [now left | now right].
Qed.

(** What the classification steps of the handler compute. *)
Lemma route_routed
  (JSON_stringify : jsval -> option jsstring)
  (axios_post : jsstring -> Completion jsval) (ollamaAvailable : bool)
  (CONFIG : Proxy.CONFIG.t) (prompt : jsstring) :
  exists heuristic,
    Classifier.calculateComplexity JSON_stringify (PString prompt) = Normal heuristic /\
    Proxy.route JSON_stringify axios_post ollamaAvailable CONFIG prompt =
    Normal (Spec.routed (Proxy.classifyConfig CONFIG) prompt
              (if ollamaAvailable
               then Spec.externalScore (axios_post (JsString.substring0 1000 prompt))
               else None)
              heuristic).
Proof.
  destruct (calculateComplexity_string JSON_stringify prompt) as [heuristic H].
  exists heuristic. split; [exact H|].
  unfold Proxy.route, OllamaClassifier.classify, Classifier.classify.
  rewrite H.
  destruct ollamaAvailable.
  - rewrite classifyWithOllama_externalScore. cbn [bind].
    destruct (Spec.externalScore _) as [score|]; cbn [bind Spec.routed].
    + rewrite getModelForScore_same, getModelForComplexity_score. reflexivity.
    + rewrite getModelForComplexity_score. reflexivity.
  - cbn [bind Spec.routed Proxy.passthroughClassification].
    rewrite getModelForComplexity_score. reflexivity.
Qed.

(** C2: when routing is enabled and no override is set, the classification
    steps of the handler always end normally with a populated
    classification: the external score with source [ollama] when the
    external scorer is available and its result is not [null], the
    heuristic score with source [heuristics] otherwise. *)
Theorem route_always_classifies
  (JSON_stringify : jsval -> option jsstring)
  (axios_post : jsstring -> Completion jsval) (ollamaAvailable : bool)
  (CONFIG : Proxy.CONFIG.t) (prompt : jsstring) :
  exists heuristic classification,
    Classifier.calculateComplexity JSON_stringify (PString prompt) = Normal heuristic /\
    classification =
      Spec.routed (Proxy.classifyConfig CONFIG) prompt
        (if ollamaAvailable
         then Spec.externalScore (axios_post (JsString.substring0 1000 prompt))
         else None)
        heuristic /\
    Proxy.route JSON_stringify axios_post ollamaAvailable CONFIG prompt =
      Normal classification /\
    Spec.populated classification.
Proof.
  destruct (route_routed JSON_stringify axios_post ollamaAvailable CONFIG prompt)
    as (heuristic & H & R).
  exists heuristic. eexists. split; [exact H|]. split; [reflexivity|].
  split; [exact R | apply routed_populated].
Qed.


(* ================================================================== *)
(** * The handler and the statistics *)

(** The handler on a request it classifies: the state it reaches and the
    decision it takes. *)
Lemma handler_enabled
  (Number_toString : Number.t -> jsstring)
  (JSON_stringify : jsval -> option jsstring)
  (axios_post : jsstring -> Completion jsval) (ollamaAvailable : bool)
  (CONFIG : Proxy.CONFIG.t) (body : jsval) (stats : Proxy.Stats.t)
  (originalModel : jsval) (fromOpus : bool) (prompt : jsstring) :
  Proxy.routingEnabled CONFIG = true ->
  Value.get body (js "model") = Normal originalModel ->
  Proxy.originalIncludesOpus originalModel = Normal fromOpus ->
  Proxy.extractPrompt Number_toString body = Normal prompt ->
  exists classification target,
    Proxy.route JSON_stringify axios_post ollamaAvailable CONFIG prompt =
      Normal classification /\
    cls_model classification = Some target /\
    Proxy.handler Number_toString JSON_stringify axios_post ollamaAvailable CONFIG
                  body stats =
    ((if fromOpus && negb (Proxy.includesOpus target)
      then Proxy.Stats.incrSaved else fun s => s)
       (Proxy.Stats.incrRouted (cls_tier classification)
                               (Proxy.Stats.incrTotal stats)),
     Normal (VString target, classification)).
Proof.
  intros Hen Hmodel Hopus Hprompt.
  destruct (route_routed JSON_stringify axios_post ollamaAvailable CONFIG prompt)
    as (heuristic & _ & R).
  destruct (routed_populated (Proxy.classifyConfig CONFIG) prompt
              (if ollamaAvailable
               then Spec.externalScore (axios_post (JsString.substring0 1000 prompt))
               else None) heuristic) as ((target & Htarget) & _).
  eexists. exists target. split; [exact R|]. split; [exact Htarget|].
  unfold Proxy.handler, Proxy.bindH, Proxy.modify, Proxy.lift, Proxy.ret.
  rewrite Hmodel, Hprompt, Hen, R, Htarget, Hopus. cbn [bind].
  destruct fromOpus; cbn [andb Proxy.targetIncludesOpus bind];
    [destruct (Proxy.includesOpus target)|]; reflexivity.
Qed.

Lemma saved_incrRouted (tier : Tier) (s : Proxy.Stats.t) :
  Proxy.Stats.saved (Proxy.Stats.incrRouted tier s) = Proxy.Stats.saved s.
Proof. destruct tier; reflexivity. Qed.

(** C3 (amended): for every classified request whose [model] is a string,
    the handler increments [saved] by exactly 1 if and only if the original
    model name contains "opus" and the resolved target model name does not;
    otherwise [saved] is unchanged. *)
Theorem saved_counts_downgrades_from_opus
  (Number_toString : Number.t -> jsstring)
  (JSON_stringify : jsval -> option jsstring)
  (axios_post : jsstring -> Completion jsval) (ollamaAvailable : bool)
  (CONFIG : Proxy.CONFIG.t) (body : jsval) (stats : Proxy.Stats.t)
  (originalModel prompt : jsstring) :
  Proxy.routingEnabled CONFIG = true ->
  Value.get body (js "model") = Normal (VString originalModel) ->
  Proxy.extractPrompt Number_toString body = Normal prompt ->
  exists classification target stats',
    Proxy.handler Number_toString JSON_stringify axios_post ollamaAvailable CONFIG
                  body stats = (stats', Normal (VString target, classification)) /\
    cls_model classification = Some target /\
    (Proxy.Stats.saved stats' = S (Proxy.Stats.saved stats) <->
     Proxy.includesOpus originalModel = true /\ Proxy.includesOpus target = false) /\
    (Proxy.Stats.saved stats' = Proxy.Stats.saved stats <->
     ~ (Proxy.includesOpus originalModel = true /\ Proxy.includesOpus target = false)).
Proof.
  intros Hen Hmodel Hprompt.
  destruct (handler_enabled Number_toString JSON_stringify axios_post ollamaAvailable
              CONFIG body stats (VString originalModel)
              (Proxy.includesOpus originalModel) prompt Hen Hmodel eq_refl Hprompt)
    as (classification & target & _ & Htarget & H).
  exists classification, target. eexists. split; [exact H|]. split; [exact Htarget|].
  destruct (Proxy.includesOpus originalModel), (Proxy.includesOpus target);
    cbn [andb negb Proxy.Stats.incrSaved Proxy.Stats.saved];
    rewrite saved_incrRouted; cbn [Proxy.Stats.incrTotal Proxy.Stats.saved];
    (split; split; intros H'; try lia; try tauto; try (destruct H'; discriminate);
     try (exfalso; apply H'; split; reflexivity)).
Qed.

Lemma saved_counts_downgrades_from_opus_witness :
  exists classification target stats',
    Examples.run Examples.CONFIG_default
      (Examples.request (js "claude-opus-4-20250514") Examples.prompt_simple)
    = (stats', Normal (VString target, classification)) /\
    cls_model classification = Some target /\
    (Proxy.Stats.saved stats' = S (Proxy.Stats.saved Examples.stats0) <->
     Proxy.includesOpus (js "claude-opus-4-20250514") = true /\
     Proxy.includesOpus target = false) /\
    (Proxy.Stats.saved stats' = Proxy.Stats.saved Examples.stats0 <->
     ~ (Proxy.includesOpus (js "claude-opus-4-20250514") = true /\
        Proxy.includesOpus target = false)).
Proof.
  exact (saved_counts_downgrades_from_opus
           Examples.toString_none Examples.stringify_none Examples.unreachable false
           Examples.CONFIG_default
           (Examples.request (js "claude-opus-4-20250514") Examples.prompt_simple)
           Examples.stats0 (js "claude-opus-4-20250514") Examples.prompt_simple
           eq_refl eq_refl eq_refl).
Defined.

(** A request that is not classified (routing disabled, or a forced model)
    leaves [saved] unchanged. *)
Lemma saved_unchanged_without_routing
  (Number_toString : Number.t -> jsstring)
  (JSON_stringify : jsval -> option jsstring)
  (axios_post : jsstring -> Completion jsval) (ollamaAvailable : bool)
  (CONFIG : Proxy.CONFIG.t) (body : jsval) (stats : Proxy.Stats.t) :
  Proxy.routingEnabled CONFIG = false ->
  Proxy.Stats.saved
    (fst (Proxy.handler Number_toString JSON_stringify axios_post ollamaAvailable
                        CONFIG body stats)) = Proxy.Stats.saved stats.
Proof.
  intros Hen. unfold Proxy.handler, Proxy.bindH, Proxy.modify, Proxy.lift, Proxy.ret.
  rewrite Hen.
  destruct (Value.get body (js "model")) as [originalModel|e]; [|reflexivity].
  destruct (Proxy.extractPrompt Number_toString body) as [prompt|e]; [|reflexivity].
  destruct (Proxy.CONFIG.forceModel CONFIG) as [[|c m]|]; reflexivity.
Qed.

(** C3 (as stated, refuted): with the default models a request for
    "claude-3-opus-20240229", which is not the configured complex model,
    increments [saved]; with [COMPLEX_MODEL=big-model] a request for
    "big-model" that is routed to the simple model leaves [saved] at 0. *)
Lemma saved_counter_counterexample :
  JsString.eqb (js "claude-3-opus-20240229")
               (Proxy.CONFIG.complexModel Examples.CONFIG_default) = false /\
  Proxy.Stats.saved
    (fst (Examples.run Examples.CONFIG_default
            (Examples.request (js "claude-3-opus-20240229") Examples.prompt_simple)))
  = 1 /\
  JsString.eqb (js "big-model")
               (Proxy.CONFIG.complexModel Examples.CONFIG_big) = true /\
  Examples.targetModel
    (Examples.run Examples.CONFIG_big
       (Examples.request (js "big-model") Examples.prompt_simple))
  = Some (VString (js "claude-3-5-haiku-20241022")) /\
  JsString.eqb (js "claude-3-5-haiku-20241022")
               (Proxy.CONFIG.complexModel Examples.CONFIG_big) = false /\
  Proxy.Stats.saved
    (fst (Examples.run Examples.CONFIG_big
            (Examples.request (js "big-model") Examples.prompt_simple)))
  = 0.
Proof.
  do 5 (split; [vm_compute; reflexivity|]). vm_compute; reflexivity.
Qed.

(* ================================================================== *)
(** * The prompt extractor *)

Lemma get_prop (v : jsval) (name : jsstring) :
  Spec.nullish v = false -> Value.get v name = Normal (Spec.prop v name).
Proof. destruct v; intros H; try discriminate H; reflexivity. Qed.

Lemma Array_filter_prop (name literal : jsstring) (elems : list jsval) :
  Forall (fun x => Spec.nullish x = false) elems ->
  Proxy.Array_filter
    (fun x => v <- Value.get x name ;; Normal (Value.strictEqString v literal)) elems
  = Normal (filter (fun x => Value.strictEqString (Spec.prop x name) literal) elems).
Proof.
  induction 1 as [|x elems Hx _ IH]; [reflexivity|].
  cbn [Proxy.Array_filter filter]. rewrite (get_prop x name Hx), IH. reflexivity.
Qed.

Lemma Array_map_prop (name : jsstring) (elems : list jsval) :
  Forall (fun x => Spec.nullish x = false) elems ->
  Proxy.Array_map (fun x => Value.get x name) elems
  = Normal (map (fun x => Spec.prop x name) elems).
Proof.
  induction 1 as [|x elems Hx _ IH]; [reflexivity|].
  cbn [Proxy.Array_map map]. rewrite (get_prop x name Hx), IH. reflexivity.
Qed.

Lemma Forall_filter_keeps {A} (P : A -> Prop) (f : A -> bool) (l : list A) :
  Forall P l -> Forall P (filter f l).
Proof.
  rewrite !Forall_forall. intros H x Hx. apply filter_In in Hx. apply H, Hx.
Qed.

Lemma lastElement_rev (elems : list jsval) :
  Proxy.lastElement elems =
  match rev elems with [] => None | x :: _ => Some x end.
Proof.
  induction elems as [|x [|y rest] IH]; [reflexivity | reflexivity |].
  change (Proxy.lastElement (x :: y :: rest)) with (Proxy.lastElement (y :: rest)).
  rewrite IH. change (rev (x :: y :: rest)) with (rev (y :: rest) ++ [x]).
  destruct (rev (y :: rest)) as [|z zs] eqn:E; [|reflexivity].
  apply (f_equal (@length _)) in E. rewrite length_rev in E. discriminate E.
Qed.

(** On a body without [null] elements the extractor reads the last user
    message and nothing else can throw but the conversions of [join]. *)
Lemma extractPrompt_outcome
  (Number_toString : Number.t -> jsstring) (body : jsval) :
  Spec.wellFormedBody body ->
  Proxy.extractPrompt Number_toString body =
  Extra.promptOutcome Number_toString body.
Proof.
  intros [Hbody Hmessages]. unfold Proxy.extractPrompt, Extra.promptOutcome.
  rewrite (get_prop body _ Hbody). cbn [bind].
  destruct (Spec.prop body (js "messages")) as [| |b|n|s|messages|o] eqn:E;
    try reflexivity.
  - cbn [Value.truthy Proxy.isArray negb orb]. rewrite orb_true_r. reflexivity.
  - cbn [Value.truthy Proxy.isArray negb orb]. rewrite orb_true_r. reflexivity.
  - cbn [Value.truthy Proxy.isArray negb orb].
    destruct (match s with [] => false | _ => true end); reflexivity.
  - cbn [Value.truthy Proxy.isArray negb orb].
    destruct (Hmessages messages eq_refl) as [Hall Hparts].
    rewrite Array_filter_prop by assumption. cbn [bind].
    rewrite lastElement_rev.
    fold Spec.isUserMessage. unfold Spec.lastUserMessage in *.
    change (fun x => Value.strictEqString (Spec.prop x (js "role")) (js "user"))
      with Spec.isUserMessage.
    pose proof (Forall_filter_keeps _ Spec.isUserMessage messages Hall) as Husers.
    apply Forall_rev in Husers.
    destruct (rev (filter Spec.isUserMessage messages)) as [|m rest]; [reflexivity|].
    inversion Husers as [|? ? Hm _]; subst.
    rewrite (get_prop m _ Hm). cbn [bind].
    destruct (Spec.prop m (js "content")) as [| |b|n|s|parts|o] eqn:C;
      try reflexivity.
    specialize (Hparts m parts eq_refl C).
    rewrite Array_filter_prop by assumption. cbn [bind].
    rewrite Array_map_prop by (apply Forall_filter_keeps; assumption).
    reflexivity.
Qed.

(** [join('\n')] on strings is the newline-join. *)
Lemma join_lines (texts : list jsstring) :
  JsString.join [10%N] texts = Spec.lines texts.
Proof.
  destruct texts as [|first others]; [reflexivity|].
  revert first. induction others as [|second others IH]; intros first.
  - cbn. now rewrite app_nil_r.
  - change (JsString.join [10%N] (first :: second :: others))
      with (first ++ [10%N] ++ JsString.join [10%N] (second :: others)).
    rewrite IH. reflexivity.
Qed.

(** The conversions of [join] on the [text] fields of plain text parts. *)
Lemma Array_texts_plain
  (Number_toString : Number.t -> jsstring) (parts : list jsval) :
  Forall (fun c => Spec.isText (Spec.prop c (js "text")) = true) parts ->
  Proxy.Array_texts Number_toString (map (fun c => Spec.prop c (js "text")) parts)
  = Normal (map Spec.partText parts).
Proof.
  induction 1 as [|c parts Hc _ IH]; [reflexivity|].
  cbn [map Proxy.Array_texts]. rewrite IH. unfold Spec.partText.
  destruct (Spec.prop c (js "text")); try discriminate Hc; reflexivity.
Qed.

Lemma Forall_filter_holds {A} (P : A -> Prop) (f : A -> bool) (l : list A) :
  Forall (fun x => f x = true -> P x) l -> Forall P (filter f l).
Proof.
  induction 1 as [|x l Hx _ IH]; [constructor|].
  cbn [filter]. destruct (f x) eqn:E; [constructor; auto | assumption].
Qed.

(** With plain text parts the extractor returns the prompt of the body. *)
Lemma extractPrompt_promptOf
  (Number_toString : Number.t -> jsstring) (body : jsval) :
  Spec.wellFormedBody body -> Spec.plainTextParts body ->
  Proxy.extractPrompt Number_toString body = Normal (Spec.promptOf body).
Proof.
  intros W P. rewrite (extractPrompt_outcome Number_toString body W).
  unfold Extra.promptOutcome, Spec.promptOf.
  destruct (Spec.prop body (js "messages")) as [| |b|n|s|messages|o] eqn:E;
    try reflexivity.
  destruct (Spec.lastUserMessage messages) as [m|] eqn:L; [|reflexivity].
  destruct (Spec.prop m (js "content")) as [| |b|n|s|parts|o] eqn:C;
    try reflexivity.
  unfold Proxy.Array_join.
  rewrite Array_texts_plain
    by (apply Forall_filter_holds; exact (P messages m parts E L C)).
  cbn [bind]. now rewrite join_lines.
Qed.

(** C7 (amended): for every request body that is not [null], in which no
    element of [messages] and no part of the content array of the last
    user message is [null], and in which the [text] of every text-typed part
    of that array is a string (or [null] or absent, read as empty), the
    extractor returns normally: the content of the last user-role message
    when it is a string; the newline-join of the [text] fields of its
    text-typed parts when it is an array; the empty string when [messages]
    is missing, not an array or without a user-role message (and when the
    content is neither a string nor an array). *)
Theorem extractPrompt_well_formed
  (Number_toString : Number.t -> jsstring) (body : jsval) :
  Spec.wellFormedBody body -> Spec.plainTextParts body ->
  Proxy.extractPrompt Number_toString body = Normal (Spec.promptOf body).
Proof.
  intros W P. exact (extractPrompt_promptOf Number_toString body W P).
Qed.

Lemma extractPrompt_well_formed_witness :
  Spec.wellFormedBody Examples.request_parts /\
  Spec.plainTextParts Examples.request_parts /\
  Proxy.extractPrompt Examples.toString_none Examples.request_parts
  = Normal (js "first" ++ [10%N] ++ js "second").
Proof.
  assert (W : Spec.wellFormedBody Examples.request_parts).
  { split; [reflexivity|]. intros messages E. inversion E; subst; clear E.
    split; [repeat constructor|].
    intros m parts L C. inversion L; subst; clear L.
    inversion C; subst; clear C. repeat constructor. }
  assert (P : Spec.plainTextParts Examples.request_parts).
  { intros messages m parts E L C. inversion E; subst; clear E.
    inversion L; subst; clear L. inversion C; subst; clear C.
    repeat constructor. }
  split; [exact W|]. split; [exact P|].
  exact (extractPrompt_well_formed Examples.toString_none _ W P).
Defined.

(** An array content: the text parts are joined, the other parts dropped. *)
Example extractPrompt_parts :
  Proxy.extractPrompt Examples.toString_none Examples.request_parts
  = Normal (js "first" ++ [10%N] ++ js "second").
Proof. reflexivity. Qed.

(** C7 (as stated, refuted): on a body whose [messages] holds a [null], the
    callback of [filter] reads [m.role] on [null]: the extractor throws, and
    so does the handler, after it has counted the request. *)
Lemma extractPrompt_null_message_counterexample :
  Proxy.extractPrompt Examples.toString_none Examples.request_null_message
  = Throw TypeError /\
  Examples.run Examples.CONFIG_default Examples.request_null_message =
  (Proxy.Stats.incrTotal Examples.stats0, Throw TypeError).
Proof. split; reflexivity. Qed.

(** A text part whose [text] is an object with an own [toString] property
    cannot be converted by [join]: the extractor throws on it, too. *)
Example extractPrompt_toString_part :
  Spec.wellFormedBody Extra.request_toString_part /\
  Proxy.extractPrompt Examples.toString_none Extra.request_toString_part
  = Throw TypeError.
Proof.
  split; [|reflexivity].
  split; [reflexivity|]. intros messages E. inversion E; subst; clear E.
  split; [repeat constructor|].
  intros m parts L C. inversion L; subst; clear L.
  inversion C; subst; clear C. repeat constructor.
Qed.

(* ================================================================== *)
(** * Further properties of the tier mapper *)

Lemma tierOf_monotone (st ct s1 s2 : Q) :
  (s1 <= s2)%Q ->
  Extra.tierRank (Spec.tierOf st ct s1) <= Extra.tierRank (Spec.tierOf st ct s2).
Proof.
  intros H. unfold Spec.tierOf.
  destruct (Qlt_le_dec s1 st), (Qlt_le_dec s2 st), (Qlt_le_dec s1 ct),
    (Qlt_le_dec s2 ct); cbn [Extra.tierRank]; try lia; exfalso; lra.
Qed.

(** X1: the tier never goes down when the score goes up, whatever the
    config: for scores [s1 <= s2] the tier of [s1] is at most the tier of
    [s2] in the order simple, medium, complex. *)
Theorem tier_monotone_in_score (cfg : Config) (s1 s2 : Q) :
  (s1 <= s2)%Q ->
  Extra.tierRank (rec_tier (Classifier.getModelForComplexity (Number.Num s1) cfg)) <=
  Extra.tierRank (rec_tier (Classifier.getModelForComplexity (Number.Num s2) cfg)).
Proof.
  intros H. rewrite !getModelForComplexity_tier. now apply tierOf_monotone.
Qed.

Lemma tier_monotone_in_score_witness :
  (0.2 <= 0.7)%Q /\
  Extra.tierRank (rec_tier (Classifier.getModelForComplexity #0.2 Extra.config_inverted)) <=
  Extra.tierRank (rec_tier (Classifier.getModelForComplexity #0.7 Extra.config_inverted)).
Proof.
  assert (H : (0.2 <= 0.7)%Q) by (intros E; discriminate E).
  split; [exact H|].
  exact (tier_monotone_in_score Extra.config_inverted 0.2 0.7 H).
Defined.

Lemma orString_nonempty (x : option jsstring) (d : jsstring) :
  d <> [] -> orString x d <> [].
Proof. destruct x as [[|c s]|]; cbn; intros H; try exact H; discriminate. Qed.

Lemma recommendation_parts (score : Number.t) (cfg : Config) :
  rec_model (Classifier.getModelForComplexity score cfg) =
  Extra.modelOfTier cfg (rec_tier (Classifier.getModelForComplexity score cfg)).
Proof.
  unfold Classifier.getModelForComplexity.
  destruct (Number.ltb score _); [|destruct (Number.ltb score _)]; reflexivity.
Qed.

(** X2: the recommendation always carries the score it was given, the
    model the config names for the returned tier (the built-in name when the
    config has none or an empty one), and that model name is never empty. *)
Theorem recommendation_consistent (score : Number.t) (cfg : Config) :
  rec_score (Classifier.getModelForComplexity score cfg) = score /\
  rec_model (Classifier.getModelForComplexity score cfg) =
    Extra.modelOfTier cfg (rec_tier (Classifier.getModelForComplexity score cfg)) /\
  rec_model (Classifier.getModelForComplexity score cfg) <> [].
Proof.
  unfold Classifier.getModelForComplexity.
  destruct (Number.ltb score _); [|destruct (Number.ltb score _)];
    cbn [rec_score rec_model rec_tier Extra.modelOfTier];
    (split; [reflexivity|]); (split; [reflexivity|]);
    apply orString_nonempty; discriminate.
Qed.

(** X3: when the thresholds in effect are inverted or equal
    ([complexThreshold <= simpleThreshold]) no score at all is mapped to the
    medium tier: everything below [simpleThreshold] is simple, the rest
    complex. *)
Theorem inverted_thresholds_skip_medium (score : Number.t) (cfg : Config) :
  (Spec.effectiveThreshold (complexThreshold cfg) 0.65 <=
   Spec.effectiveThreshold (simpleThreshold cfg) 0.35)%Q ->
  rec_tier (Classifier.getModelForComplexity score cfg) <> medium.
Proof.
  intros H. destruct score as [|s].
  - unfold Classifier.getModelForComplexity. rewrite !orDefault_effective.
    cbn. discriminate.
  - rewrite getModelForComplexity_tier. unfold Spec.tierOf.
    destruct (Qlt_le_dec s _) as [A|A]; [discriminate|].
    destruct (Qlt_le_dec s _) as [B|B]; [exfalso; lra | discriminate].
Qed.

Lemma inverted_thresholds_skip_medium_witness :
  (Spec.effectiveThreshold (complexThreshold Extra.config_inverted) 0.65 <=
   Spec.effectiveThreshold (simpleThreshold Extra.config_inverted) 0.35)%Q /\
  rec_tier (Classifier.getModelForComplexity #0.6 Extra.config_inverted) <> medium.
Proof.
  assert (H : (Spec.effectiveThreshold (complexThreshold Extra.config_inverted) 0.65 <=
               Spec.effectiveThreshold (simpleThreshold Extra.config_inverted) 0.35)%Q)
    by (intros E; discriminate E).
  split; [exact H|].
  exact (inverted_thresholds_skip_medium #0.6 Extra.config_inverted H).
Defined.

Lemma unsetNumber_default (x : option Number.t) (d : Number.t) :
  Extra.unsetNumber x = true -> Number.orDefault x d = d.
Proof.
  destruct x as [n|]; cbn; [|reflexivity].
  destruct (Number.truthy n); [discriminate | reflexivity].
Qed.

Lemma unsetString_default (x : option jsstring) (d : jsstring) :
  Extra.unsetString x = true -> orString x d = d.
Proof. destruct x as [[|c s]|]; cbn; intros H; try reflexivity; discriminate. Qed.

(** X4: a config whose properties are all absent or falsy (a threshold 0 or
    [NaN], a model name [""]) behaves exactly as the defaults 0.35, 0.65 and
    the three built-in model names: the same recommendation for every score,
    [NaN] included. *)
Theorem unset_config_is_defaults (score : Number.t) (cfg : Config) :
  Extra.unsetConfig cfg = true ->
  Classifier.getModelForComplexity score cfg =
  Classifier.getModelForComplexity score Extra.DEFAULTS.
Proof.
  unfold Extra.unsetConfig. rewrite !andb_true_iff.
  intros [[[[A B] C] D] E].
  unfold Classifier.getModelForComplexity.
  rewrite (unsetNumber_default _ _ A), (unsetNumber_default _ _ B),
    (unsetString_default _ _ C), (unsetString_default _ _ D),
    (unsetString_default _ _ E).
  reflexivity.
Qed.

Lemma unset_config_is_defaults_witness :
  Extra.unsetConfig Extra.config_falsy = true /\
  Classifier.getModelForComplexity #0.5 Extra.config_falsy =
  Classifier.getModelForComplexity #0.5 Extra.DEFAULTS.
Proof.
  split; [reflexivity|].
  exact (unset_config_is_defaults #0.5 Extra.config_falsy eq_refl).
Defined.

(* ================================================================== *)
(** * The heuristic scorer does not see the case of letters *)

Lemma canonicalize_idempotent (c : N) :
  RegExp.canonicalize (RegExp.canonicalize c) = RegExp.canonicalize c.
Proof.
  unfold RegExp.canonicalize.
  destruct ((97 <=? c) && (c <=? 122))%N eqn:E; [|now rewrite E].
  apply andb_true_iff in E. destruct E as [A B].
  apply N.leb_le in A, B.
  destruct ((97 <=? c - 32) && (c - 32 <=? 122))%N eqn:F; [|reflexivity].
  apply andb_true_iff in F. destruct F as [F _]. apply N.leb_le in F. lia.
Qed.

Lemma canonicalize_cases (c : N) :
  RegExp.canonicalize c = c \/
  ((97 <= c <= 122)%N /\ RegExp.canonicalize c = (c - 32)%N).
Proof.
  unfold RegExp.canonicalize.
  destruct ((97 <=? c) && (c <=? 122))%N eqn:E; [right | now left].
  apply andb_true_iff in E. destruct E as [A B]. apply N.leb_le in A, B. auto.
Qed.

Lemma isLineTerminator_canonicalize (c : N) :
  JsString.isLineTerminator (RegExp.canonicalize c) = JsString.isLineTerminator c.
Proof.
  destruct (canonicalize_cases c) as [->|[[A B] ->]]; [reflexivity|].
  unfold JsString.isLineTerminator. case_tests.
Qed.

Lemma isDigit_canonicalize (c : N) :
  JsString.isDigit (RegExp.canonicalize c) = JsString.isDigit c.
Proof.
  destruct (canonicalize_cases c) as [->|[[A B] ->]]; [reflexivity|].
  unfold JsString.isDigit. case_tests.
Qed.

Lemma isWhiteSpace_canonicalize (c : N) :
  JsString.isWhiteSpace (RegExp.canonicalize c) = JsString.isWhiteSpace c.
Proof.
  destruct (canonicalize_cases c) as [->|[[A B] ->]]; [reflexivity|].
  unfold JsString.isWhiteSpace. case_tests.
Qed.

Lemma eqb_canonicalize_nonletter (p c : N) :
  Extra.isAsciiLetter p = false ->
  (p =? RegExp.canonicalize c)%N = (p =? c)%N.
Proof.
  intros H. destruct (canonicalize_cases c) as [->|[[A B] ->]]; [reflexivity|].
  unfold Extra.isAsciiLetter in H.
  apply orb_false_iff in H. destruct H as [H1 H2].
  apply andb_false_iff in H1, H2. rewrite !N.leb_gt in H1, H2.
  destruct (N.eqb_spec p (c - 32)), (N.eqb_spec p c); try reflexivity; lia.
Qed.

Lemma accepts_canonicalize (ic : bool) (a : RegExp.CharSet) (q : RegExp.Quant) (c : N) :
  Extra.caseBlindTerm ic (RegExp.T a q) = true ->
  RegExp.accepts ic a (RegExp.canonicalize c) = RegExp.accepts ic a c.
Proof.
  intros H. destruct a as [p| | | |]; cbn [RegExp.accepts].
  - cbn in H. destruct ic.
    + now rewrite canonicalize_idempotent.
    + cbn in H. apply negb_true_iff in H. now apply eqb_canonicalize_nonletter.
  - now rewrite isLineTerminator_canonicalize.
  - apply isDigit_canonicalize.
  - apply isWhiteSpace_canonicalize.
  - reflexivity.
Qed.

Lemma matchTerms_canonicalize (ic : bool) (ts : list RegExp.Term) :
  forallb (Extra.caseBlindTerm ic) ts = true ->
  forall s, RegExp.matchTerms ic ts (up s) = RegExp.matchTerms ic ts s.
Proof.
  induction ts as [|[a q] ts IH]; intros H s; [reflexivity|].
  cbn [forallb] in H. apply andb_true_iff in H. destruct H as [Ht Hts].
  specialize (IH Hts).
  pose proof (fun c => accepts_canonicalize ic a q c Ht) as Hacc.
  assert (Hstar : forall x,
    (fix star (s : jsstring) : option nat :=
       match s with
       | [] => RegExp.matchTerms ic ts s
       | c :: s' =>
           if RegExp.accepts ic a c
           then match star s' with
                | Some n => Some (S n)
                | None => RegExp.matchTerms ic ts s
                end
           else RegExp.matchTerms ic ts s
       end) (up x) =
    (fix star (s : jsstring) : option nat :=
       match s with
       | [] => RegExp.matchTerms ic ts s
       | c :: s' =>
           if RegExp.accepts ic a c
           then match star s' with
                | Some n => Some (S n)
                | None => RegExp.matchTerms ic ts s
                end
           else RegExp.matchTerms ic ts s
       end) x).
  { induction x as [|c x IHx]; [apply (IH [])|].
    cbn [map]. rewrite Hacc, IHx.
    change (RegExp.canonicalize c :: up x) with (up (c :: x)). now rewrite IH. }
  assert (Hlazy : forall x,
    (fix lazy (s : jsstring) : option nat :=
       match RegExp.matchTerms ic ts s with
       | Some n => Some n
       | None =>
           match s with
           | [] => None
           | c :: s' =>
               if RegExp.accepts ic a c then option_map S (lazy s') else None
           end
       end) (up x) =
    (fix lazy (s : jsstring) : option nat :=
       match RegExp.matchTerms ic ts s with
       | Some n => Some n
       | None =>
           match s with
           | [] => None
           | c :: s' =>
               if RegExp.accepts ic a c then option_map S (lazy s') else None
           end
       end) x).
  { induction x as [|c x IHx]; [cbn [map]; reflexivity|].
    cbn [map]. rewrite Hacc, IHx.
    change (RegExp.canonicalize c :: up x) with (up (c :: x)). now rewrite IH. }
  cbn [RegExp.matchTerms].
  destruct q.
  - destruct s as [|c s]; [reflexivity|]. cbn [map]. now rewrite Hacc, IH.
  - destruct s as [|c s]; cbn [map]; [apply (IH [])|].
    rewrite Hacc, IH. change (RegExp.canonicalize c :: up s) with (up (c :: s)).
    now rewrite IH.
  - apply Hstar.
  - destruct s as [|c s]; [reflexivity|]. cbn [map]. now rewrite Hacc, Hstar.
  - apply Hlazy.
Qed.

Lemma matchAt_canonicalize (re : RegExp.t) (prev : option N) (s : jsstring) :
  Extra.caseBlind re = true ->
  RegExp.matchAt re (upPrev prev) (up s) = RegExp.matchAt re prev s.
Proof.
  intros H. unfold RegExp.matchAt, RegExp.atLineStart.
  rewrite (matchTerms_canonicalize _ _ H).
  destruct prev as [p|]; cbn [upPrev option_map]; [|reflexivity].
  now rewrite isLineTerminator_canonicalize.
Qed.

Lemma execFrom_canonicalize (re : RegExp.t) (prev : option N) (s : jsstring) :
  Extra.caseBlind re = true ->
  RegExp.execFrom re (upPrev prev) (up s) = RegExp.execFrom re prev s.
Proof.
  intros H. revert prev. induction s as [|c s IH]; intros prev.
  - cbn [map RegExp.execFrom]. now rewrite <- (matchAt_canonicalize re prev [] H).
  - cbn [map RegExp.execFrom].
    change (RegExp.canonicalize c :: up s) with (up (c :: s)).
    rewrite (matchAt_canonicalize re prev (c :: s) H).
    change (Some (RegExp.canonicalize c)) with (upPrev (Some c)).
    now rewrite IH.
Qed.

Lemma test_canonicalize (re : RegExp.t) (s : jsstring) :
  Extra.caseBlind re = true -> RegExp.test re (up s) = RegExp.test re s.
Proof.
  intros H. unfold RegExp.test, RegExp.exec.
  change None with (upPrev None) at 1. now rewrite execFrom_canonicalize.
Qed.

Lemma matchAllFrom_canonicalize (re : RegExp.t) (skip : nat) (prev : option N)
      (s : jsstring) :
  Extra.caseBlind re = true ->
  RegExp.matchAllFrom re skip (upPrev prev) (up s) =
  map up (RegExp.matchAllFrom re skip prev s).
Proof.
  intros H. revert skip prev. induction s as [|c s IH]; intros skip prev.
  - destruct skip; cbn [map RegExp.matchAllFrom]; [|reflexivity].
    rewrite <- (matchAt_canonicalize re prev [] H). cbn [map].
    destruct (RegExp.matchAt re (upPrev prev) []) as [n|]; [|reflexivity].
    cbn [map]. now rewrite firstn_nil.
  - destruct skip as [|skip]; cbn [map RegExp.matchAllFrom].
    + change (RegExp.canonicalize c :: up s) with (up (c :: s)).
      rewrite (matchAt_canonicalize re prev (c :: s) H).
      change (Some (RegExp.canonicalize c)) with (upPrev (Some c)).
      destruct (RegExp.matchAt re prev (c :: s)) as [n|].
      * rewrite firstn_map, IH. reflexivity.
      * apply IH.
    + change (Some (RegExp.canonicalize c)) with (upPrev (Some c)). apply IH.
Qed.

Lemma String_match_length_canonicalize (re : RegExp.t) (s : jsstring) :
  Extra.caseBlind re = true -> RegExp.global re = true ->
  RegExp.String_match (up s) re = option_map (map up) (RegExp.String_match s re).
Proof.
  intros H G. unfold RegExp.String_match. rewrite G.
  change None with (upPrev None) at 1.
  rewrite matchAllFrom_canonicalize by assumption.
  destruct (RegExp.matchAllFrom re 0 None s); reflexivity.
Qed.

Lemma splitFrom_canonicalize (re : RegExp.t) (skip : nat) (prev : option N)
      (cur s : jsstring) :
  Extra.caseBlind re = true ->
  RegExp.splitFrom re skip (upPrev prev) (up cur) (up s) =
  map up (RegExp.splitFrom re skip prev cur s).
Proof.
  intros H. revert skip prev cur. induction s as [|c s IH]; intros skip prev cur.
  - reflexivity.
  - cbn [map RegExp.splitFrom].
    change (Some (RegExp.canonicalize c)) with (upPrev (Some c)).
    destruct skip as [|skip]; [|apply IH].
    change (RegExp.canonicalize c :: up s) with (up (c :: s)).
    rewrite (matchAt_canonicalize re prev (c :: s) H).
    destruct (RegExp.matchAt re prev (c :: s)) as [[|n]|].
    + destruct cur as [|x cur]; cbn [map].
      * apply (IH 0 (Some c) [c]).
      * f_equal. apply (IH 0 (Some c) [c]).
    + cbn [map]. f_equal. apply (IH n (Some c) []).
    + rewrite <- IH. now rewrite map_app.
Qed.

Lemma String_split_canonicalize (re : RegExp.t) (s : jsstring) :
  Extra.caseBlind re = true ->
  RegExp.String_split (up s) re = map up (RegExp.String_split s re).
Proof.
  intros H. unfold RegExp.String_split. destruct s as [|c s].
  - cbn [map]. destruct (RegExp.matchAt re None []); reflexivity.
  - cbn [map]. change (RegExp.canonicalize c :: up s) with (up (c :: s)).
    change None with (upPrev None) at 1. change (@nil N) with (up []) at 1.
    now apply splitFrom_canonicalize.
Qed.

Lemma countMatches_canonicalize (patterns : list RegExp.t) (s : jsstring) :
  forallb Extra.caseBlind patterns = true ->
  Classifier.countMatches patterns (up s) = Classifier.countMatches patterns s.
Proof.
  unfold Classifier.countMatches. generalize 0.
  induction patterns as [|re patterns IH]; intros acc H; [reflexivity|].
  cbn [forallb] in H. apply andb_true_iff in H. destruct H as [Hre H].
  cbn [fold_left]. rewrite (test_canonicalize re s Hre). now apply IH.
Qed.

Lemma split1_canonicalize (cur s : jsstring) :
  JsString.split1 10 (up cur) (up s) = map up (JsString.split1 10 cur s).
Proof.
  revert cur. induction s as [|c s IH]; intros cur; [reflexivity|].
  cbn [map JsString.split1].
  rewrite (N.eqb_sym (RegExp.canonicalize c)), (N.eqb_sym c),
    (eqb_canonicalize_nonletter 10 c eq_refl).
  destruct (10 =? c)%N.
  - cbn [map]. f_equal. apply (IH []).
  - rewrite <- IH. now rewrite map_app.
Qed.

Lemma codeLines_canonicalize (blocks : list jsstring) (acc : nat) :
  fold_left (fun acc block => acc + length (JsString.split block 10)) (map up blocks) acc =
  fold_left (fun acc block => acc + length (JsString.split block 10)) blocks acc.
Proof.
  revert acc. induction blocks as [|b blocks IH]; intros acc; [reflexivity|].
  cbn [map fold_left]. rewrite IH.
  replace (JsString.split (up b) 10) with (map up (JsString.split b 10))
    by (symmetry; apply (split1_canonicalize [] b)).
  now rewrite length_map.
Qed.

Lemma orEmpty_canonicalize (x : option (list jsstring)) :
  Classifier.orEmpty (option_map (map up) x) = map up (Classifier.orEmpty x).
Proof. destruct x; reflexivity. Qed.

Lemma analyzeCodeContent_canonicalize (s : jsstring) :
  Classifier.analyzeCodeContent (up s) = Classifier.analyzeCodeContent s.
Proof.
  unfold Classifier.analyzeCodeContent.
  rewrite String_match_length_canonicalize by reflexivity.
  now rewrite orEmpty_canonicalize, codeLines_canonicalize, length_map.
Qed.

Lemma calculateComplexity_canonicalize
  (JSON_stringify : jsval -> option jsstring) (text : jsstring) :
  Classifier.calculateComplexity JSON_stringify (PString (up text)) =
  Classifier.calculateComplexity JSON_stringify (PString text).
Proof.
  unfold Classifier.calculateComplexity. cbn [Classifier.textOf bind].
  rewrite analyzeCodeContent_canonicalize.
  rewrite (String_split_canonicalize Classifier.re_spaces) by reflexivity.
  rewrite !countMatches_canonicalize by reflexivity.
  rewrite !String_match_length_canonicalize by reflexivity.
  now rewrite !orEmpty_canonicalize, !length_map.
Qed.

(** X5: the heuristic score does not depend on the case of ASCII letters:
    two texts that differ in letter case only get the same score. *)
Theorem score_ignores_letter_case
  (JSON_stringify : jsval -> option jsstring) (text1 text2 : jsstring) :
  Extra.sameLetters text1 text2 ->
  Classifier.calculateComplexity JSON_stringify (PString text1) =
  Classifier.calculateComplexity JSON_stringify (PString text2).
Proof.
  intros H.
  rewrite <- (calculateComplexity_canonicalize JSON_stringify text1),
    <- (calculateComplexity_canonicalize JSON_stringify text2).
  unfold Extra.sameLetters in H. now rewrite H.
Qed.

Lemma score_ignores_letter_case_witness :
  Extra.sameLetters (js "what is typescript?") (js "What Is TypeScript?") /\
  Classifier.calculateComplexity Examples.stringify_none
    (PString (js "what is typescript?")) =
  Classifier.calculateComplexity Examples.stringify_none
    (PString (js "What Is TypeScript?")).
Proof.
  assert (H : Extra.sameLetters (js "what is typescript?") (js "What Is TypeScript?"))
    by reflexivity.
  split; [exact H|].
  exact (score_ignores_letter_case Examples.stringify_none _ _ H).
Defined.

(* ================================================================== *)
(** * Code blocks *)

Lemma matchAt_codeBlock_no_backtick (prev : option N) (s : jsstring) :
  Extra.noBacktick s = true -> RegExp.matchAt Classifier.re_codeBlock prev s = None.
Proof.
  intros H. unfold RegExp.matchAt. cbn [RegExp.anchored Classifier.re_codeBlock andb].
  destruct s as [|c s]; [reflexivity|].
  cbn [Extra.noBacktick forallb] in H. apply andb_true_iff in H. destruct H as [H _].
  apply negb_true_iff in H. rewrite N.eqb_sym in H.
  cbn in H |- *. now rewrite H.
Qed.

Lemma matchAllFrom_codeBlock_no_backtick (prev : option N) (s : jsstring) :
  Extra.noBacktick s = true ->
  RegExp.matchAllFrom Classifier.re_codeBlock 0 prev s = [].
Proof.
  revert prev. induction s as [|c s IH]; intros prev H.
  - cbn [RegExp.matchAllFrom]. now rewrite matchAt_codeBlock_no_backtick.
  - cbn [RegExp.matchAllFrom]. rewrite matchAt_codeBlock_no_backtick by assumption.
    apply IH. cbn [Extra.noBacktick forallb] in H.
    apply andb_true_iff in H. apply H.
Qed.

(** X6: a text without a backtick has no code block and no code line, so
    it gets no code adjustment. *)
Theorem no_backtick_no_code (text : jsstring) :
  Extra.noBacktick text = true ->
  Classifier.analyzeCodeContent text = (0, 0).
Proof.
  intros H. unfold Classifier.analyzeCodeContent, RegExp.String_match.
  cbn [RegExp.global Classifier.re_codeBlock].
  now rewrite matchAllFrom_codeBlock_no_backtick.
Qed.

Lemma no_backtick_no_code_witness :
  Extra.noBacktick Examples.prompt_complex = true /\
  Classifier.analyzeCodeContent Examples.prompt_complex = (0, 0).
Proof.
  split; [reflexivity|].
  exact (no_backtick_no_code Examples.prompt_complex eq_refl).
Defined.

(* ================================================================== *)
(** * The external scorer: ratings and tiers *)

Lemma rating_over_ten (n : Z) :
  ((n <= 3)%Z /\ (inject_Z n / 10 <= 0.3)%Q) \/
  ((4 <= n <= 6)%Z /\ (0.4 <= inject_Z n / 10 <= 0.6)%Q) \/
  ((7 <= n)%Z /\ (0.7 <= inject_Z n / 10)%Q).
Proof.
  set (x := (inject_Z n / 10)%Q).
  assert (Hx : (x * 10 == inject_Z n)%Q) by (unfold x; field).
  clearbody x.
  destruct (Z_le_gt_dec n 3) as [A|A]; [left|right].
  - split; [exact A|]. rewrite Zle_Qle in A. change (inject_Z 3) with 3%Q in A. lra.
  - destruct (Z_le_gt_dec n 6) as [B|B]; [left|right].
    + assert (A' : (4 <= n)%Z) by lia. split; [lia|].
      rewrite Zle_Qle in A', B.
      change (inject_Z 4) with 4%Q in A'. change (inject_Z 6) with 6%Q in B. lra.
    + assert (B' : (7 <= n)%Z) by lia. split; [lia|].
      rewrite Zle_Qle in B'. change (inject_Z 7) with 7%Q in B'. lra.
Qed.

Lemma clamped_rating_tier (n : Z) :
  Spec.tierOf 0.35 0.65 (Spec.clamp01 (inject_Z n / 10)) = Extra.ratingTier n.
Proof.
  unfold Spec.tierOf, Extra.ratingTier, Spec.clamp01.
  pose proof (rating_over_ten n) as R.
  set (x := (inject_Z n / 10)%Q) in *. clearbody x.
  destruct (Q.max_spec 0 (Qmin 1 x)) as [[M1 M2]|[M1 M2]];
    destruct (Q.min_spec 1 x) as [[N1 N2]|[N1 N2]];
    destruct (Qlt_le_dec (Qmax 0 (Qmin 1 x)) 0.35) as [C|C];
    try destruct (Qlt_le_dec (Qmax 0 (Qmin 1 x)) 0.65) as [D|D];
    destruct R as [[A X]|[[A X]|[A X]]];
    destruct (Z.leb_spec n 3); try lia;
    try (destruct (Z.leb_spec n 6); try lia);
    try reflexivity; exfalso; lra.
Qed.

(** X7: under the default thresholds the external scorer maps the rating
    it reads in the answer (the first integer, 5 when there is none) to the
    tiers the classification prompt announces: up to 3 simple, 4 to 6
    medium, 7 and more complex; the classification has source [ollama]. *)
Theorem external_rating_bands
  (axios_post : jsstring -> Completion jsval) (prompt text : jsstring) :
  Spec.responseText (axios_post (JsString.substring0 1000 prompt)) = Some text ->
  exists c,
    OllamaClassifier.classify axios_post (PString prompt) emptyConfig = Normal (Some c) /\
    cls_source c = Some ollama /\
    cls_tier c = Extra.ratingTier match Spec.firstInteger text with
                                  | Some n => n
                                  | None => 5%Z
                                  end.
Proof.
  intros H. unfold OllamaClassifier.classify.
  rewrite classifyWithOllama_externalScore. unfold Spec.externalScore. rewrite H.
  cbn [bind]. eexists. split; [reflexivity|]. split; [reflexivity|].
  cbn [cls_tier]. rewrite getModelForScore_same, getModelForComplexity_tier.
  apply clamped_rating_tier.
Qed.

Lemma external_rating_bands_witness :
  exists c,
    OllamaClassifier.classify (Extra.answering (js " 7/10 "))
                              (PString Examples.prompt_simple) emptyConfig
    = Normal (Some c) /\
    cls_source c = Some ollama /\
    cls_tier c = Extra.ratingTier match Spec.firstInteger (js " 7/10 ") with
                                  | Some n => n
                                  | None => 5%Z
                                  end.
Proof.
  exact (external_rating_bands (Extra.answering (js " 7/10 "))
           Examples.prompt_simple (js " 7/10 ") eq_refl).
Defined.

(** X8: whatever the model server answers, the external scorer on a string
    prompt ends normally, and a score it returns is a number between 0 and
    1, never [NaN]. *)
Theorem external_score_in_unit_interval
  (axios_post : jsstring -> Completion jsval) (prompt : jsstring) :
  match OllamaClassifier.classifyWithOllama axios_post (PString prompt) with
  | Normal (Some score) => Number.le #0 score /\ Number.le score #1
  | Normal None => True
  | Throw _ => False
  end.
Proof.
  rewrite classifyWithOllama_externalScore. unfold Spec.externalScore.
  destruct (Spec.responseText _); [|exact I].
  cbn [Number.le]. apply clamp01_bounds.
Qed.

(* ================================================================== *)
(** * The availability probe *)

Lemma Array_some_names (base : jsstring) (names : list jsstring) (elems : list jsval) :
  map (fun m => Spec.prop m (js "name")) elems = map VString names ->
  OllamaProbe.Array_some (OllamaProbe.nameIncludes base) elems =
  Normal (existsb (fun n => JsString.includes n base) names).
Proof.
  revert names. induction elems as [|m elems IH]; intros [|n names] H;
    try discriminate H; [reflexivity|].
  cbn [map] in H. inversion H as [[Hm Hrest]].
  cbn [OllamaProbe.Array_some existsb]. unfold OllamaProbe.nameIncludes at 1.
  assert (G : Value.get m (js "name") = Normal (VString n)).
  { destruct m; try discriminate Hm. cbn [Value.get]. cbn [Spec.prop] in Hm.
    now rewrite Hm. }
  rewrite G. cbn [bind].
  destruct (JsString.includes n base); [reflexivity|]. now apply IH.
Qed.

(** X9: when [/api/tags] answers with an array of models whose names are
    strings, the probe reports available exactly when some listed name
    contains the configured model name up to its first colon; the tag
    after the colon is not compared. *)
Theorem probe_matches_base_name
  (response : jsval) (elems : list jsval) (names : list jsstring)
  (OLLAMA_MODEL : jsstring) :
  Spec.prop (Spec.prop response (js "data")) (js "models") = VArray elems ->
  map (fun m => Spec.prop m (js "name")) elems = map VString names ->
  OllamaProbe.isOllamaAvailable (Normal response) OLLAMA_MODEL =
  Normal (existsb (fun n => JsString.includes n (OllamaProbe.baseName OLLAMA_MODEL))
                  names).
Proof.
  intros Hmodels Hnames. unfold OllamaProbe.isOllamaAvailable. cbn [bind].
  destruct response as [| |b|n|s|l|fields]; try discriminate Hmodels.
  cbn [Value.get bind]. cbn [Spec.prop] in Hmodels.
  destruct (Value.lookup (js "data") fields) as [| |b|n|s|l|data];
    try discriminate Hmodels.
  cbn [Value.get bind]. cbn [Spec.prop] in Hmodels. rewrite Hmodels.
  cbn [Value.truthy]. rewrite (Array_some_names _ names elems Hnames).
  reflexivity.
Qed.

Lemma probe_matches_base_name_witness :
  OllamaProbe.isOllamaAvailable
    (Normal (Extra.listing [js "llama3:8b"; js "phi3:medium"])) (js "phi3:mini")
  = Normal true.
Proof.
  exact (probe_matches_base_name
           (Extra.listing [js "llama3:8b"; js "phi3:medium"])
           _ [js "llama3:8b"; js "phi3:medium"] (js "phi3:mini") eq_refl eq_refl).
Defined.

(** X10: the probe never throws: it always returns a boolean, and that
    boolean is false when the request fails, when the answer has no [data],
    and when [data.models] is absent, empty or not an array. *)
Theorem probe_never_throws (axios_get : Completion jsval) (OLLAMA_MODEL : jsstring) :
  (exists available,
      OllamaProbe.isOllamaAvailable axios_get OLLAMA_MODEL = Normal available) /\
  (match axios_get with
   | Normal response =>
       match Spec.prop (Spec.prop response (js "data")) (js "models") with
       | VArray (_ :: _) => True
       | _ => OllamaProbe.isOllamaAvailable axios_get OLLAMA_MODEL = Normal false
       end
   | Throw _ => OllamaProbe.isOllamaAvailable axios_get OLLAMA_MODEL = Normal false
   end).
Proof.
  unfold OllamaProbe.isOllamaAvailable.
  destruct axios_get as [response|e]; [|split; [eexists|]; reflexivity].
  cbn [bind].
  destruct response as [| |b|n|s|l|fields];
    try (split; [eexists|]; reflexivity).
  cbn [Value.get bind Spec.prop].
  destruct (Value.lookup (js "data") fields) as [| |b|n|s|l|data];
    try (split; [eexists|]; reflexivity).
  cbn [Value.get bind Spec.prop].
  destruct (Value.lookup (js "models") data) as [| |b|n|s|elems|o];
    cbn [Value.truthy];
    try (split; [eexists|]; reflexivity).
  - destruct b; split; try (eexists; reflexivity); reflexivity.
  - destruct (Number.truthy n); split; try (eexists; reflexivity); reflexivity.
  - destruct s; split; try (eexists; reflexivity); reflexivity.
  - split.
    + destruct (OllamaProbe.Array_some _ elems); eexists; reflexivity.
    + destruct elems; [reflexivity | exact I].
Qed.

(* ================================================================== *)
(** * The statistics over every request *)

Lemma route_tier_model
  (JSON_stringify : jsval -> option jsstring)
  (axios_post : jsstring -> Completion jsval) (ollamaAvailable : bool)
  (CONFIG : Proxy.CONFIG.t) (prompt : jsstring) :
  exists c,
    Proxy.route JSON_stringify axios_post ollamaAvailable CONFIG prompt = Normal c /\
    cls_model c = Some (Extra.configuredModel CONFIG (cls_tier c)) /\
    (cls_tier c = simple \/ cls_tier c = medium \/ cls_tier c = complex).
Proof.
  destruct (route_routed JSON_stringify axios_post ollamaAvailable CONFIG prompt)
    as (heuristic & _ & R).
  eexists. split; [exact R|].
  unfold Spec.routed, Extra.configuredModel.
  destruct (if ollamaAvailable then _ else None) as [score|];
    cbn [cls_model cls_tier];
    (split; [f_equal; apply recommendation_parts
            | apply getModelForComplexity_tier_routing]).
Qed.

(** The statistics a request leaves behind: the request is counted; when it
    is classified a routing bucket is incremented; then possibly [saved]. *)
Lemma handler_stats_cases
  (Number_toString : Number.t -> jsstring)
  (JSON_stringify : jsval -> option jsstring)
  (axios_post : jsstring -> Completion jsval) (ollamaAvailable : bool)
  (CONFIG : Proxy.CONFIG.t) (body : jsval) (stats : Proxy.Stats.t) :
  fst (Proxy.handler Number_toString JSON_stringify axios_post ollamaAvailable CONFIG
                     body stats) = Proxy.Stats.incrTotal stats \/
  exists t, (t = simple \/ t = medium \/ t = complex) /\
    (fst (Proxy.handler Number_toString JSON_stringify axios_post ollamaAvailable
                        CONFIG body stats)
       = Proxy.Stats.incrRouted t (Proxy.Stats.incrTotal stats) \/
     fst (Proxy.handler Number_toString JSON_stringify axios_post ollamaAvailable
                        CONFIG body stats)
       = Proxy.Stats.incrSaved (Proxy.Stats.incrRouted t (Proxy.Stats.incrTotal stats))).
Proof.
  unfold Proxy.handler, Proxy.bindH, Proxy.modify, Proxy.lift, Proxy.ret.
  destruct (Value.get body (js "model")) as [originalModel|e]; [|now left].
  destruct (Proxy.extractPrompt Number_toString body) as [prompt|e]; [|now left].
  destruct (Proxy.routingEnabled CONFIG).
  - destruct (route_tier_model JSON_stringify axios_post ollamaAvailable CONFIG prompt)
      as (c & R & M & T).
    rewrite R, M. right. exists (cls_tier c). split; [exact T|].
    destruct (Proxy.originalIncludesOpus originalModel) as [[|]|e];
      cbn [bind Proxy.targetIncludesOpus fst]; try now left.
    destruct (Proxy.includesOpus _); cbn [negb fst]; [now left | now right].
  - left. destruct (Proxy.CONFIG.forceModel CONFIG) as [[|x m]|]; reflexivity.
Qed.

(** X11: every request is counted exactly once in [total], also when the
    handler throws (on a malformed body) and when routing is disabled or
    forced. *)
Theorem every_request_counted_once
  (Number_toString : Number.t -> jsstring)
  (JSON_stringify : jsval -> option jsstring)
  (axios_post : jsstring -> Completion jsval) (ollamaAvailable : bool)
  (CONFIG : Proxy.CONFIG.t) (body : jsval) (stats : Proxy.Stats.t) :
  Proxy.Stats.total
    (fst (Proxy.handler Number_toString JSON_stringify axios_post ollamaAvailable
                        CONFIG body stats)) = S (Proxy.Stats.total stats).
Proof.
  destruct (handler_stats_cases Number_toString JSON_stringify axios_post
              ollamaAvailable CONFIG body stats) as [H|(t & T & [H|H])];
    rewrite H; destruct T as [->|[->| ->]] || idtac; reflexivity.
Qed.

Lemma handler_consistent
  (Number_toString : Number.t -> jsstring)
  (JSON_stringify : jsval -> option jsstring)
  (axios_post : jsstring -> Completion jsval) (ollamaAvailable : bool)
  (CONFIG : Proxy.CONFIG.t) (body : jsval) (stats : Proxy.Stats.t) :
  Extra.consistent stats ->
  Extra.consistent
    (fst (Proxy.handler Number_toString JSON_stringify axios_post ollamaAvailable
                        CONFIG body stats)).
Proof.
  unfold Extra.consistent, Extra.routedTotal. intros [A B].
  destruct (handler_stats_cases Number_toString JSON_stringify axios_post
              ollamaAvailable CONFIG body stats) as [H|(t & T & [H|H])];
    rewrite H; try (destruct T as [->|[->| ->]]); cbn; lia.
Qed.

(** X12: the counters stay consistent over any series of requests handled
    one after another, whatever the requests and the answers of the model
    server: [saved <= routed.simple + routed.medium + routed.complex <=
    total]. *)
Theorem stats_stay_consistent
  (Number_toString : Number.t -> jsstring)
  (JSON_stringify : jsval -> option jsstring)
  (axios_post : jsstring -> Completion jsval) (ollamaAvailable : bool)
  (CONFIG : Proxy.CONFIG.t) (bodies : list jsval) (stats : Proxy.Stats.t) :
  Extra.consistent stats ->
  Extra.consistent
    (Extra.handleAll Number_toString JSON_stringify axios_post ollamaAvailable CONFIG
                     bodies stats).
Proof.
  revert stats. induction bodies as [|body bodies IH]; intros stats H; [exact H|].
  cbn [Extra.handleAll]. apply IH. now apply handler_consistent.
Qed.

Lemma stats_stay_consistent_witness :
  Extra.consistent Examples.stats0 /\
  Extra.consistent
    (Extra.handleAll Examples.toString_none Examples.stringify_none
       Examples.unreachable false Examples.CONFIG_default
       [Examples.request (js "claude-opus-4-20250514") Examples.prompt_simple;
        Examples.request_null_message;
        Examples.request (js "claude-opus-4-20250514") Examples.prompt_complex]
       Examples.stats0).
Proof.
  assert (H : Extra.consistent Examples.stats0) by (split; apply le_n).
  split; [exact H|].
  exact (stats_stay_consistent Examples.toString_none Examples.stringify_none
           Examples.unreachable false Examples.CONFIG_default _ Examples.stats0 H).
Defined.

(* ================================================================== *)
(** * The routing decision *)

(** X13: a classified request is sent to the model [CONFIG] names for the
    tier of its classification (the built-in name if [CONFIG] has an empty
    one), and exactly the counter of that tier is incremented: it and the
    sum of the three counters grow by one. *)
Theorem classified_request_routed_to_tier_model
  (Number_toString : Number.t -> jsstring)
  (JSON_stringify : jsval -> option jsstring)
  (axios_post : jsstring -> Completion jsval) (ollamaAvailable : bool)
  (CONFIG : Proxy.CONFIG.t) (body : jsval) (stats : Proxy.Stats.t)
  (originalModel : jsval) (fromOpus : bool) (prompt : jsstring) :
  Proxy.routingEnabled CONFIG = true ->
  Value.get body (js "model") = Normal originalModel ->
  Proxy.originalIncludesOpus originalModel = Normal fromOpus ->
  Proxy.extractPrompt Number_toString body = Normal prompt ->
  exists c stats',
    Proxy.handler Number_toString JSON_stringify axios_post ollamaAvailable CONFIG
                  body stats
    = (stats', Normal (VString (Extra.configuredModel CONFIG (cls_tier c)), c)) /\
    Extra.routedOf (cls_tier c) stats' = S (Extra.routedOf (cls_tier c) stats) /\
    Extra.routedTotal stats' = S (Extra.routedTotal stats).
Proof.
  intros Hen Hmodel Hopus Hprompt.
  destruct (handler_enabled Number_toString JSON_stringify axios_post ollamaAvailable
              CONFIG body stats originalModel fromOpus prompt Hen Hmodel Hopus Hprompt)
    as (c & target & R & M & H).
  set (b := fromOpus && negb (Proxy.includesOpus target)) in H. clearbody b.
  destruct (route_tier_model JSON_stringify axios_post ollamaAvailable CONFIG prompt)
    as (c' & R' & M' & T).
  rewrite R in R'. inversion R'; subst c'. rewrite M in M'. inversion M'; subst target.
  exists c. eexists. split; [exact H|].
  unfold Extra.routedTotal.
  destruct T as [T|[T|T]]; rewrite T; destruct b; cbn; split; lia.
Qed.

Lemma classified_request_routed_to_tier_model_witness :
  exists c stats',
    Examples.run Examples.CONFIG_default
      (Examples.request (js "claude-opus-4-20250514") Examples.prompt_complex)
    = (stats', Normal (VString (Extra.configuredModel Examples.CONFIG_default
                                  (cls_tier c)), c)) /\
    Extra.routedOf (cls_tier c) stats' = S (Extra.routedOf (cls_tier c) Examples.stats0) /\
    Extra.routedTotal stats' = S (Extra.routedTotal Examples.stats0).
Proof.
  exact (classified_request_routed_to_tier_model
           Examples.toString_none Examples.stringify_none Examples.unreachable false
           Examples.CONFIG_default
           (Examples.request (js "claude-opus-4-20250514") Examples.prompt_complex)
           Examples.stats0 (VString (js "claude-opus-4-20250514")) true
           Examples.prompt_complex eq_refl eq_refl eq_refl eq_refl).
Defined.

(** X14: with a forced model every request the handler can read gets that
    model, whatever the prompt, the model server and the [disabled] flag;
    the classification is [forced] with score 0, the request is counted in
    [total] and in no tier bucket, and [saved] is unchanged. *)
Theorem forced_model_overrides_routing
  (Number_toString : Number.t -> jsstring)
  (JSON_stringify : jsval -> option jsstring)
  (axios_post : jsstring -> Completion jsval) (ollamaAvailable : bool)
  (CONFIG : Proxy.CONFIG.t) (body : jsval) (stats : Proxy.Stats.t)
  (forced_ : jsstring) (originalModel : jsval) (prompt : jsstring) :
  Proxy.CONFIG.forceModel CONFIG = Some forced_ -> forced_ <> [] ->
  Value.get body (js "model") = Normal originalModel ->
  Proxy.extractPrompt Number_toString body = Normal prompt ->
  Proxy.handler Number_toString JSON_stringify axios_post ollamaAvailable CONFIG
                body stats
  = (Proxy.Stats.incrTotal stats,
     Normal (VString forced_, mkClassification None forced #0 (Some src_forced) None)).
Proof.
  intros Hforce Hne Hmodel Hprompt.
  unfold Proxy.handler, Proxy.bindH, Proxy.modify, Proxy.lift, Proxy.ret,
    Proxy.routingEnabled.
  rewrite Hmodel, Hprompt, Hforce.
  destruct forced_ as [|x m]; [contradiction|].
  cbn [negb andb]. rewrite andb_false_r. reflexivity.
Qed.

Lemma forced_model_overrides_routing_witness :
  Examples.run Extra.CONFIG_forced
    (Examples.request (js "claude-opus-4-20250514") Examples.prompt_complex)
  = (Proxy.Stats.incrTotal Examples.stats0,
     Normal (VString (js "claude-3-5-haiku-20241022"),
             mkClassification None forced #0 (Some src_forced) None)).
Proof.
  apply (forced_model_overrides_routing
           Examples.toString_none Examples.stringify_none Examples.unreachable false
           Extra.CONFIG_forced _ Examples.stats0 (js "claude-3-5-haiku-20241022")
           (VString (js "claude-opus-4-20250514")) Examples.prompt_complex);
    try reflexivity.
  discriminate.
Defined.

(** X15: with routing disabled and no forced model the request keeps the
    model it came with, whatever value that is, even none; the
    classification is [passthrough], and only [total] changes. *)
Theorem disabled_routing_passes_model_through
  (Number_toString : Number.t -> jsstring)
  (JSON_stringify : jsval -> option jsstring)
  (axios_post : jsstring -> Completion jsval) (ollamaAvailable : bool)
  (CONFIG : Proxy.CONFIG.t) (body : jsval) (stats : Proxy.Stats.t)
  (originalModel : jsval) (prompt : jsstring) :
  Proxy.CONFIG.disabled CONFIG = true ->
  (Proxy.CONFIG.forceModel CONFIG = None \/ Proxy.CONFIG.forceModel CONFIG = Some []) ->
  Value.get body (js "model") = Normal originalModel ->
  Proxy.extractPrompt Number_toString body = Normal prompt ->
  Proxy.handler Number_toString JSON_stringify axios_post ollamaAvailable CONFIG
                body stats
  = (Proxy.Stats.incrTotal stats,
     Normal (originalModel, mkClassification None passthrough #0 (Some none) None)).
Proof.
  intros Hdis Hforce Hmodel Hprompt.
  unfold Proxy.handler, Proxy.bindH, Proxy.modify, Proxy.lift, Proxy.ret,
    Proxy.routingEnabled.
  rewrite Hmodel, Hprompt, Hdis.
  destruct Hforce as [-> | ->]; reflexivity.
Qed.

Lemma disabled_routing_passes_model_through_witness :
  Examples.run Extra.CONFIG_disabled
    (Examples.request (js "claude-opus-4-20250514") Examples.prompt_simple)
  = (Proxy.Stats.incrTotal Examples.stats0,
     Normal (VString (js "claude-opus-4-20250514"),
             mkClassification None passthrough #0 (Some none) None)).
Proof.
  apply (disabled_routing_passes_model_through
           Examples.toString_none Examples.stringify_none Examples.unreachable false
           Extra.CONFIG_disabled _ Examples.stats0
           (VString (js "claude-opus-4-20250514")) Examples.prompt_simple);
    try reflexivity.
  left; reflexivity.
Defined.

(** X16: when the external scorer is available but gives no score (the
    request fails or the answer is malformed), the classification is the one
    made when the external scorer is unavailable: the heuristic one. *)
Theorem failed_external_scorer_is_unavailable
  (JSON_stringify : jsval -> option jsstring)
  (axios_post : jsstring -> Completion jsval)
  (CONFIG : Proxy.CONFIG.t) (prompt : jsstring) :
  Spec.externalScore (axios_post (JsString.substring0 1000 prompt)) = None ->
  Proxy.route JSON_stringify axios_post true CONFIG prompt =
  Proxy.route JSON_stringify axios_post false CONFIG prompt.
Proof.
  intros H.
  destruct (route_routed JSON_stringify axios_post true CONFIG prompt)
    as (h1 & E1 & R1).
  destruct (route_routed JSON_stringify axios_post false CONFIG prompt)
    as (h2 & E2 & R2).
  rewrite E1 in E2. inversion E2; subst h2.
  rewrite R1, R2, H. reflexivity.
Qed.

Lemma failed_external_scorer_is_unavailable_witness :
  Proxy.route Examples.stringify_none Examples.unreachable true
              Examples.CONFIG_default Examples.prompt_simple =
  Proxy.route Examples.stringify_none Examples.unreachable false
              Examples.CONFIG_default Examples.prompt_simple.
Proof.
  exact (failed_external_scorer_is_unavailable Examples.stringify_none
           Examples.unreachable Examples.CONFIG_default Examples.prompt_simple eq_refl).
Defined.

(* ================================================================== *)
(** * Requests without a prompt *)

Lemma calculateComplexity_empty_value (JSON_stringify : jsval -> option jsstring) :
  exists q, Classifier.calculateComplexity JSON_stringify (PString []) =
            Normal (Number.Num q) /\ (q == 0.35)%Q.
Proof. eexists. split; [vm_compute; reflexivity | reflexivity]. Qed.

(** X17: a request the extractor finds no prompt in (no [messages], no
    user message, a content that is neither text nor parts) is scored 0.35 by
    the heuristics; with the default thresholds and no external scorer this
    is the boundary of the medium tier, so the request is sent to the medium
    model. *)
Theorem request_without_prompt_goes_to_medium
  (Number_toString : Number.t -> jsstring)
  (JSON_stringify : jsval -> option jsstring)
  (axios_post : jsstring -> Completion jsval)
  (CONFIG : Proxy.CONFIG.t) (body : jsval) (stats : Proxy.Stats.t)
  (originalModel : jsval) (fromOpus : bool) :
  Proxy.routingEnabled CONFIG = true ->
  Proxy.CONFIG.simpleThreshold CONFIG = #0.35 ->
  Proxy.CONFIG.complexThreshold CONFIG = #0.65 ->
  Value.get body (js "model") = Normal originalModel ->
  Proxy.originalIncludesOpus originalModel = Normal fromOpus ->
  Proxy.extractPrompt Number_toString body = Normal [] ->
  exists c,
    snd (Proxy.handler Number_toString JSON_stringify axios_post false CONFIG
                       body stats)
    = Normal (VString (Extra.configuredModel CONFIG medium), c) /\
    cls_tier c = medium /\
    cls_source c = Some heuristics /\
    Spec.hasScore (Normal (cls_score c)) 0.35.
Proof.
  intros Hen Hst Hct Hmodel Hopus Hprompt.
  destruct (handler_enabled Number_toString JSON_stringify axios_post false
              CONFIG body stats originalModel fromOpus [] Hen Hmodel Hopus Hprompt)
    as (c & target & R & M & H).
  destruct (route_tier_model JSON_stringify axios_post false CONFIG [])
    as (c' & R' & M' & _).
  rewrite R in R'. inversion R'; subst c'. rewrite M in M'. inversion M'; subst target.
  destruct (route_routed JSON_stringify axios_post false CONFIG [])
    as (h & E & R2).
  destruct (calculateComplexity_empty_value JSON_stringify) as (q & Eq & Hq).
  rewrite Eq in E. inversion E; subst h.
  rewrite R in R2. inversion R2 as [Hc].
  assert (T : cls_tier c = medium).
  { rewrite Hc. cbn [Spec.routed cls_tier]. rewrite getModelForComplexity_tier.
    cbn [Proxy.classifyConfig simpleThreshold complexThreshold]. rewrite Hst, Hct.
    apply (tierOf_cases 0.35 0.65 q); [reflexivity|].
    change (Spec.effectiveThreshold (Some #0.35) 0.35) with 0.35%Q.
    change (Spec.effectiveThreshold (Some #0.65) 0.65) with 0.65%Q.
    split; lra. }
  exists c. rewrite H, T. cbn [snd]. split; [reflexivity|]. split; [reflexivity|].
  rewrite Hc. cbn [Spec.routed cls_source cls_score Spec.hasScore].
  split; [reflexivity | exact Hq].
Qed.

Lemma request_without_prompt_goes_to_medium_witness :
  exists c,
    snd (Examples.run Examples.CONFIG_default Extra.request_no_messages)
    = Normal (VString (Extra.configuredModel Examples.CONFIG_default medium), c) /\
    cls_tier c = medium /\
    cls_source c = Some heuristics /\
    Spec.hasScore (Normal (cls_score c)) 0.35.
Proof.
  exact (request_without_prompt_goes_to_medium
           Examples.toString_none Examples.stringify_none Examples.unreachable
           Examples.CONFIG_default Extra.request_no_messages Examples.stats0
           (VString (js "claude-opus-4-20250514")) true
           eq_refl eq_refl eq_refl eq_refl eq_refl eq_refl).
Defined.

(* ================================================================== *)
(** * Only the last user message is classified *)

(** X18: only the last user message decides the prompt: two well-formed
    conversations with the same last user message give the same prompt,
    whatever the earlier messages and whatever follows that message from
    other roles. *)
Theorem prompt_is_last_user_message
  (Number_toString : Number.t -> jsstring) (body1 body2 : jsval)
  (messages1 messages2 : list jsval) :
  Spec.wellFormedBody body1 -> Spec.wellFormedBody body2 ->
  Spec.prop body1 (js "messages") = VArray messages1 ->
  Spec.prop body2 (js "messages") = VArray messages2 ->
  Spec.lastUserMessage messages1 = Spec.lastUserMessage messages2 ->
  Proxy.extractPrompt Number_toString body1 = Proxy.extractPrompt Number_toString body2.
Proof.
  intros W1 W2 M1 M2 L.
  rewrite !extractPrompt_outcome by assumption.
  unfold Extra.promptOutcome. now rewrite M1, M2, L.
Qed.

Lemma prompt_is_last_user_message_witness :
  Proxy.extractPrompt Examples.toString_none Extra.request_with_history =
  Proxy.extractPrompt Examples.toString_none
    (Examples.request (js "claude-opus-4-20250514") Examples.prompt_simple).
Proof.
  assert (W1 : Spec.wellFormedBody Extra.request_with_history).
  { split; [reflexivity|]. intros messages E. inversion E; subst; clear E.
    split; [repeat constructor|].
    intros m parts L C. inversion L; subst; clear L. discriminate C. }
  assert (W2 : Spec.wellFormedBody
                 (Examples.request (js "claude-opus-4-20250514") Examples.prompt_simple)).
  { split; [reflexivity|]. intros messages E. inversion E; subst; clear E.
    split; [repeat constructor|].
    intros m parts L C. inversion L; subst; clear L. discriminate C. }
  exact (prompt_is_last_user_message Examples.toString_none _ _ _ _ W1 W2
           eq_refl eq_refl eq_refl).
Defined.

(* ================================================================== *)
(** * The requests sent upstream *)

Lemma JsString_eqb_eq (a b : jsstring) : JsString.eqb a b = true <-> a = b.
Proof.
  unfold JsString.eqb. destruct (list_eq_dec N.eq_dec a b); split; intros H;
    try assumption; try reflexivity; try discriminate; contradiction.
Qed.

Lemma JsString_eqb_sym (a b : jsstring) : JsString.eqb a b = JsString.eqb b a.
Proof.
  destruct (JsString.eqb a b) eqn:E, (JsString.eqb b a) eqn:F; try reflexivity.
  - apply JsString_eqb_eq in E. subst. rewrite (proj2 (JsString_eqb_eq b b) eq_refl) in F.
    discriminate.
  - apply JsString_eqb_eq in F. subst. rewrite (proj2 (JsString_eqb_eq a a) eq_refl) in E.
    discriminate.
Qed.

(** Reading a property after [{ ...fields, name: value }]. *)
Lemma lookup_setField (name k : jsstring) (value : jsval)
      (fields : list (jsstring * jsval)) :
  Value.lookup k (Forwarding.setField name value fields) =
  if JsString.eqb k name then value else Value.lookup k fields.
Proof.
  induction fields as [|[k0 v0] fields IH].
  - cbn [Forwarding.setField Value.lookup]. rewrite (JsString_eqb_sym name k).
    destruct (JsString.eqb k name); reflexivity.
  - cbn [Forwarding.setField].
    destruct (JsString.eqb k0 name) eqn:E0.
    + apply JsString_eqb_eq in E0. subst k0. cbn [Value.lookup].
      rewrite (JsString_eqb_sym name k).
      destruct (JsString.eqb k name); reflexivity.
    + cbn [Value.lookup]. destruct (JsString.eqb k0 k) eqn:E1.
      * apply JsString_eqb_eq in E1. subst k0. now rewrite E0.
      * exact IH.
Qed.

Lemma handler_reads_body
  (Number_toString : Number.t -> jsstring)
  (JSON_stringify : jsval -> option jsstring)
  (axios_post : jsstring -> Completion jsval) (ollamaAvailable : bool)
  (CONFIG : Proxy.CONFIG.t) (body : jsval) (stats stats' : Proxy.Stats.t)
  (decision : jsval * Classification) :
  Proxy.handler Number_toString JSON_stringify axios_post ollamaAvailable CONFIG
                body stats = (stats', Normal decision) ->
  Spec.nullish body = false.
Proof.
  unfold Proxy.handler, Proxy.bindH, Proxy.modify, Proxy.lift.
  destruct body; try reflexivity; cbn [Value.get]; discriminate.
Qed.

(** What a routing decision that ends normally tells: the prompt was
    extracted, and the target model is a configured name, the model of the
    request, or none. *)
Lemma handler_decision
  (Number_toString : Number.t -> jsstring)
  (JSON_stringify : jsval -> option jsstring)
  (axios_post : jsstring -> Completion jsval) (ollamaAvailable : bool)
  (CONFIG : Proxy.CONFIG.t) (body : jsval) (stats stats' : Proxy.Stats.t)
  (targetModel : jsval) (classification : Classification) :
  Proxy.handler Number_toString JSON_stringify axios_post ollamaAvailable CONFIG
                body stats = (stats', Normal (targetModel, classification)) ->
  (exists prompt, Proxy.extractPrompt Number_toString body = Normal prompt) /\
  ((exists m, targetModel = VString m) \/ targetModel = VUndefined \/
   targetModel = Spec.prop body (js "model")).
Proof.
  intros H. pose proof (handler_reads_body _ _ _ _ _ _ _ _ _ H) as Hbody.
  revert H. unfold Proxy.handler, Proxy.bindH, Proxy.modify, Proxy.lift, Proxy.ret.
  rewrite (get_prop _ _ Hbody).
  destruct (Proxy.extractPrompt Number_toString body) as [prompt|e];
    [|discriminate].
  intros H. split; [eexists; reflexivity|]. revert H.
  destruct (Proxy.routingEnabled CONFIG).
  - destruct (Proxy.route _ _ _ _ prompt) as [c|e]; [|discriminate].
    match goal with
    | |- match ?x with _ => _ end = _ -> _ => destruct x as [[|]|e]
    end; cbv beta iota; try discriminate;
      (destruct (cls_model c); intros H; inversion H;
       [left; eexists; reflexivity | right; left; reflexivity]).
  - destruct (Proxy.CONFIG.forceModel CONFIG) as [[|x m]|];
      intros H; inversion H;
      [right; right; reflexivity | left; eexists; reflexivity
      | right; right; reflexivity].
Qed.

(** X19: for a request whose body is an object with a [model] that is a
    string (or [null] or absent), once the routing decision has ended
    normally the request is forwarded, and the body sent upstream is the
    request body with its [model] replaced by the target model: every other
    property reads as in the request; the response type asked for is
    [stream] exactly when the request's [stream] is truthy. *)
Theorem forwarded_body_differs_in_model_only
  (Number_toString : Number.t -> jsstring)
  (JSON_stringify : jsval -> option jsstring)
  (axios_post : jsstring -> Completion jsval) (ollamaAvailable : bool)
  (CONFIG : Proxy.CONFIG.t) (req : Forwarding.Request)
  (fields : list (jsstring * jsval)) (stats stats' : Proxy.Stats.t)
  (targetModel : jsval) (classification : Classification) :
  Forwarding.req_body req = VObject fields ->
  Spec.isText (Spec.prop (Forwarding.req_body req) (js "model")) = true ->
  Proxy.handler Number_toString JSON_stringify axios_post ollamaAvailable CONFIG
                (Forwarding.req_body req) stats
  = (stats', Normal (targetModel, classification)) ->
  exists sent,
    Forwarding.forward Number_toString JSON_stringify axios_post ollamaAvailable
                       CONFIG req stats = (stats', Normal sent) /\
    (forall k, Spec.prop (Forwarding.data sent) k =
               if JsString.eqb k (js "model") then targetModel
               else Spec.prop (Forwarding.req_body req) k) /\
    Forwarding.responseType sent =
      Some (if Value.truthy (Spec.prop (Forwarding.req_body req) (js "stream"))
            then js "stream" else js "json").
Proof.
  intros B M H.
  pose proof (handler_reads_body _ _ _ _ _ _ _ _ _ H) as Hbody.
  destruct (handler_decision _ _ _ _ _ _ _ _ _ _ H) as [[prompt Hprompt] Htarget].
  unfold Forwarding.forward, Proxy.bindH. rewrite H. cbn [fst snd].
  unfold Proxy.lift, Forwarding.messagesRequest, Proxy.logDecision.
  rewrite !(get_prop _ _ Hbody), Hprompt. cbn [bind].
  assert (O : exists s, Proxy.ToString Number_toString
                          (Spec.prop (Forwarding.req_body req) (js "model")) = Normal s).
  { destruct (Spec.prop (Forwarding.req_body req) (js "model"));
      try discriminate M; eexists; reflexivity. }
  assert (T : exists s, Proxy.ToString Number_toString targetModel = Normal s).
  { destruct Htarget as [[m ->]|[->| ->]]; [eexists; reflexivity | eexists; reflexivity |].
    exact O. }
  destruct O as [so O], T as [st T]. rewrite O, T. cbn [bind].
  eexists. split; [reflexivity|]. cbn [Forwarding.data Forwarding.responseType].
  split; [|reflexivity].
  intros k. unfold Forwarding.modifiedBody. rewrite B.
  cbn [Spec.prop Forwarding.spread]. apply lookup_setField.
Qed.

Lemma forwarded_body_differs_in_model_only_witness :
  exists sent,
    Forwarding.forward Examples.toString_none Examples.stringify_none
      Examples.unreachable false Examples.CONFIG_default
      (Extra.incoming Examples.request_parts) Examples.stats0
    = (fst (Examples.run Examples.CONFIG_default Examples.request_parts),
       Normal sent) /\
    Spec.prop (Forwarding.data sent) (js "model") =
      VString (js "claude-sonnet-4-20250514") /\
    Spec.prop (Forwarding.data sent) (js "messages") =
      Spec.prop Examples.request_parts (js "messages").
Proof.
  destruct (forwarded_body_differs_in_model_only
              Examples.toString_none Examples.stringify_none Examples.unreachable false
              Examples.CONFIG_default (Extra.incoming Examples.request_parts)
              _ Examples.stats0 _ _ _ eq_refl eq_refl eq_refl) as (sent & F & P & _).
  exists sent. split; [exact F|]. split.
  - exact (P (js "model")).
  - exact (P (js "messages")).
Defined.

(** A [model] that cannot be converted to a string stops the handler at
    the log line: with routing disabled the decision is made, and nothing
    is forwarded. *)
Example forward_toString_model :
  snd (Examples.run Extra.CONFIG_disabled Extra.request_toString_model)
  = Normal (VObject [(js "toString", VNumber #1)], Proxy.passthroughClassification) /\
  snd (Forwarding.forward Examples.toString_none Examples.stringify_none
         Examples.unreachable false Extra.CONFIG_disabled
         (Extra.incoming Extra.request_toString_model) Examples.stats0)
  = Throw TypeError.
Proof. split; reflexivity. Qed.

(** X20: a request to any other endpoint is forwarded with its method, path
    and body unchanged and with every header but [host] unchanged; [host]
    is set to the upstream host. *)
Theorem passthrough_keeps_request (req : Forwarding.Request) (k : jsstring) :
  Forwarding.method (Forwarding.passthroughRequest req) = Forwarding.req_method req /\
  Forwarding.data (Forwarding.passthroughRequest req) = Forwarding.req_body req /\
  Forwarding.url (Forwarding.passthroughRequest req) =
    js "https://api.anthropic.com" ++ Forwarding.req_path req /\
  Value.lookup k (Forwarding.headers (Forwarding.passthroughRequest req)) =
    if JsString.eqb k (js "host") then VString (js "api.anthropic.com")
    else Value.lookup k (Forwarding.req_headers req).
Proof.
  repeat split. cbn [Forwarding.passthroughRequest Forwarding.headers].
  apply lookup_setField.
Qed.

(* ================================================================== *)
(** * The test script *)

(** X21: the repository's test script passes: on its 16 prompts the
    classifier returns the expected tier every time, so the script ends with
    [passed = 16] and [failed = 0]; and no case is a borderline one: every
    score is at least 0.01 away from both thresholds, far more than the
    rounding of a sum of floating-point numbers can move it. *)
Theorem test_script_passes (JSON_stringify : jsval -> option jsstring) :
  TestScript.run JSON_stringify = Normal (16, 0) /\
  Extra.testScoresClear JSON_stringify = true.
Proof. split; vm_compute; reflexivity. Qed.

(* ================================================================== *)
(** * What the handler never does on a well-formed request *)

(** X22: the classification the router returns is coherent: its score is a
    number between 0 and 1, its tier is the one the tier mapper gives that
    score under [CONFIG], and its model is the one [CONFIG] names for that
    tier. *)
Theorem routed_classification_coherent
  (JSON_stringify : jsval -> option jsstring)
  (axios_post : jsstring -> Completion jsval) (ollamaAvailable : bool)
  (CONFIG : Proxy.CONFIG.t) (prompt : jsstring) :
  exists c,
    Proxy.route JSON_stringify axios_post ollamaAvailable CONFIG prompt = Normal c /\
    Number.le #0 (cls_score c) /\ Number.le (cls_score c) #1 /\
    cls_tier c =
      rec_tier (Classifier.getModelForComplexity (cls_score c)
                                                 (Proxy.classifyConfig CONFIG)) /\
    cls_model c = Some (Extra.configuredModel CONFIG (cls_tier c)).
Proof.
  destruct (route_routed JSON_stringify axios_post ollamaAvailable CONFIG prompt)
    as (heuristic & E & R).
  destruct (calculateComplexity_string_bounds JSON_stringify prompt) as (q & Eq & Hq).
  rewrite Eq in E. inversion E; subst heuristic.
  eexists. split; [exact R|].
  unfold Spec.routed, Extra.configuredModel.
  destruct (if ollamaAvailable then _ else None) as [score|] eqn:S;
    cbn [cls_model cls_tier cls_score].
  - assert (B : Number.le #0 score /\ Number.le score #1).
    { destruct ollamaAvailable; [|discriminate S].
      unfold Spec.externalScore in S.
      destruct (Spec.responseText _); [|discriminate S].
      inversion S. cbn [Number.le]. apply clamp01_bounds. }
    destruct B as [B1 B2]. split; [exact B1|]. split; [exact B2|].
    split; [reflexivity | f_equal; apply recommendation_parts].
  - cbn [Number.le]. split; [apply Hq|]. split; [apply Hq|].
    split; [reflexivity | f_equal; apply recommendation_parts].
Qed.

(** X23: on a request body without [null] elements, with plain text parts
    and with a [model] that is a string, an array, [null] or absent, the
    routing part of the handler never throws: it always ends with a target
    model and a classification, in every mode and whatever the model server
    does. *)
Theorem handler_accepts_well_formed_requests
  (Number_toString : Number.t -> jsstring)
  (JSON_stringify : jsval -> option jsstring)
  (axios_post : jsstring -> Completion jsval) (ollamaAvailable : bool)
  (CONFIG : Proxy.CONFIG.t) (body : jsval) (stats : Proxy.Stats.t) :
  Spec.wellFormedBody body -> Spec.plainTextParts body ->
  Spec.searchableModel (Spec.prop body (js "model")) = true ->
  exists targetModel classification,
    snd (Proxy.handler Number_toString JSON_stringify axios_post ollamaAvailable
                       CONFIG body stats) = Normal (targetModel, classification).
Proof.
  intros W P M.
  pose proof (extractPrompt_promptOf Number_toString body W P) as Hprompt.
  destruct W as [Hbody _].
  pose proof (get_prop body (js "model") Hbody) as Hmodel.
  assert (Hopus : exists fromOpus,
             Proxy.originalIncludesOpus (Spec.prop body (js "model"))
             = Normal fromOpus).
  { destruct (Spec.prop body (js "model")); try discriminate M;
      eexists; reflexivity. }
  destruct Hopus as [fromOpus Hopus].
  destruct (Proxy.routingEnabled CONFIG) eqn:Hen.
  - destruct (handler_enabled Number_toString JSON_stringify axios_post
                ollamaAvailable CONFIG body stats _ fromOpus _ Hen Hmodel Hopus Hprompt)
      as (c & target & _ & _ & H).
    rewrite H. cbn [snd]. eexists. eexists. reflexivity.
  - unfold Proxy.handler, Proxy.bindH, Proxy.modify, Proxy.lift, Proxy.ret.
    rewrite Hmodel, Hprompt, Hen.
    destruct (Proxy.CONFIG.forceModel CONFIG) as [[|x m]|];
      cbn [snd]; eexists; eexists; reflexivity.
Qed.

Lemma handler_accepts_well_formed_requests_witness :
  exists targetModel classification,
    snd (Examples.run Examples.CONFIG_default Examples.request_parts)
    = Normal (targetModel, classification).
Proof.
  assert (W : Spec.wellFormedBody Examples.request_parts).
  { split; [reflexivity|]. intros messages E. inversion E; subst; clear E.
    split; [repeat constructor|].
    intros m parts L C. inversion L; subst; clear L.
    inversion C; subst; clear C. repeat constructor. }
  assert (P : Spec.plainTextParts Examples.request_parts).
  { intros messages m parts E L C. inversion E; subst; clear E.
    inversion L; subst; clear L. inversion C; subst; clear C.
    repeat constructor. }
  exact (handler_accepts_well_formed_requests
           Examples.toString_none Examples.stringify_none Examples.unreachable false
           Examples.CONFIG_default Examples.request_parts Examples.stats0
           W P eq_refl).
Defined.
